(** * Multi-connection subscription client (wsClient.ts): model and properties

    A shallow embedding of the multi-connection WebSocket client: the price
    cache, the valuation of an account (margin value plus spot holdings),
    the per-account persistence with resume from disk, the partition of the
    accounts over connections and the connection life cycle (reconnect with
    back-off, health check, shutdown, message dispatch).

    Conventions of the embedding.
    - A JavaScript number is a rational or [NaN]; rounding, overflow and the
      infinities of IEEE doubles are outside the model.  Every number the
      model produces is a reduced fraction, so equal numbers are equal terms.
    - [undefined] / [null] are [None]; a JavaScript [Map] is a [gmap], or a
      list in insertion order where the code iterates over it.
    - An exception that a [try] block catches leaves the state as it was when
      it was thrown; an exception nobody catches is [None].
    - [Date.now()] is an argument [now] of the handler that reads it. *)

From Stdlib Require Import QArith Ascii.
From stdpp Require Import gmap strings list pretty.

Local Open Scope Z_scope.
Local Open Scope string_scope.
Local Open Scope list_scope.
Local Open Scope nat_scope.

(** ** JavaScript values *)

Module JS.

Inductive number : Type :=
| NaN
| Fin (q : Q).

Definition of_Z (z : Z) : number := Fin (Qmake z 1).

(** [a + b] *)
Definition add (a b : number) : number :=
  match a, b with
  | Fin x, Fin y => Fin (Qred (Qplus x y))
  | _, _ => NaN
  end.

(** [a * b] *)
Definition mul (a b : number) : number :=
  match a, b with
  | Fin x, Fin y => Fin (Qred (Qmult x y))
  | _, _ => NaN
  end.

(** [a <= b]; every comparison with [NaN] is false. *)
Definition le (a b : number) : bool :=
  match a, b with
  | Fin x, Fin y => Qle_bool x y
  | _, _ => false
  end.

(** [a < b] *)
Definition lt (a b : number) : bool :=
  match a, b with
  | Fin x, Fin y => negb (Qle_bool y x)
  | _, _ => false
  end.

(** [a > b] *)
Definition gt (a b : number) : bool := lt b a.

(** Truthiness of a string: only the empty string is falsy. *)
Definition truthy (s : string) : bool :=
  match s with
  | EmptyString => false
  | String _ _ => true
  end.

(** [x || d] for a string-or-undefined [x]. *)
Definition or_else (x : option string) (d : string) : string :=
  match x with
  | Some s => if truthy s then s else d
  | None => d
  end.

(** [x || null] *)
Definition or_null (x : option string) : option string :=
  match x with
  | Some s => if truthy s then Some s else None
  | None => None
  end.

(** *** [parseFloat] *)

Definition digit_of (c : ascii) : option Z :=
  let n := nat_of_ascii c in
  if (48 <=? n) && (n <=? 57) then Some (Z.of_nat (n - 48)) else None.

Definition is_space (c : ascii) : bool :=
  let n := nat_of_ascii c in
  ((9 <=? n) && (n <=? 13)) || (n =? 32).

Fixpoint skip_spaces (cs : list ascii) : list ascii :=
  match cs with
  | c :: r => if is_space c then skip_spaces r else cs
  | [] => []
  end.

(** The longest run of decimal digits at the head of [cs], read as an
    integer continuing [acc]; returns the value, the number of digits read
    and the rest. *)
Fixpoint digits (acc : Z) (n : nat) (cs : list ascii) : Z * nat * list ascii :=
  match cs with
  | c :: r =>
      match digit_of c with
      | Some d => digits (10 * acc + d)%Z (S n) r
      | None => (acc, n, cs)
      end
  | [] => (acc, n, [])
  end.

Definition sign_of (cs : list ascii) : bool * list ascii :=
  match cs with
  | "-"%char :: r => (true, r)
  | "+"%char :: r => (false, r)
  | _ => (false, cs)
  end.

(** The exponent part [e±ddd], taken only when at least one digit follows. *)
Definition exponent (cs : list ascii) : Z :=
  match cs with
  | c :: r =>
      if (Ascii.eqb c "e" || Ascii.eqb c "E")%bool then
        let '(neg, r1) := sign_of r in
        let '(e, n, _) := digits 0 0 r1 in
        if (n =? 0) then 0%Z else if neg then (- e)%Z else e
      else 0%Z
  | [] => 0%Z
  end.

(** [m * 10^e] as a reduced fraction. *)
Definition scale (m e : Z) : Q :=
  if (0 <=? e)%Z then Qred (Qmake (m * 10 ^ e) 1)
  else Qred (Qmake m (Z.to_pos (10 ^ (- e)))).

(** [parseFloat(s)]: leading white space is skipped, the longest prefix
    that is a decimal literal is read, [NaN] when there is none.  The literal
    [Infinity] is not read: the model has no infinite number. *)
Definition parseFloat (s : string) : number :=
  let cs := skip_spaces (String.list_ascii_of_string s) in
  let '(neg, cs1) := sign_of cs in
  let '(ip, ni, cs2) := digits 0 0 cs1 in
  let '(m, nf, cs3) :=
    match cs2 with
    | "."%char :: r => digits ip 0 r
    | _ => (ip, 0, cs2)
    end in
  if (ni + nf =? 0) then NaN
  else
    let e := (exponent cs3 - Z.of_nat nf)%Z in
    Fin (scale (if neg then (- m)%Z else m) e).

(** [parseFloat(undefined)] is [NaN]. *)
Definition parseFloat_opt (x : option string) : number :=
  match x with
  | Some s => parseFloat s
  | None => NaN
  end.

(** [s.toLowerCase()], on ASCII letters. *)
Definition lower_ascii (c : ascii) : ascii :=
  let n := nat_of_ascii c in
  if (65 <=? n) && (n <=? 90) then ascii_of_nat (n + 32) else c.

Fixpoint toLowerCase (s : string) : string :=
  match s with
  | EmptyString => EmptyString
  | String c r => String (lower_ascii c) (toLowerCase r)
  end.

End JS.

(** ** Inbound messages (types.ts) *)

(** Only the fields the client reads are kept; every field of a decoded JSON
    object may be missing. *)
Record SpotBalance : Type := {
  coin : string;
  total : option string;
  entryNtl : option string;
}.

Record MarginSummary : Type := {
  accountValue : option string;
}.

Record ClearinghouseState : Type := {
  marginSummary : option MarginSummary;
}.

Record SpotState : Type := {
  balances : option (list SpotBalance);
}.

(** The [data] object of a message: the fields of a [webData2] payload and
    the [mids] of an [allMids] payload. *)
Record MessageData : Type := {
  user : option string;
  serverTime : option Z;
  clearinghouseState : option ClearinghouseState;
  spotState : option SpotState;
  mids : option (gmap string string);
}.

(** ** Configuration constants *)

Definition RECONNECT_DELAY_MS : Z := 5000.
Definition MAX_USERS_PER_CONNECTION : nat := 3.
Definition CONNECTION_STAGGER_DELAY : Z := 1000.
Definition MAX_RECONNECT_ATTEMPTS : nat := 5.
Definition HEALTH_CHECK_INTERVAL : Z := 30000.
Definition SUBSCRIPTION_TYPES : list string := ["webData2"; "allMids"].

(** ** Price cache *)

(** The module-level price state: [latestPrices] and the alias table
    [tokenToAllMidsMapping] that [initializeTokenMapping] fills. *)
Record Prices : Type := {
  latestPrices : gmap string string;
  tokenToAllMidsMapping : gmap string string;
}.

(** The two aliases [initializeTokenMapping] installs when spotMeta.json is
    present and parses; the table stays empty otherwise. *)
Definition initializeTokenMapping (spotMetaPresent : bool) : gmap string string :=
  if spotMetaPresent then <["USDC" := "USDC"]> (<["USOL" := "SOL"]> ∅) else ∅.

Definition updatePriceData (allMidsData : MessageData) (p : Prices) : Prices :=
  match mids allMidsData with
  | Some m =>
      {| latestPrices := m ∪ latestPrices p;
         tokenToAllMidsMapping := tokenToAllMidsMapping p |}
  | None => p
  end.

Definition getTokenPrice (p : Prices) (coin : string) : option string :=
  JS.or_null (latestPrices p !! coin).

Definition getSpotTokenPrice (p : Prices) (spotCoin : string) : option string :=
  if String.eqb spotCoin "USDC" then Some "1.0"
  else
    match JS.or_null (tokenToAllMidsMapping p !! spotCoin) with
    | Some allMidsKey => getTokenPrice p allMidsKey
    | None => getTokenPrice p spotCoin
    end.

(** ** Valuation *)

(** One step of the [forEach] of [calculateTotalAccountValue]. *)
Definition addEntryValue (totalValue : JS.number) (balance : SpotBalance) : JS.number :=
  if String.eqb (coin balance) "USDC"
  then JS.add totalValue (JS.parseFloat_opt (total balance))
  else JS.add totalValue (JS.parseFloat (JS.or_else (entryNtl balance) "0")).

Definition calculateTotalAccountValue
    (clearinghouseValue : string) (spotBalances : list SpotBalance) : JS.number :=
  fold_left addEntryValue spotBalances (JS.parseFloat clearinghouseValue).

(** The marker recorded when a holding is valued at its entry notional. *)
Definition entryNtlMarker (balance : SpotBalance) : string :=
  "entryNtl:" +:+ JS.or_else (entryNtl balance) "0".

(** One step of the [forEach] of
    [calculateTotalAccountValueWithCurrentPrices], on the pair
    (totalValue, pricesUsed). *)
Definition addCurrentValue (p : Prices)
    (acc : JS.number * gmap string string) (balance : SpotBalance)
    : JS.number * gmap string string :=
  let '(totalValue, pricesUsed) := acc in
  let tokenAmount := JS.parseFloat (JS.or_else (total balance) "0") in
  if JS.le tokenAmount (JS.of_Z 0) then acc
  else if String.eqb (coin balance) "USDC" then
    (JS.add totalValue tokenAmount, <[coin balance := "1.00"]> pricesUsed)
  else
    match getSpotTokenPrice p (coin balance) with
    | Some currentPrice =>
        let currentValue := JS.mul tokenAmount (JS.parseFloat currentPrice) in
        (JS.add totalValue currentValue, <[coin balance := currentPrice]> pricesUsed)
    | None =>
        let entryValue := JS.parseFloat (JS.or_else (entryNtl balance) "0") in
        (JS.add totalValue entryValue, <[coin balance := entryNtlMarker balance]> pricesUsed)
    end.

Definition calculateTotalAccountValueWithCurrentPrices (p : Prices)
    (clearinghouseValue : string) (spotBalances : list SpotBalance)
    : JS.number * gmap string string :=
  fold_left (addCurrentValue p) spotBalances
    (JS.parseFloat clearinghouseValue, (∅ : gmap string string)).

(** The prices the entry-notional valuation records: one step of the second
    [forEach] of [createHistoricalDataEntry]. *)
Definition recordEntryPrice
    (pricesUsed : gmap string string) (balance : SpotBalance) : gmap string string :=
  if JS.gt (JS.parseFloat (JS.or_else (total balance) "0")) (JS.of_Z 0) then
    if String.eqb (coin balance) "USDC"
    then <[coin balance := "1.00"]> pricesUsed
    else <[coin balance := entryNtlMarker balance]> pricesUsed
  else pricesUsed.

(** A valuation snapshot.  [totalAccountValue] is written as
    [totalAccountValue.toString()] and only ever read back through
    [parseFloat]; the two are inverse to each other on numbers, so the field
    keeps the number.  [localTime] is the rendering of an instant in UTC+8
    and is kept as the instant it renders. *)
Module Entry.
Record t : Type := {
  totalAccountValue : JS.number;
  clearinghouseState : string;
  spotBalance : list SpotBalance;
  pricesUsed : gmap string string;
  serverTime : option Z;
  localTime : Z;
  priceSource : string;
}.
End Entry.

(** [formatServerTimeToLocal]: [Intl.DateTimeFormat.formatToParts] throws a
    RangeError on an invalid date, that is when the time stamp is missing or
    beyond ±8.64e15 ms. *)
Definition formatServerTimeToLocal (serverTime : option Z) : option Z :=
  match serverTime with
  | Some t => if (Z.abs t <=? 8640000000000000)%Z then Some t else None
  | None => None
  end.

(** [None] when the function throws. *)
Definition createHistoricalDataEntry (p : Prices) (data : MessageData) : option Entry.t :=
  let clearinghouseValue :=
    JS.or_else ((clearinghouseState data ≫= marginSummary) ≫= accountValue) "0" in
  let spotBalances := default [] (spotState data ≫= balances) in
  let useCurrentPrices :=
    bool_decide ("allMids" ∈ SUBSCRIPTION_TYPES) && bool_decide (0 < size (latestPrices p)) in
  let '(totalAccountValue, pricesUsed) :=
    if useCurrentPrices
    then calculateTotalAccountValueWithCurrentPrices p clearinghouseValue spotBalances
    else (calculateTotalAccountValue clearinghouseValue spotBalances,
          fold_left recordEntryPrice spotBalances (∅ : gmap string string)) in
  localTime ← formatServerTimeToLocal (serverTime data);
  Some {| Entry.totalAccountValue := totalAccountValue;
          Entry.clearinghouseState := clearinghouseValue;
          Entry.spotBalance := spotBalances;
          Entry.pricesUsed := pricesUsed;
          Entry.serverTime := serverTime data;
          Entry.localTime := localTime;
          Entry.priceSource := if useCurrentPrices then "currentPrices" else "entryNtl" |}.

(** The inputs of the two worked valuations. *)
Definition usdc50 : SpotBalance :=
  {| coin := "USDC"; total := Some "50"; entryNtl := None |}.
Definition usol2 : SpotBalance :=
  {| coin := "USOL"; total := Some "2"; entryNtl := Some "190" |}.
Definition sampleData (t : Z) : MessageData :=
  {| user := Some "0xabc";
     serverTime := Some t;
     clearinghouseState :=
       Some {| marginSummary := Some {| accountValue := Some "1000.00" |} |};
     spotState := Some {| balances := Some [usdc50; usol2] |};
     mids := None |}.

(** ** Client state (types.ts and the fields of MultiConnectionHyperLiquidClient) *)

Inductive ClientMode : Type := continuous | oneOff.
Inductive DataSaveMode : Type := all | spotAndPerps | historical.
Inductive Status : Type := connected | disconnected | reconnecting.

Global Instance ClientMode_eq_dec : EqDecision ClientMode.
Proof. solve_decision. Defined.
Global Instance DataSaveMode_eq_dec : EqDecision DataSaveMode.
Proof. solve_decision. Defined.
Global Instance Status_eq_dec : EqDecision Status.
Proof. solve_decision. Defined.

(** [ws] is the handle of the socket the connection holds, [None] for [null]. *)
Record ConnectionInfo : Type := {
  id : string;
  ws : option nat;
  userAddresses : list string;
  isConnected : bool;
  reconnectAttempts : nat;
  lastHeartbeat : Z;
  subscriptionTypes : list string;
}.

Record Details : Type := {
  users : list string;
  status : Status;
  messagesCount : nat;
}.

Record ConnectionStats : Type := {
  totalConnections : nat;
  activeConnections : nat;
  totalUsers : nat;
  messagesReceived : nat;
  lastUpdate : Z;
  connectionDetails : gmap string Details;
}.

(** A lowest-value event of the raw modes; [accountValue] is written with
    [toString()] and read back with [parseFloat], and keeps the number. *)
Module Event.
Record t : Type := {
  timestamp : Z;
  accountValue : JS.number;
  serverTime : option Z;
  user : option string;
}.
End Event.

(** The records the client keeps in its arrays and files, and a JSON
    document: an array of records or a single record. *)
Inductive Item : Type :=
| ItemEntry (e : Entry.t)
| ItemRaw (filtered : bool) (d : MessageData) (localTime : Z)
| ItemEvent (ev : Event.t).

Inductive Doc : Type :=
| DocArray (l : list Item)
| DocObject (i : Item).

(** [doc.push(x)]; [None] when [doc] is not an array (a TypeError). *)
Definition push (doc : Doc) (x : Item) : option Doc :=
  match doc with
  | DocArray l => Some (DocArray (l ++ [x]))
  | DocObject _ => None
  end.

(** The per-user maps.  [userKeys] is the key order of [userExistingData]
    (a [Map] iterates in insertion order); after [initializeUserData] every
    [set] on that map is on an existing key.  [processWebData2Message] keys
    the two account-value maps by [data.user] as it arrives, which may be
    [undefined]. *)
Record UserData : Type := {
  userKeys : list string;
  userDataFiles : gmap string string;
  userLowestValueFiles : gmap string string;
  userExistingData : gmap string Doc;
  userExistingLowestData : gmap string Doc;
  userLowestAccountValues : gmap (option string) (option JS.number);
  userHighestAccountValues : gmap (option string) (option JS.number);
  userHistoricalDataFiles : gmap string string;
  userHistoricalLowestFiles : gmap string string;
  userExistingHistoricalData : gmap string Doc;
  userLowestTotalAccountValues : gmap string (option JS.number);
}.

(** [connections] is the [Map] from connection id to connection, in
    insertion order; [healthCheckInterval] is the handle of the armed
    interval timer. *)
Record Client : Type := {
  connections : list ConnectionInfo;
  userToConnectionMap : gmap string string;
  today : string;
  clientMode : ClientMode;
  dataSaveMode : DataSaveMode;
  healthCheckInterval : option nat;
  connectionStats : ConnectionStats;
  userData : UserData;
  lastAllMidsUpdate : Z;
  totalMessagesReceived : nat;
}.

(** A subscription request sent on a socket. *)
Record Subscription : Type := {
  sub_socket : nat;
  sub_type : string;
  sub_user : option string;
}.

(** The client together with what it acts on: the module-level price state,
    the files, the pending [setTimeout] reconnects (delay and connection id),
    the armed [setInterval] handles, the sockets that are open and the
    requests sent. *)
Record World : Type := {
  client : Client;
  prices : Prices;
  files : gmap string Doc;
  timers : list (Z * string);
  intervals : list nat;
  openSockets : list nat;
  sent : list Subscription;
  nextHandle : nat;
}.

(** *** Field updates *)

Definition set_ws (v : option nat) (c : ConnectionInfo) : ConnectionInfo :=
  {| id := id c; ws := v; userAddresses := userAddresses c;
     isConnected := isConnected c; reconnectAttempts := reconnectAttempts c;
     lastHeartbeat := lastHeartbeat c; subscriptionTypes := subscriptionTypes c |}.
Definition set_isConnected (v : bool) (c : ConnectionInfo) : ConnectionInfo :=
  {| id := id c; ws := ws c; userAddresses := userAddresses c;
     isConnected := v; reconnectAttempts := reconnectAttempts c;
     lastHeartbeat := lastHeartbeat c; subscriptionTypes := subscriptionTypes c |}.
Definition set_reconnectAttempts (v : nat) (c : ConnectionInfo) : ConnectionInfo :=
  {| id := id c; ws := ws c; userAddresses := userAddresses c;
     isConnected := isConnected c; reconnectAttempts := v;
     lastHeartbeat := lastHeartbeat c; subscriptionTypes := subscriptionTypes c |}.
Definition set_lastHeartbeat (v : Z) (c : ConnectionInfo) : ConnectionInfo :=
  {| id := id c; ws := ws c; userAddresses := userAddresses c;
     isConnected := isConnected c; reconnectAttempts := reconnectAttempts c;
     lastHeartbeat := v; subscriptionTypes := subscriptionTypes c |}.

Definition set_status (v : Status) (d : Details) : Details :=
  {| users := users d; status := v; messagesCount := messagesCount d |}.
Definition set_messagesCount (v : nat) (d : Details) : Details :=
  {| users := users d; status := status d; messagesCount := v |}.

Definition set_totalConnections (v : nat) (s : ConnectionStats) : ConnectionStats :=
  {| totalConnections := v; activeConnections := activeConnections s;
     totalUsers := totalUsers s; messagesReceived := messagesReceived s;
     lastUpdate := lastUpdate s; connectionDetails := connectionDetails s |}.
Definition set_activeConnections (v : nat) (s : ConnectionStats) : ConnectionStats :=
  {| totalConnections := totalConnections s; activeConnections := v;
     totalUsers := totalUsers s; messagesReceived := messagesReceived s;
     lastUpdate := lastUpdate s; connectionDetails := connectionDetails s |}.
Definition set_messagesReceived (v : nat) (s : ConnectionStats) : ConnectionStats :=
  {| totalConnections := totalConnections s; activeConnections := activeConnections s;
     totalUsers := totalUsers s; messagesReceived := v;
     lastUpdate := lastUpdate s; connectionDetails := connectionDetails s |}.
Definition set_lastUpdate (v : Z) (s : ConnectionStats) : ConnectionStats :=
  {| totalConnections := totalConnections s; activeConnections := activeConnections s;
     totalUsers := totalUsers s; messagesReceived := messagesReceived s;
     lastUpdate := v; connectionDetails := connectionDetails s |}.
Definition set_connectionDetails (v : gmap string Details) (s : ConnectionStats)
    : ConnectionStats :=
  {| totalConnections := totalConnections s; activeConnections := activeConnections s;
     totalUsers := totalUsers s; messagesReceived := messagesReceived s;
     lastUpdate := lastUpdate s; connectionDetails := v |}.

Definition set_userExistingData (v : gmap string Doc) (u : UserData) : UserData :=
  {| userKeys := userKeys u; userDataFiles := userDataFiles u;
     userLowestValueFiles := userLowestValueFiles u; userExistingData := v;
     userExistingLowestData := userExistingLowestData u;
     userLowestAccountValues := userLowestAccountValues u;
     userHighestAccountValues := userHighestAccountValues u;
     userHistoricalDataFiles := userHistoricalDataFiles u;
     userHistoricalLowestFiles := userHistoricalLowestFiles u;
     userExistingHistoricalData := userExistingHistoricalData u;
     userLowestTotalAccountValues := userLowestTotalAccountValues u |}.
Definition set_userExistingLowestData (v : gmap string Doc) (u : UserData) : UserData :=
  {| userKeys := userKeys u; userDataFiles := userDataFiles u;
     userLowestValueFiles := userLowestValueFiles u;
     userExistingData := userExistingData u; userExistingLowestData := v;
     userLowestAccountValues := userLowestAccountValues u;
     userHighestAccountValues := userHighestAccountValues u;
     userHistoricalDataFiles := userHistoricalDataFiles u;
     userHistoricalLowestFiles := userHistoricalLowestFiles u;
     userExistingHistoricalData := userExistingHistoricalData u;
     userLowestTotalAccountValues := userLowestTotalAccountValues u |}.
Definition set_userLowestAccountValues
    (v : gmap (option string) (option JS.number)) (u : UserData) : UserData :=
  {| userKeys := userKeys u; userDataFiles := userDataFiles u;
     userLowestValueFiles := userLowestValueFiles u;
     userExistingData := userExistingData u;
     userExistingLowestData := userExistingLowestData u;
     userLowestAccountValues := v;
     userHighestAccountValues := userHighestAccountValues u;
     userHistoricalDataFiles := userHistoricalDataFiles u;
     userHistoricalLowestFiles := userHistoricalLowestFiles u;
     userExistingHistoricalData := userExistingHistoricalData u;
     userLowestTotalAccountValues := userLowestTotalAccountValues u |}.
Definition set_userHighestAccountValues
    (v : gmap (option string) (option JS.number)) (u : UserData) : UserData :=
  {| userKeys := userKeys u; userDataFiles := userDataFiles u;
     userLowestValueFiles := userLowestValueFiles u;
     userExistingData := userExistingData u;
     userExistingLowestData := userExistingLowestData u;
     userLowestAccountValues := userLowestAccountValues u;
     userHighestAccountValues := v;
     userHistoricalDataFiles := userHistoricalDataFiles u;
     userHistoricalLowestFiles := userHistoricalLowestFiles u;
     userExistingHistoricalData := userExistingHistoricalData u;
     userLowestTotalAccountValues := userLowestTotalAccountValues u |}.
Definition set_userExistingHistoricalData (v : gmap string Doc) (u : UserData) : UserData :=
  {| userKeys := userKeys u; userDataFiles := userDataFiles u;
     userLowestValueFiles := userLowestValueFiles u;
     userExistingData := userExistingData u;
     userExistingLowestData := userExistingLowestData u;
     userLowestAccountValues := userLowestAccountValues u;
     userHighestAccountValues := userHighestAccountValues u;
     userHistoricalDataFiles := userHistoricalDataFiles u;
     userHistoricalLowestFiles := userHistoricalLowestFiles u;
     userExistingHistoricalData := v;
     userLowestTotalAccountValues := userLowestTotalAccountValues u |}.
Definition set_userLowestTotalAccountValues
    (v : gmap string (option JS.number)) (u : UserData) : UserData :=
  {| userKeys := userKeys u; userDataFiles := userDataFiles u;
     userLowestValueFiles := userLowestValueFiles u;
     userExistingData := userExistingData u;
     userExistingLowestData := userExistingLowestData u;
     userLowestAccountValues := userLowestAccountValues u;
     userHighestAccountValues := userHighestAccountValues u;
     userHistoricalDataFiles := userHistoricalDataFiles u;
     userHistoricalLowestFiles := userHistoricalLowestFiles u;
     userExistingHistoricalData := userExistingHistoricalData u;
     userLowestTotalAccountValues := v |}.

Definition set_connections (v : list ConnectionInfo) (c : Client) : Client :=
  {| connections := v; userToConnectionMap := userToConnectionMap c;
     today := today c; clientMode := clientMode c; dataSaveMode := dataSaveMode c;
     healthCheckInterval := healthCheckInterval c;
     connectionStats := connectionStats c; userData := userData c;
     lastAllMidsUpdate := lastAllMidsUpdate c;
     totalMessagesReceived := totalMessagesReceived c |}.
Definition set_userToConnectionMap (v : gmap string string) (c : Client) : Client :=
  {| connections := connections c; userToConnectionMap := v;
     today := today c; clientMode := clientMode c; dataSaveMode := dataSaveMode c;
     healthCheckInterval := healthCheckInterval c;
     connectionStats := connectionStats c; userData := userData c;
     lastAllMidsUpdate := lastAllMidsUpdate c;
     totalMessagesReceived := totalMessagesReceived c |}.
Definition set_healthCheckInterval (v : option nat) (c : Client) : Client :=
  {| connections := connections c; userToConnectionMap := userToConnectionMap c;
     today := today c; clientMode := clientMode c; dataSaveMode := dataSaveMode c;
     healthCheckInterval := v;
     connectionStats := connectionStats c; userData := userData c;
     lastAllMidsUpdate := lastAllMidsUpdate c;
     totalMessagesReceived := totalMessagesReceived c |}.
Definition set_connectionStats (v : ConnectionStats) (c : Client) : Client :=
  {| connections := connections c; userToConnectionMap := userToConnectionMap c;
     today := today c; clientMode := clientMode c; dataSaveMode := dataSaveMode c;
     healthCheckInterval := healthCheckInterval c;
     connectionStats := v; userData := userData c;
     lastAllMidsUpdate := lastAllMidsUpdate c;
     totalMessagesReceived := totalMessagesReceived c |}.
Definition set_userData (v : UserData) (c : Client) : Client :=
  {| connections := connections c; userToConnectionMap := userToConnectionMap c;
     today := today c; clientMode := clientMode c; dataSaveMode := dataSaveMode c;
     healthCheckInterval := healthCheckInterval c;
     connectionStats := connectionStats c; userData := v;
     lastAllMidsUpdate := lastAllMidsUpdate c;
     totalMessagesReceived := totalMessagesReceived c |}.
Definition set_lastAllMidsUpdate (v : Z) (c : Client) : Client :=
  {| connections := connections c; userToConnectionMap := userToConnectionMap c;
     today := today c; clientMode := clientMode c; dataSaveMode := dataSaveMode c;
     healthCheckInterval := healthCheckInterval c;
     connectionStats := connectionStats c; userData := userData c;
     lastAllMidsUpdate := v;
     totalMessagesReceived := totalMessagesReceived c |}.
Definition set_totalMessagesReceived (v : nat) (c : Client) : Client :=
  {| connections := connections c; userToConnectionMap := userToConnectionMap c;
     today := today c; clientMode := clientMode c; dataSaveMode := dataSaveMode c;
     healthCheckInterval := healthCheckInterval c;
     connectionStats := connectionStats c; userData := userData c;
     lastAllMidsUpdate := lastAllMidsUpdate c;
     totalMessagesReceived := v |}.

Definition set_client (v : Client) (w : World) : World :=
  {| client := v; prices := prices w; files := files w; timers := timers w;
     intervals := intervals w; openSockets := openSockets w; sent := sent w;
     nextHandle := nextHandle w |}.
Definition set_prices (v : Prices) (w : World) : World :=
  {| client := client w; prices := v; files := files w; timers := timers w;
     intervals := intervals w; openSockets := openSockets w; sent := sent w;
     nextHandle := nextHandle w |}.
Definition set_files (v : gmap string Doc) (w : World) : World :=
  {| client := client w; prices := prices w; files := v; timers := timers w;
     intervals := intervals w; openSockets := openSockets w; sent := sent w;
     nextHandle := nextHandle w |}.
Definition set_timers (v : list (Z * string)) (w : World) : World :=
  {| client := client w; prices := prices w; files := files w; timers := v;
     intervals := intervals w; openSockets := openSockets w; sent := sent w;
     nextHandle := nextHandle w |}.
Definition set_intervals (v : list nat) (w : World) : World :=
  {| client := client w; prices := prices w; files := files w; timers := timers w;
     intervals := v; openSockets := openSockets w; sent := sent w;
     nextHandle := nextHandle w |}.
Definition set_openSockets (v : list nat) (w : World) : World :=
  {| client := client w; prices := prices w; files := files w; timers := timers w;
     intervals := intervals w; openSockets := v; sent := sent w;
     nextHandle := nextHandle w |}.
Definition set_sent (v : list Subscription) (w : World) : World :=
  {| client := client w; prices := prices w; files := files w; timers := timers w;
     intervals := intervals w; openSockets := openSockets w; sent := v;
     nextHandle := nextHandle w |}.
Definition set_nextHandle (v : nat) (w : World) : World :=
  {| client := client w; prices := prices w; files := files w; timers := timers w;
     intervals := intervals w; openSockets := openSockets w; sent := sent w;
     nextHandle := v |}.

(** Updates through the client. *)
Definition upd_client (f : Client → Client) (w : World) : World :=
  set_client (f (client w)) w.
Definition upd_stats (f : ConnectionStats → ConnectionStats) (c : Client) : Client :=
  set_connectionStats (f (connectionStats c)) c.
Definition upd_userData (f : UserData → UserData) (c : Client) : Client :=
  set_userData (f (userData c)) c.

(** ** The connection map *)

(** [connections.get(connectionId)] *)
Definition conn_get (connectionId : string) (l : list ConnectionInfo)
    : option ConnectionInfo :=
  List.find (λ c, String.eqb (id c) connectionId) l.

(** [connections.set(info.id, info)]: an existing key keeps its place. *)
Fixpoint conn_set (info : ConnectionInfo) (l : list ConnectionInfo)
    : list ConnectionInfo :=
  match l with
  | [] => [info]
  | c :: r => if String.eqb (id c) (id info) then info :: r else c :: conn_set info r
  end.

(** An assignment to a field of the connection object stored under
    [connectionId]. *)
Fixpoint conn_alter (f : ConnectionInfo → ConnectionInfo) (connectionId : string)
    (l : list ConnectionInfo) : list ConnectionInfo :=
  match l with
  | [] => []
  | c :: r =>
      if String.eqb (id c) connectionId then f c :: r
      else c :: conn_alter f connectionId r
  end.

Definition upd_conn (f : ConnectionInfo → ConnectionInfo) (connectionId : string)
    (w : World) : World :=
  upd_client (λ c, set_connections (conn_alter f connectionId (connections c)) c) w.

Definition upd_details (f : Details → Details) (connectionId : string) (w : World) : World :=
  upd_client (upd_stats (λ s,
    set_connectionDetails (alter f connectionId (connectionDetails s)) s)) w.

Definition details_of (connectionId : string) (w : World) : option Details :=
  connectionDetails (connectionStats (client w)) !! connectionId.

(** ** Partition of the accounts over connections *)

(** [userAddresses.slice(i, j)] for [i <= j]. *)
Definition slice {A : Type} (l : list A) (i j : nat) : list A :=
  take (j - i) (drop i l).

(** The grouping loop of [setupConnectionGroups],
    [for (i = 0; i < userAddresses.length; i += K)], with [K] the maximum
    number of users per connection; [None] when the fuel runs out. *)
Fixpoint groupLoop (fuel K : nat) (userAddresses : list string) (i : nat)
    (connectionGroups : list (list string)) : option (list (list string)) :=
  if bool_decide (i < length userAddresses) then
    match fuel with
    | O => None
    | S fuel' =>
        groupLoop fuel' K userAddresses (i + K)
          (connectionGroups ++ [slice userAddresses i (i + K)])
    end
  else Some connectionGroups.

Definition connectionIdOf (index : nat) : string := "conn-" +:+ pretty (index + 1).

Definition newConnection (now : Z) (index : nat) (userGroup : list string)
    : ConnectionInfo :=
  {| id := connectionIdOf index; ws := None; userAddresses := userGroup;
     isConnected := false; reconnectAttempts := 0; lastHeartbeat := now;
     subscriptionTypes := SUBSCRIPTION_TYPES |}.

(** The body of [connectionGroups.forEach((userGroup, index) => ...)]. *)
Definition addConnection (now : Z) (c : Client) (entry : nat * list string) : Client :=
  let '(index, userGroup) := entry in
  let connectionInfo := newConnection now index userGroup in
  let c1 := set_connections (conn_set connectionInfo (connections c)) c in
  let c2 := set_userToConnectionMap
              (fold_left (λ m userAddress, <[userAddress := id connectionInfo]> m)
                 userGroup (userToConnectionMap c1)) c1 in
  upd_stats (λ s, set_connectionDetails
               (<[id connectionInfo :=
                    {| users := userGroup; status := disconnected; messagesCount := 0 |}]>
                  (connectionDetails s)) s) c2.

Definition setupConnectionGroups (fuel K : nat) (now : Z) (userAddresses : list string)
    (c : Client) : option Client :=
  connectionGroups ← groupLoop fuel K userAddresses 0 [];
  let c1 := fold_left (addConnection now) (imap pair connectionGroups) c in
  Some (upd_stats (set_totalConnections (length connectionGroups)) c1).

(** ** Connection life cycle *)

Definition updateConnectionStats (now : Z) (w : World) : World :=
  upd_client (λ c, upd_stats (λ s,
    set_lastUpdate now
      (set_activeConnections (length (filter (λ conn, isConnected conn = true) (connections c))) s)) c) w.

(** [details = connectionDetails.get(connectionId)!; details.status = v]:
    a TypeError when the details are missing. *)
Definition setStatus (v : Status) (connectionId : string) (w : World) : option World :=
  match details_of connectionId w with
  | Some _ => Some (upd_details (set_status v) connectionId w)
  | None => None
  end.

Definition subscriptionsOf (c : ConnectionInfo) (socket : nat) : list Subscription :=
  (if bool_decide ("webData2" ∈ subscriptionTypes c)
   then map (λ userAddress,
               {| sub_socket := socket; sub_type := "webData2";
                  sub_user := Some userAddress |}) (userAddresses c)
   else [])
  ++ (if bool_decide ("allMids" ∈ subscriptionTypes c)
      then [{| sub_socket := socket; sub_type := "allMids"; sub_user := None |}]
      else []).

Definition setupSubscriptions (connectionId : string) (w : World) : World :=
  match conn_get connectionId (connections (client w)) with
  | Some c =>
      match ws c with
      | Some socket => set_sent (sent w ++ subscriptionsOf c socket) w
      | None => w
      end
  | None => w
  end.

(** [connectSingle]: a new socket replaces the one the connection holds; the
    handlers below are the callbacks it registers. *)
Definition connectSingle (connectionId : string) (w : World) : World :=
  match conn_get connectionId (connections (client w)) with
  | None => w
  | Some _ =>
      let socket := nextHandle w in
      set_nextHandle (S socket)
        (set_openSockets (socket :: openSockets w)
           (upd_conn (set_ws (Some socket)) connectionId w))
  end.

Definition handleReconnect (connectionId : string) (w : World) : option World :=
  match conn_get connectionId (connections (client w)) with
  | None => Some w
  | Some connectionInfo =>
      if bool_decide (reconnectAttempts connectionInfo < MAX_RECONNECT_ATTEMPTS) then
        let attempts := S (reconnectAttempts connectionInfo) in
        let w1 := upd_conn (set_reconnectAttempts attempts) connectionId w in
        w2 ← setStatus reconnecting connectionId w1;
        let delay := (RECONNECT_DELAY_MS * 2 ^ Z.of_nat (attempts - 1))%Z in
        Some (set_timers (timers w2 ++ [(delay, connectionId)]) w2)
      else setStatus disconnected connectionId w
  end.

(** The ['open'] callback. *)
Definition onOpen (connectionId : string) (now : Z) (w : World) : option World :=
  let w1 := upd_conn (λ c, set_lastHeartbeat now
                             (set_reconnectAttempts 0 (set_isConnected true c)))
              connectionId w in
  w2 ← setStatus connected connectionId (updateConnectionStats now w1);
  Some (setupSubscriptions connectionId w2).

(** The ['close'] callback. *)
Definition onClose (connectionId : string) (now : Z) (w : World) : option World :=
  let w1 := upd_conn (set_isConnected false) connectionId w in
  w2 ← setStatus disconnected connectionId (updateConnectionStats now w1);
  if bool_decide (clientMode (client w2) = continuous)
  then handleReconnect connectionId w2
  else Some w2.

(** The ['error'] callback. *)
Definition onError (connectionId : string) (w : World) : World :=
  upd_conn (set_isConnected false) connectionId w.

(** A pending reconnect timer fires: it leaves the queue and runs
    [connectSingle]. *)
Definition fireTimer (k : nat) (w : World) : World :=
  match timers w !! k with
  | Some (_, connectionId) => connectSingle connectionId (set_timers (delete k (timers w)) w)
  | None => w
  end.

Definition startHealthCheck (w : World) : World :=
  let handle := nextHandle w in
  set_nextHandle (S handle)
    (set_intervals (handle :: intervals w)
       (upd_client (set_healthCheckInterval (Some handle)) w)).

(** The body of the loop of [performHealthCheck] for one connection. *)
Definition checkConnection (now : Z) (connectionId : string) (w : World) : option World :=
  match conn_get connectionId (connections (client w)) with
  | None => Some w
  | Some connectionInfo =>
      let timeSinceLastHeartbeat := (now - lastHeartbeat connectionInfo)%Z in
      if isConnected connectionInfo
         && bool_decide (HEALTH_CHECK_INTERVAL * 2 < timeSinceLastHeartbeat)%Z
      then
        if bool_decide (clientMode (client w) = continuous)
        then handleReconnect connectionId (upd_conn (set_isConnected false) connectionId w)
        else Some w
      else Some w
  end.

Definition performHealthCheck (now : Z) (w : World) : option World :=
  w1 ← fold_left (λ acc connectionId, acc ≫= checkConnection now connectionId)
         (map id (connections (client w))) (Some w);
  Some (updateConnectionStats now w1).

(** The body of the loop of [disconnect] for one connection. *)
Definition closeConnection (acc : list ConnectionInfo * list nat) (c : ConnectionInfo)
    : list ConnectionInfo * list nat :=
  let '(seen, open) := acc in
  match ws c with
  | Some socket =>
      (seen ++ [set_isConnected false (set_ws None c)],
       filter (λ s, s ≠ socket) open)
  | None => (seen ++ [c], open)
  end.

Definition disconnect (now : Z) (w : World) : World :=
  let w1 :=
    match healthCheckInterval (client w) with
    | Some handle =>
        set_intervals (filter (λ h, h ≠ handle) (intervals w))
          (upd_client (set_healthCheckInterval None) w)
    | None => w
    end in
  let '(conns, open) :=
    fold_left closeConnection (connections (client w1)) ([], openSockets w1) in
  updateConnectionStats now
    (set_openSockets open (upd_client (set_connections conns) w1)).

(** ** Persistence *)

Definition historicalDataPath (today userAddress : string) : string :=
  "data/accountValueHistorical/" +:+ today +:+ "/" +:+ JS.toLowerCase userAddress +:+ ".json".
Definition historicalLowestPath (today userAddress : string) : string :=
  "data/accountValueHistorical/" +:+ today +:+ "/" +:+ JS.toLowerCase userAddress
    +:+ "-lowest.json".
Definition dataDir : string := "data/dataFromSubscription".
Definition dataPath (today userAddress : string) : string :=
  dataDir +:+ "/" +:+ today +:+ "/" +:+ JS.toLowerCase userAddress +:+ ".json".
Definition lowestValuePath (today userAddress : string) : string :=
  dataDir +:+ "/" +:+ today +:+ "/" +:+ JS.toLowerCase userAddress
    +:+ "-lowestAccountValue.json".

(** The key order of a [Map] after [set(k, _)]. *)
Definition addKey (keys : list string) (k : string) : list string :=
  if bool_decide (k ∈ keys) then keys else keys ++ [k].

Definition emptyUserData : UserData :=
  {| userKeys := []; userDataFiles := ∅; userLowestValueFiles := ∅;
     userExistingData := ∅; userExistingLowestData := ∅;
     userLowestAccountValues := ∅; userHighestAccountValues := ∅;
     userHistoricalDataFiles := ∅; userHistoricalLowestFiles := ∅;
     userExistingHistoricalData := ∅; userLowestTotalAccountValues := ∅ |}.

(** The body of the [forEach] of [initializeUserData]. *)
Definition initializeUser (today : string) (mode : DataSaveMode)
    (u : UserData) (userAddress : string) : UserData :=
  let hist := bool_decide (mode = historical) in
  {| userKeys := addKey (userKeys u) userAddress;
     userDataFiles :=
       if hist then userDataFiles u
       else <[userAddress := dataPath today userAddress]> (userDataFiles u);
     userLowestValueFiles :=
       if hist then userLowestValueFiles u
       else <[userAddress := lowestValuePath today userAddress]> (userLowestValueFiles u);
     userExistingData := <[userAddress := DocArray []]> (userExistingData u);
     userExistingLowestData := <[userAddress := DocArray []]> (userExistingLowestData u);
     userLowestAccountValues := <[Some userAddress := None]> (userLowestAccountValues u);
     userHighestAccountValues := <[Some userAddress := None]> (userHighestAccountValues u);
     userHistoricalDataFiles :=
       if hist
       then <[userAddress := historicalDataPath today userAddress]> (userHistoricalDataFiles u)
       else userHistoricalDataFiles u;
     userHistoricalLowestFiles :=
       if hist
       then <[userAddress := historicalLowestPath today userAddress]>
              (userHistoricalLowestFiles u)
       else userHistoricalLowestFiles u;
     userExistingHistoricalData :=
       if hist then <[userAddress := DocArray []]> (userExistingHistoricalData u)
       else userExistingHistoricalData u;
     userLowestTotalAccountValues :=
       if hist then <[userAddress := None]> (userLowestTotalAccountValues u)
       else userLowestTotalAccountValues u |}.

Definition initializeUserData (today : string) (mode : DataSaveMode)
    (userAddresses : list string) (u : UserData) : UserData :=
  fold_left (initializeUser today mode) userAddresses u.

(** [currentLowest === null || currentLowest === undefined || v < currentLowest] *)
Definition isNewLowest (v : JS.number) (currentLowest : option (option JS.number)) : bool :=
  match currentLowest with
  | Some (Some lowest) => JS.lt v lowest
  | _ => true
  end.

Definition isNewHighest (v : JS.number) (currentHighest : option (option JS.number)) : bool :=
  match currentHighest with
  | Some (Some highest) => JS.gt v highest
  | _ => true
  end.

(** [existingLowestData.totalAccountValue] of a parsed lowest file, when it
    is there; the string [toString()] wrote is never empty. *)
Definition docTotalAccountValue (doc : Doc) : option JS.number :=
  match doc with
  | DocObject (ItemEntry e) => Some (Entry.totalAccountValue e)
  | _ => None
  end.

(** [parseFloat(event.accountValue)] for an element of a parsed event log. *)
Definition itemAccountValue (i : Item) : JS.number :=
  match i with
  | ItemEvent ev => Event.accountValue ev
  | _ => JS.NaN
  end.

(** The body of [existingLowestData.forEach] in [loadExistingData]. *)
Definition loadEvent (userAddress : string) (u : UserData) (event : Item) : UserData :=
  let value := itemAccountValue event in
  let currentLowest := userLowestAccountValues u !! Some userAddress in
  let currentHighest := userHighestAccountValues u !! Some userAddress in
  let u1 :=
    if isNewLowest value currentLowest
    then set_userLowestAccountValues
           (<[Some userAddress := Some value]> (userLowestAccountValues u)) u
    else u in
  if isNewHighest value currentHighest
  then set_userHighestAccountValues
         (<[Some userAddress := Some value]> (userHighestAccountValues u1)) u1
  else u1.

(** The body of the [forEach] of [loadExistingData] for one user; what a
    [try] block had done before an exception stays done. *)
Definition loadUser (mode : DataSaveMode) (files : gmap string Doc)
    (u : UserData) (userAddress : string) : UserData :=
  if bool_decide (mode = historical) then
    let u1 :=
      match userHistoricalDataFiles u !! userAddress ≫= (files !!.) with
      | Some existingData =>
          set_userExistingHistoricalData
            (<[userAddress := existingData]> (userExistingHistoricalData u)) u
      | None => u
      end in
    match (userHistoricalLowestFiles u !! userAddress ≫= (files !!.)) ≫= docTotalAccountValue with
    | Some value =>
        set_userLowestTotalAccountValues
          (<[userAddress := Some value]> (userLowestTotalAccountValues u1)) u1
    | None => u1
    end
  else
    let u1 :=
      match userDataFiles u !! userAddress ≫= (files !!.) with
      | Some existingData =>
          set_userExistingData (<[userAddress := existingData]> (userExistingData u)) u
      | None => u
      end in
    match userLowestValueFiles u !! userAddress ≫= (files !!.) with
    | Some existingLowestData =>
        let u2 := set_userExistingLowestData
                    (<[userAddress := existingLowestData]> (userExistingLowestData u1)) u1 in
        match existingLowestData with
        | DocArray events => fold_left (loadEvent userAddress) events u2
        | DocObject _ => u2
        end
    | None => u1
    end.

Definition loadExistingData (mode : DataSaveMode) (files : gmap string Doc)
    (u : UserData) : UserData :=
  fold_left (loadUser mode files) (userKeys u) u.

(** [Array.from(userExistingData.keys()).find(addr => addr.toLowerCase() ===
    userAddress.toLowerCase())] *)
Definition findOriginalUserAddress (u : UserData) (userAddress : string) : option string :=
  List.find (λ addr, String.eqb (JS.toLowerCase addr) (JS.toLowerCase userAddress))
    (userKeys u).

(** [saveHistoricalData]; it acts on the per-user maps and on the files. *)
Definition saveHistoricalData (p : Prices) (data : MessageData) (userAddress : string)
    (s : UserData * gmap string Doc) : UserData * gmap string Doc :=
  let '(u, fs) := s in
  match findOriginalUserAddress u userAddress with
  | None => s
  | Some originalUserAddress =>
      match createHistoricalDataEntry p data with
      | None => s
      | Some historicalEntry =>
          let totalAccountValue := Entry.totalAccountValue historicalEntry in
          let existingData :=
            default (DocArray []) (userExistingHistoricalData u !! originalUserAddress) in
          match push existingData (ItemEntry historicalEntry) with
          | None => s
          | Some existingData' =>
              let u1 := set_userExistingHistoricalData
                          (<[originalUserAddress := existingData']>
                             (userExistingHistoricalData u)) u in
              match JS.or_null (userHistoricalDataFiles u !! originalUserAddress) with
              | None => (u1, fs)
              | Some filePath =>
                  let fs1 := <[filePath := existingData']> fs in
                  let currentLowest :=
                    userLowestTotalAccountValues u !! originalUserAddress in
                  if isNewLowest totalAccountValue currentLowest then
                    let u2 := set_userLowestTotalAccountValues
                                (<[originalUserAddress := Some totalAccountValue]>
                                   (userLowestTotalAccountValues u1)) u1 in
                    match JS.or_null (userHistoricalLowestFiles u !! originalUserAddress) with
                    | None => (u2, fs1)
                    | Some lowestFilePath =>
                        (u2, <[lowestFilePath := DocObject (ItemEntry historicalEntry)]> fs1)
                    end
                  else (u1, fs1)
              end
          end
      end
  end.

(** [saveData] for a message of the [webData2] channel; [data] is [None]
    when the message carries no [data] object. *)
Definition saveData (p : Prices) (mode : DataSaveMode) (data : option MessageData)
    (s : UserData * gmap string Doc) : UserData * gmap string Doc :=
  let '(u, fs) := s in
  match data with
  | None => s
  | Some d =>
      match JS.or_null (user d) with
      | None => s
      | Some userAddress =>
          if bool_decide (mode = historical) then saveHistoricalData p d userAddress s
          else
            match findOriginalUserAddress u userAddress with
            | None => s
            | Some originalUserAddress =>
                match formatServerTimeToLocal (serverTime d) with
                | None => s
                | Some localTime =>
                    let messageToSave :=
                      ItemRaw (bool_decide (mode = spotAndPerps)) d localTime in
                    match userDataFiles u !! originalUserAddress with
                    | None => s
                    | Some path =>
                        let existingData :=
                          default (DocArray []) (userExistingData u !! originalUserAddress) in
                        match push existingData messageToSave with
                        | None => s
                        | Some existingData' =>
                            let u1 := set_userExistingData
                                        (<[originalUserAddress := existingData']>
                                           (userExistingData u)) u in
                            if JS.truthy path
                            then (u1, <[path := existingData']> fs)
                            else (u1, fs)
                        end
                    end
                end
            end
      end
  end.

(** [saveLowestValueEvent] of the client class. *)
Definition saveLowestValueEvent (event : Event.t)
    (s : UserData * gmap string Doc) : UserData * gmap string Doc :=
  let '(u, fs) := s in
  match JS.or_null (Event.user event) with
  | None => s
  | Some userAddress =>
      match userLowestValueFiles u !! userAddress with
      | None => s
      | Some lowestFilePath =>
          let existingLowestData :=
            default (DocArray []) (userExistingLowestData u !! userAddress) in
          match push existingLowestData (ItemEvent event) with
          | None => s
          | Some existingLowestData' =>
              let u1 := set_userExistingLowestData
                          (<[userAddress := existingLowestData']>
                             (userExistingLowestData u)) u in
              if JS.truthy lowestFilePath
              then (u1, <[lowestFilePath := existingLowestData']> fs)
              else (u1, fs)
          end
      end
  end.

(** [processWebData2Message] once [message.data] has been read. *)
Definition processWebData2Message (d : MessageData) (now : Z)
    (s : UserData * gmap string Doc) : UserData * gmap string Doc :=
  let '(u, fs) := s in
  let userAddress := user d in
  match clearinghouseState d ≫= marginSummary with
  | None => s
  | Some summary =>
      let accountValue := JS.parseFloat_opt (accountValue summary) in
      let currentLowest := userLowestAccountValues u !! userAddress in
      let currentHighest := userHighestAccountValues u !! userAddress in
      let '(u1, fs1) :=
        if isNewLowest accountValue currentLowest then
          saveLowestValueEvent
            {| Event.timestamp := now; Event.accountValue := accountValue;
               Event.serverTime := serverTime d; Event.user := userAddress |}
            (set_userLowestAccountValues
               (<[userAddress := Some accountValue]> (userLowestAccountValues u)) u, fs)
        else s in
      if isNewHighest accountValue currentHighest
      then (set_userHighestAccountValues
              (<[userAddress := Some accountValue]> (userHighestAccountValues u1)) u1, fs1)
      else (u1, fs1)
  end.

(** ** Message dispatch *)

(** An inbound frame, by what [JSON.parse] makes of it: a syntax error, the
    value [null], or any other value with its [channel] (when it is a
    string) and its [data] (when it is not [null] or [undefined]). *)
Inductive Frame : Type :=
| Malformed
| JsonNull
| JsonValue (channel : option string) (data : option MessageData).

Definition allMidsUpdateInterval : Z := 5000.

(** [processAllMidsMessage]; reading [allMidsData.mids] of a missing [data]
    throws before anything is changed. *)
Definition processAllMidsMessage (data : option MessageData) (now : Z) (w : World) : World :=
  if bool_decide (allMidsUpdateInterval ≤ now - lastAllMidsUpdate (client w))%Z then
    match data with
    | None => w
    | Some allMidsData =>
        upd_client (set_lastAllMidsUpdate now)
          (set_prices (updatePriceData allMidsData (prices w)) w)
    end
  else w.

Definition withUserFiles
    (f : UserData * gmap string Doc → UserData * gmap string Doc) (w : World) : World :=
  let '(u, fs) := f (userData (client w), files w) in
  set_files fs (upd_client (set_userData u) w).

(** The counting prefix of [handleMessage]: heartbeat and per-connection
    count when the connection is known, then the global counters.  [inr]
    stands for the TypeError on missing details, with the state it leaves. *)
Definition countMessage (connectionId : string) (now : Z) (w : World) : World + World :=
  let counted (w' : World) : World :=
    upd_client (λ c,
      let n := S (totalMessagesReceived c) in
      upd_stats (λ s, set_lastUpdate now (set_messagesReceived n s))
        (set_totalMessagesReceived n c)) w' in
  match conn_get connectionId (connections (client w)) with
  | Some _ =>
      let w1 := upd_conn (set_lastHeartbeat now) connectionId w in
      match details_of connectionId w1 with
      | Some d =>
          inl (counted (upd_details (set_messagesCount (S (messagesCount d))) connectionId w1))
      | None => inr w1
      end
  | None => inl (counted w)
  end.

Definition handleMessage (connectionId : string) (frame : Frame) (now : Z) (w : World)
    : World :=
  match frame with
  | Malformed => w
  | JsonNull =>
      match countMessage connectionId now w with
      | inl w1 => w1
      | inr w1 => w1
      end
  | JsonValue channel data =>
      match countMessage connectionId now w with
      | inr w1 => w1
      | inl w1 =>
          if bool_decide (channel = Some "webData2") then
            let w2 := withUserFiles
                        (saveData (prices w1) (dataSaveMode (client w1)) data) w1 in
            match data with
            | Some d => withUserFiles (processWebData2Message d now) w2
            | None => w2
            end
          else if bool_decide (channel = Some "allMids") then
            processAllMidsMessage data now w1
          else w1
      end
  end.

(** ** Construction and restart *)

Definition newClient (today : string) (userAddresses : list string)
    (mode : ClientMode) (saveMode : DataSaveMode) (now : Z) (files : gmap string Doc)
    : option Client :=
  let c0 :=
    {| connections := []; userToConnectionMap := ∅; today := today;
       clientMode := mode; dataSaveMode := saveMode; healthCheckInterval := None;
       connectionStats :=
         {| totalConnections := 0; activeConnections := 0;
            totalUsers := length userAddresses; messagesReceived := 0;
            lastUpdate := now; connectionDetails := ∅ |};
       userData := initializeUserData today saveMode userAddresses emptyUserData;
       lastAllMidsUpdate := 0; totalMessagesReceived := 0 |} in
  c1 ← setupConnectionGroups (length userAddresses) MAX_USERS_PER_CONNECTION
         now userAddresses c0;
  Some (upd_userData (loadExistingData saveMode files) c1).

(** A process start on the files [fs]: fresh module state, a new client. *)
Definition start (today : string) (userAddresses : list string)
    (mode : ClientMode) (saveMode : DataSaveMode) (spotMetaPresent : bool) (now : Z)
    (fs : gmap string Doc) : option World :=
  c ← newClient today userAddresses mode saveMode now fs;
  Some {| client := c;
          prices := {| latestPrices := ∅;
                       tokenToAllMidsMapping := initializeTokenMapping spotMetaPresent |};
          files := fs; timers := []; intervals := []; openSockets := [];
          sent := []; nextHandle := 0 |}.

(** ** Start-up, the event loop and the status report *)

(** One round of the loop of [connectAll], on the state and the running
    [delay]: the connect is put on the timer queue. *)
Definition scheduleConnect (acc : World * Z) (c : ConnectionInfo) : World * Z :=
  let '(w, delay) := acc in
  (set_timers (timers w ++ [(delay, id c)]) w, (delay + CONNECTION_STAGGER_DELAY)%Z).

Definition connectAll (w : World) : World :=
  let w1 := startHealthCheck w in
  (fold_left scheduleConnect (connections (client w1)) (w1, 0%Z)).1.

(** [main]: the client is built and [connectAll] has queued the connects;
    the rest happens in the event loop. *)
Definition main (today : string) (userAddresses : list string)
    (mode : ClientMode) (saveMode : DataSaveMode) (spotMetaPresent : bool) (now : Z)
    (fs : gmap string Doc) : option World :=
  w ← start today userAddresses mode saveMode spotMetaPresent now fs;
  Some (connectAll w).

(** What the event loop runs once [main] has returned: the callbacks
    [connectSingle] registers on a socket, a timer that fires, a pass of the
    health check, and [disconnect]. *)
Inductive PoolEvent : Type :=
| Opened (connectionId : string) (now : Z)
| Closed (connectionId : string) (now : Z)
| Failed (connectionId : string)
| Received (connectionId : string) (frame : Frame) (now : Z)
| TimerFired (k : nat)
| HealthCheck (now : Z)
| Shutdown (now : Z).

(** [None] when the callback throws. *)
Definition fire (w : World) (e : PoolEvent) : option World :=
  match e with
  | Opened connectionId now => onOpen connectionId now w
  | Closed connectionId now => onClose connectionId now w
  | Failed connectionId => Some (onError connectionId w)
  | Received connectionId frame now => Some (handleMessage connectionId frame now w)
  | TimerFired k => Some (fireTimer k w)
  | HealthCheck now => performHealthCheck now w
  | Shutdown now => Some (disconnect now w)
  end.

Definition fireAll (events : list PoolEvent) (w : World) : option World :=
  fold_left (λ acc e, acc ≫= λ w, fire w e) events (Some w).

(** [userStats] of [getDetailedStatus]. *)
Module UserStats.
Record t : Type := {
  connectionId : string;
  lowestValue : option (option JS.number);
  highestValue : option (option JS.number);
  messageCount : option nat;
}.
End UserStats.

(** [doc.length]: [undefined] on a document that is not an array. *)
Definition docLength (doc : Doc) : option nat :=
  match doc with
  | DocArray l => Some (length l)
  | DocObject _ => None
  end.

Definition getDetailedStatus (c : Client) : ConnectionStats * list (string * UserStats.t) :=
  (connectionStats c,
   map (λ userAddress,
          (userAddress,
           {| UserStats.connectionId :=
                JS.or_else (userToConnectionMap c !! userAddress) "unknown";
              UserStats.lowestValue :=
                userLowestAccountValues (userData c) !! Some userAddress;
              UserStats.highestValue :=
                userHighestAccountValues (userData c) !! Some userAddress;
              UserStats.messageCount :=
                docLength (default (DocArray [])
                             (userExistingData (userData c) !! userAddress)) |}))
     (userKeys (userData c))).

(** ** Notions used in the statements *)

(** A time stamp [Date] accepts. *)
Definition validTime (t : Z) : Prop := (Z.abs t ≤ 8640000000000000)%Z.

(** The margin-summary account value of a payload, when present. *)
Definition marginAccountValue (d : MessageData) : option string :=
  (clearinghouseState d ≫= marginSummary) ≫= accountValue.

(** The payload [d] with its margin-summary account value set to [v]. *)
Definition withAccountValue (v : string) (d : MessageData) : MessageData :=
  {| user := user d; serverTime := serverTime d;
     clearinghouseState := Some {| marginSummary := Some {| accountValue := Some v |} |};
     spotState := spotState d; mids := mids d |}.

(** A spot balance whose quantity is zero or negative. *)
Definition nonPositive (balance : SpotBalance) : Prop :=
  JS.le (JS.parseFloat (JS.or_else (total balance) "0")) (JS.of_Z 0) = true.

(** A payload with no clearinghouse state at all. *)
Definition bareData : MessageData :=
  {| user := Some "0xabc"; serverTime := Some 0%Z; clearinghouseState := None;
     spotState := Some {| balances := Some [usdc50] |}; mids := None |}.

(** The zero-quantity holding with a non-zero entry notional. *)
Definition emptyUsol : SpotBalance :=
  {| coin := "USOL"; total := Some "0"; entryNtl := Some "190" |}.
Definition emptyUsolData : MessageData :=
  {| user := Some "0xabc"; serverTime := Some 0%Z;
     clearinghouseState :=
       Some {| marginSummary := Some {| accountValue := Some "1000" |} |};
     spotState := Some {| balances := Some [emptyUsol] |}; mids := None |}.

(** The groups the loop of [setupConnectionGroups] builds in [m] rounds
    from index [i] on. *)
Definition chunksFrom (K : nat) (l : list string) (i m : nat) : list (list string) :=
  map (λ j, slice l (i + j * K) (i + j * K + K)) (seq 0 m).

(** A client before [setupConnectionGroups]: no connection yet. *)
Definition blankClient (mode : ClientMode) (saveMode : DataSaveMode) : Client :=
  {| connections := []; userToConnectionMap := ∅; today := "20250110";
     clientMode := mode; dataSaveMode := saveMode; healthCheckInterval := None;
     connectionStats :=
       {| totalConnections := 0; activeConnections := 0; totalUsers := 0;
          messagesReceived := 0; lastUpdate := 0; connectionDetails := ∅ |};
     userData := emptyUserData; lastAllMidsUpdate := 0; totalMessagesReceived := 0 |}.

(** The field updates keep the key of a connection. *)
Definition keepsId (f : ConnectionInfo → ConnectionInfo) : Prop := ∀ c, id (f c) = id c.

(** The back-off delay before reconnect attempt [attempt] (1, 2, ...). *)
Definition backoffDelay (attempt : nat) : Z :=
  (RECONNECT_DELAY_MS * 2 ^ Z.of_nat (attempt - 1))%Z.

(** [n] transport closures in a row on one connection, none of the
    reconnects succeeding in between: [handleReconnect] runs [n] times. *)
Fixpoint repeatReconnect (n : nat) (connectionId : string) (w : World) : option World :=
  match n with
  | O => Some w
  | S n' => handleReconnect connectionId w ≫= repeatReconnect n' connectionId
  end.

(** A connection flagged connected whose last heartbeat is older than twice
    the health-check interval. *)
Definition stale (now : Z) (c : ConnectionInfo) : bool :=
  isConnected c && bool_decide (HEALTH_CHECK_INTERVAL * 2 < now - lastHeartbeat c)%Z.

(** What one health-check pass makes of a connection. *)
Definition checked (now : Z) (mode : ClientMode) (c : ConnectionInfo) : ConnectionInfo :=
  if stale now c && bool_decide (mode = continuous) then
    if bool_decide (reconnectAttempts c < MAX_RECONNECT_ATTEMPTS)
    then set_reconnectAttempts (S (reconnectAttempts c)) (set_isConnected false c)
    else set_isConnected false c
  else c.

(** The reconnect one health-check pass schedules for a connection. *)
Definition scheduled (now : Z) (mode : ClientMode) (c : ConnectionInfo) : list (Z * string) :=
  if stale now c && bool_decide (mode = continuous)
     && bool_decide (reconnectAttempts c < MAX_RECONNECT_ATTEMPTS)
  then [(backoffDelay (S (reconnectAttempts c)), id c)]
  else [].

(** The parts of the state the counting prefix of [handleMessage] sets. *)
Definition counters (w : World)
    : list ConnectionInfo * gmap string Details * nat * nat :=
  (connections (client w), connectionDetails (connectionStats (client w)),
   totalMessagesReceived (client w), messagesReceived (connectionStats (client w))).

(** One account on one connection, connected at time 0 over socket 1, the
    health-check timer armed under handle 0. *)
Definition sampleConnection : ConnectionInfo :=
  {| id := "conn-1"; ws := Some 1; userAddresses := ["0xabc"]; isConnected := true;
     reconnectAttempts := 0; lastHeartbeat := 0; subscriptionTypes := SUBSCRIPTION_TYPES |}.

Definition sampleWorld (mode : ClientMode) : World :=
  {| client :=
       {| connections := [sampleConnection];
          userToConnectionMap := {["0xabc" := "conn-1"]};
          today := "20250110"; clientMode := mode; dataSaveMode := historical;
          healthCheckInterval := Some 0;
          connectionStats :=
            {| totalConnections := 1; activeConnections := 1; totalUsers := 1;
               messagesReceived := 0; lastUpdate := 0;
               connectionDetails :=
                 {["conn-1" := {| users := ["0xabc"]; status := connected;
                                  messagesCount := 0 |}]} |};
          userData := initializeUserData "20250110" historical ["0xabc"] emptyUserData;
          lastAllMidsUpdate := 0; totalMessagesReceived := 0 |};
     prices := {| latestPrices := ∅; tokenToAllMidsMapping := initializeTokenMapping true |};
     files := ∅; timers := []; intervals := [0]; openSockets := [1];
     sent := subscriptionsOf sampleConnection 1; nextHandle := 2 |}.

(** *** Configuration *)

(** A process configuration: the day, the accounts and the operating mode;
    the save mode is [historical]. *)
Record Config : Type := {
  cfg_today : string;
  cfg_accounts : list string;
  cfg_mode : ClientMode;
}.

(** *** Runs of the client in historical mode *)

(** What happens to a running client: a frame arrives on a connection, or
    the process is started again on the files as they are. *)
Inductive Step : Type :=
| Message (connectionId : string) (frame : Frame) (now : Z)
| Restart (spotMetaPresent : bool) (now : Z).

Definition step (cfg : Config) (w : World) (s : Step) : option World :=
  match s with
  | Message connectionId frame now => Some (handleMessage connectionId frame now w)
  | Restart spotMetaPresent now =>
      start (cfg_today cfg) (cfg_accounts cfg) (cfg_mode cfg) historical
        spotMetaPresent now (files w)
  end.

(** A run: a first start on the files [fs], then the steps in order. *)
Definition run (cfg : Config) (fs : gmap string Doc) (spotMetaPresent : bool) (now : Z)
    (steps : list Step) : option World :=
  fold_left (λ acc s, acc ≫= λ w, step cfg w s) steps
    (start (cfg_today cfg) (cfg_accounts cfg) (cfg_mode cfg) historical
       spotMetaPresent now fs).

(** The files of the configured accounts, two per account. *)
Definition accountFiles (cfg : Config) : list string :=
  flat_map (λ u, [historicalDataPath (cfg_today cfg) u;
                  historicalLowestPath (cfg_today cfg) u]) (cfg_accounts cfg).

(** The snapshots in an account's persisted history, and its persisted
    lowest-value record. *)
Definition persistedHistory (cfg : Config) (fs : gmap string Doc) (u : string)
    : list Entry.t :=
  match fs !! historicalDataPath (cfg_today cfg) u with
  | Some (DocArray l) =>
      omap (λ i, match i with ItemEntry e => Some e | _ => None end) l
  | _ => []
  end.

Definition persistedLowest (cfg : Config) (fs : gmap string Doc) (u : string)
    : option Entry.t :=
  match fs !! historicalLowestPath (cfg_today cfg) u with
  | Some (DocObject (ItemEntry e)) => Some e
  | _ => None
  end.

Definition noNaN (h : list Entry.t) : Prop :=
  ∀ e, e ∈ h → Entry.totalAccountValue e ≠ JS.NaN.

(** The files of account [u] are as the client leaves them: the history is
    an array of snapshots; the lowest-value file is missing only while the
    history is empty, and holds a snapshot of the history that, numbers
    permitting, no other snapshot is below. *)
Definition FileOk (cfg : Config) (fs : gmap string Doc) (u : string) : Prop :=
  ∃ h, default (DocArray []) (fs !! historicalDataPath (cfg_today cfg) u)
       = DocArray (ItemEntry <$> h)
     ∧ match fs !! historicalLowestPath (cfg_today cfg) u with
       | None => h = []
       | Some (DocObject (ItemEntry e)) =>
           e ∈ h
           ∧ (noNaN h →
              ∀ e', e' ∈ h →
                JS.le (Entry.totalAccountValue e) (Entry.totalAccountValue e') = true)
       | Some _ => False
       end.

(** The maps in memory agree with the files of account [u]. *)
Definition Sync (cfg : Config) (ud : UserData) (fs : gmap string Doc) (u : string) : Prop :=
  userExistingHistoricalData ud !! u
  = Some (default (DocArray []) (fs !! historicalDataPath (cfg_today cfg) u))
  ∧ userLowestTotalAccountValues ud !! u
    = Some (fs !! historicalLowestPath (cfg_today cfg) u ≫= docTotalAccountValue).

(** The parts of the per-user maps that never change after start-up. *)
Definition Struct (cfg : Config) (ud : UserData) : Prop :=
  userKeys ud = cfg_accounts cfg
  ∧ userLowestValueFiles ud = ∅
  ∧ ∀ u, u ∈ cfg_accounts cfg →
      userHistoricalDataFiles ud !! u = Some (historicalDataPath (cfg_today cfg) u)
      ∧ userHistoricalLowestFiles ud !! u = Some (historicalLowestPath (cfg_today cfg) u).

Definition Inv (cfg : Config) (ud : UserData) (fs : gmap string Doc) : Prop :=
  Struct cfg ud ∧ ∀ u, u ∈ cfg_accounts cfg → Sync cfg ud fs u ∧ FileOk cfg fs u.

(** The part of the per-user maps the historical mode works on. *)
Definition histPart (ud : UserData) :=
  (userKeys ud, userLowestValueFiles ud, userHistoricalDataFiles ud,
   userHistoricalLowestFiles ud, userExistingHistoricalData ud,
   userLowestTotalAccountValues ud).

(** What the invariant is about: the save mode, the per-user maps and the
    files. *)
Definition WorldInv (cfg : Config) (w : World) : Prop :=
  dataSaveMode (client w) = historical ∧ Inv cfg (userData (client w)) (files w).

Definition persist (w : World) := (dataSaveMode (client w), userData (client w), files w).

(** The per-user maps once [initializeUserData] has gone through [keys]. *)
Definition Initialized (today : string) (keys : list string) (ud : UserData) : Prop :=
  userKeys ud = keys
  ∧ userLowestValueFiles ud = ∅
  ∧ ∀ u, u ∈ keys →
      userHistoricalDataFiles ud !! u = Some (historicalDataPath today u)
      ∧ userHistoricalLowestFiles ud !! u = Some (historicalLowestPath today u)
      ∧ userExistingHistoricalData ud !! u = Some (DocArray [])
      ∧ userLowestTotalAccountValues ud !! u = Some None.

(** A run for one account: two snapshots, a restart, one more snapshot. *)
Definition sampleConfig : Config :=
  {| cfg_today := "20250110"; cfg_accounts := ["0xAbC"]; cfg_mode := continuous |}.

Definition valueUpdate (v : string) : Frame :=
  JsonValue (Some "webData2")
    (Some {| user := Some "0xabc"; serverTime := Some 0%Z;
             clearinghouseState :=
               Some {| marginSummary := Some {| accountValue := Some v |} |};
             spotState := None; mids := None |}).

Definition sampleSteps : list Step :=
  [Message "conn-1" (valueUpdate "1000") 1; Message "conn-1" (valueUpdate "900.5") 2;
   Restart true 3; Message "conn-1" (valueUpdate "950") 4].

(** The snapshot [valueUpdate v] makes while the price cache is empty. *)
Definition sampleEntry (v : string) : Entry.t :=
  {| Entry.totalAccountValue := JS.parseFloat v; Entry.clearinghouseState := v;
     Entry.spotBalance := []; Entry.pricesUsed := ∅; Entry.serverTime := Some 0%Z;
     Entry.localTime := 0; Entry.priceSource := "entryNtl" |}.

(** *** Events, the pool and the per-user maps across events *)

(** The connection whose socket raises the event. *)
Definition socketOf (e : PoolEvent) : option string :=
  match e with
  | Opened connectionId _ | Closed connectionId _ | Failed connectionId
  | Received connectionId _ _ => Some connectionId
  | _ => None
  end.

(** Sockets are only ever made for the connections of the pool. *)
Definition wired (w : World) (e : PoolEvent) : Prop :=
  match socketOf e with
  | Some connectionId => connectionId ∈ map id (connections (client w))
  | None => True
  end.

(** The attempt counter is within its bound, and zero while the connection
    is flagged connected. *)
Definition attemptsOk (c : ConnectionInfo) : Prop :=
  reconnectAttempts c ≤ MAX_RECONNECT_ATTEMPTS
  ∧ (isConnected c = true → reconnectAttempts c = 0).

(** A connection after some events: same key, same accounts and
    subscriptions. *)
Definition evolves (c c' : ConnectionInfo) : Prop :=
  id c' = id c ∧ userAddresses c' = userAddresses c
  ∧ subscriptionTypes c' = subscriptionTypes c
  ∧ (attemptsOk c → attemptsOk c').

(** The pool is well formed: distinct keys, a statistics entry for every
    connection, attempt counters in order. *)
Definition PoolOk (w : World) : Prop :=
  NoDup (map id (connections (client w)))
  ∧ ∀ c, c ∈ connections (client w) → is_Some (details_of (id c) w) ∧ attemptsOk c.

(** The message counts: per connection, and the two totals. *)
Definition countsOf (w : World) : gmap string nat :=
  messagesCount <$> connectionDetails (connectionStats (client w)).

Definition tally (w : World) : gmap string nat * nat * nat :=
  (countsOf w, totalMessagesReceived (client w),
   messagesReceived (connectionStats (client w))).

(** The sum of the per-connection message counts. *)
Definition countedMessages (w : World) : nat :=
  sum_list (map (λ c, default 0 (countsOf w !! id c)) (connections (client w))).

(** The part of the per-user maps no message changes: the keys, the file
    paths, and in historical mode the raw message logs. *)
Definition usersPart (mode : DataSaveMode) (u : UserData) :=
  (userKeys u, userDataFiles u, userLowestValueFiles u, userHistoricalDataFiles u,
   userHistoricalLowestFiles u,
   if bool_decide (mode = historical) then userExistingData u else ∅).

(** The price cache only grows, and the alias table stays. *)
Definition pricesGrow (p p' : Prices) : Prop :=
  tokenToAllMidsMapping p' = tokenToAllMidsMapping p
  ∧ ∀ coin, is_Some (latestPrices p !! coin) → is_Some (latestPrices p' !! coin).

(** What no event changes. *)
Definition wiring (w : World) :=
  (map (λ c, (id c, userAddresses c, subscriptionTypes c)) (connections (client w)),
   userToConnectionMap (client w), clientMode (client w),
   totalConnections (connectionStats (client w)),
   totalUsers (connectionStats (client w)),
   dataSaveMode (client w),
   usersPart (dataSaveMode (client w)) (userData (client w))).

(** [w'] comes after [w]: every connection has evolved, what no event
    changes is as it was, every statistics entry is still there and the price
    cache has only grown. *)
Definition follows (w w' : World) : Prop :=
  Forall2 evolves (connections (client w)) (connections (client w'))
  ∧ wiring w' = wiring w
  ∧ (∀ j, is_Some (details_of j w) → is_Some (details_of j w'))
  ∧ pricesGrow (prices w) (prices w').

(** [w'] comes after [w] and no message has been counted. *)
Definition quiet (w w' : World) : Prop := follows w w' ∧ tally w' = tally w.

(** The fields [addConnection] leaves alone. *)
Definition clientRest (c : Client) :=
  (today c, clientMode c, dataSaveMode c, healthCheckInterval c, userData c,
   lastAllMidsUpdate c, totalMessagesReceived c,
   totalUsers (connectionStats c), activeConnections (connectionStats c),
   messagesReceived (connectionStats c), lastUpdate (connectionStats c)).

(** The frames among the events that parse. *)
Definition parses (e : PoolEvent) : bool :=
  match e with
  | Received _ Malformed _ => false
  | Received _ _ _ => true
  | _ => false
  end.

Definition parsedFrames (events : list PoolEvent) : nat :=
  length (filter (λ e, parses e = true) events).

(** The three message counts agree. *)
Definition CountOk (w : World) : Prop :=
  messagesReceived (connectionStats (client w)) = totalMessagesReceived (client w)
  ∧ countedMessages w = totalMessagesReceived (client w).

(** A client tracking one account: the start timer fires, the socket
    opens, a value update and a malformed frame arrive, the health check
    finds the connection silent, the socket closes and errors, and the
    client is shut down. *)
Definition sampleEvents : list PoolEvent :=
  [TimerFired 0; Opened "conn-1" 10; Received "conn-1" (valueUpdate "1000") 20;
   Received "conn-1" Malformed 30; HealthCheck 100000; Closed "conn-1" 100001;
   Failed "conn-1"; Shutdown 100002].

(** The events of a list are all raised by the socket of conn-1. *)
Definition onFirstConnection (events : list PoolEvent) : bool :=
  forallb (λ e, match socketOf e with
                | Some connectionId => String.eqb connectionId "conn-1"
                | None => true
                end) events.

(** The start timer fires, the socket opens and a value update arrives. *)
Definition sampleOpening : list PoolEvent :=
  [TimerFired 0; Opened "conn-1" 10; Received "conn-1" (valueUpdate "1000") 20].

(** A value update for an address that is not configured. *)
Definition strangerUpdate : MessageData :=
  {| user := Some "0xdef"; serverTime := Some 0%Z;
     clearinghouseState :=
       Some {| marginSummary := Some {| accountValue := Some "1" |} |};
     spotState := None; mids := None |}.


(** A spot balance with a quantity above zero. *)
Definition positive (balance : SpotBalance) : Prop :=
  JS.gt (JS.parseFloat (JS.or_else (total balance) "0")) (JS.of_Z 0) = true.

(** A price state in which only BTC has a price. *)
Definition btcOnly : Prices :=
  {| latestPrices := {["BTC" := "50000"]}; tokenToAllMidsMapping := ∅ |}.

(** A price broadcast that quotes SOL. *)
Definition midsAt (price : string) : MessageData :=
  {| user := None; serverTime := None; clearinghouseState := None; spotState := None;
     mids := Some {["SOL" := price]} |}.

(** After the opening, a price broadcast; later the socket closes. *)
Definition samplePriced : list PoolEvent :=
  sampleOpening
  ++ [Received "conn-1" (JsonValue (Some "allMids") (Some (midsAt "100"))) 6000].

(** The files of the accounts in the raw modes, two per account. *)
Definition rawFiles (today : string) (accounts : list string) : list string :=
  flat_map (λ u, [dataPath today u; lowestValuePath today u]) accounts.

(** The record [saveData] stores for a payload in a raw mode. *)
Definition rawRecord (mode : DataSaveMode) (d : MessageData) (localTime : Z) : Item :=
  ItemRaw (bool_decide (mode = spotAndPerps)) d localTime.

(** Each event of the list is strictly below the one before it. *)
Fixpoint descending (events : list Event.t) : Prop :=
  match events with
  | e1 :: ((e2 :: _) as rest) =>
      JS.lt (Event.accountValue e2) (Event.accountValue e1) = true ∧ descending rest
  | _ => True
  end.

(** The message log of account [u] in a raw mode: an array, the same in
    memory and on file. *)
Definition LogOk (today : string) (ud : UserData) (fs : gmap string Doc) (u : string)
    : Prop :=
  ∃ log,
    userExistingData ud !! u = Some (DocArray log)
    ∧ default (DocArray []) (fs !! dataPath today u) = DocArray log.

(** The log of lowest-value events of account [u] in a raw mode: an array
    of events, the same in memory and on file; the events carry the address
    [u] as configured and descend; the tracker holds the value of the last
    one. *)
Definition EventsOk (today : string) (ud : UserData) (fs : gmap string Doc) (u : string)
    : Prop :=
  ∃ events,
    userExistingLowestData ud !! u = Some (DocArray (ItemEvent <$> events))
    ∧ default (DocArray []) (fs !! lowestValuePath today u)
      = DocArray (ItemEvent <$> events)
    ∧ Forall (λ e, Event.user e = Some u) events
    ∧ descending events
    ∧ (u ≠ "" →
       userLowestAccountValues ud !! Some u = Some (Event.accountValue <$> last events)).

(** The per-user maps and the files in a raw mode. *)
Definition RawInv (today : string) (accounts : list string)
    (ud : UserData) (fs : gmap string Doc) : Prop :=
  userKeys ud = accounts
  ∧ (∀ k, is_Some (userLowestValueFiles ud !! k) → k ∈ accounts)
  ∧ ∀ u, u ∈ accounts →
      userDataFiles ud !! u = Some (dataPath today u)
      ∧ userLowestValueFiles ud !! u = Some (lowestValuePath today u)
      ∧ LogOk today ud fs u ∧ EventsOk today ud fs u.

(** The events that are not a frame: they leave the per-user maps and the
    files alone. *)
Definition noFrame (e : PoolEvent) : Prop :=
  match e with Received _ _ _ => False | _ => True end.

(** A value update addressed in upper case. *)
Definition shoutedUpdate (v : string) : MessageData :=
  {| user := Some "0XABC"; serverTime := Some 0%Z;
     clearinghouseState :=
       Some {| marginSummary := Some {| accountValue := Some v |} |};
     spotState := None; mids := None |}.

(** The trackers of an account against the events seen so far: unset
    before the first one, then the values of a lowest and a highest one. *)
Definition Extremes (seen : list Event.t)
    (lowest highest : option (option JS.number)) : Prop :=
  match seen with
  | [] => lowest = Some None ∧ highest = Some None
  | _ =>
      ∃ lo hi, lo ∈ seen ∧ hi ∈ seen
        ∧ lowest = Some (Some (Event.accountValue lo))
        ∧ highest = Some (Some (Event.accountValue hi))
        ∧ ∀ e, e ∈ seen →
            JS.le (Event.accountValue lo) (Event.accountValue e) = true
            ∧ JS.le (Event.accountValue e) (Event.accountValue hi) = true
  end.

(** What the start-up load of an account needs of the maps, and what it
    leaves. *)
Definition Unloaded (today u : string) (ud : UserData) : Prop :=
  userLowestValueFiles ud !! u = Some (lowestValuePath today u)
  ∧ userLowestAccountValues ud !! Some u = Some None
  ∧ userHighestAccountValues ud !! Some u = Some None.

Definition Loaded (u : string) (lows : list Event.t) (ud : UserData) : Prop :=
  userExistingLowestData ud !! u = Some (DocArray (ItemEvent <$> lows))
  ∧ Extremes lows (userLowestAccountValues ud !! Some u)
      (userHighestAccountValues ud !! Some u).

(** Two lowest-value events, as a raw mode logs them. *)
Definition sampleLows : list Event.t :=
  [{| Event.timestamp := 20; Event.accountValue := JS.of_Z 1000;
      Event.serverTime := Some 0%Z; Event.user := Some "0xabc" |};
   {| Event.timestamp := 40; Event.accountValue := JS.of_Z 900;
      Event.serverTime := Some 0%Z; Event.user := Some "0xabc" |}].

(** * Properties *)

(** ** [parseFloat] on the literals used below *)

Example parseFloat_1000 : JS.parseFloat "1000.00" = JS.of_Z 1000.
Proof. reflexivity. Qed.

Example parseFloat_frac : JS.parseFloat "-12.50abc" = JS.Fin (Qmake (-25) 2).
Proof. vm_compute. reflexivity. Qed.

Example parseFloat_exp : JS.parseFloat " 1.5e3" = JS.of_Z 1500.
Proof. vm_compute. reflexivity. Qed.

Example parseFloat_nan : JS.parseFloat "abc" = JS.NaN.
Proof. reflexivity. Qed.

Example parseFloat_dot : JS.parseFloat "." = JS.NaN.
Proof. reflexivity. Qed.

(** ** Price lookup *)

Lemma getTokenPrice_Some p coin price :
  latestPrices p !! coin = Some price → JS.truthy price = true →
  getTokenPrice p coin = Some price.
Proof. intros H Ht. unfold getTokenPrice. rewrite H. simpl. by rewrite Ht. Qed.

Lemma getSpotTokenPrice_USDC p : getSpotTokenPrice p "USDC" = Some "1.0".
Proof. reflexivity. Qed.

Lemma getSpotTokenPrice_alias p spotCoin allMidsKey :
  spotCoin ≠ "USDC" →
  tokenToAllMidsMapping p !! spotCoin = Some allMidsKey →
  JS.truthy allMidsKey = true →
  getSpotTokenPrice p spotCoin = getTokenPrice p allMidsKey.
Proof.
  intros Hne Hal Ht. unfold getSpotTokenPrice.
  destruct (String.eqb_spec spotCoin "USDC") as [->|_]; [done|].
  rewrite Hal. simpl. by rewrite Ht.
Qed.

Lemma getSpotTokenPrice_direct p spotCoin :
  spotCoin ≠ "USDC" →
  tokenToAllMidsMapping p !! spotCoin = None →
  getSpotTokenPrice p spotCoin = getTokenPrice p spotCoin.
Proof.
  intros Hne Hal. unfold getSpotTokenPrice.
  destruct (String.eqb_spec spotCoin "USDC") as [->|_]; [done|].
  by rewrite Hal.
Qed.

(** ** Valuation *)

Lemma useCurrentPrices_empty (m : gmap string string) :
  bool_decide ("allMids" ∈ SUBSCRIPTION_TYPES) && bool_decide (0 < size m)
  = negb (bool_decide (m = ∅)).
Proof.
  assert (bool_decide ("allMids" ∈ SUBSCRIPTION_TYPES) = true) as ->
    by (apply bool_decide_eq_true; set_solver).
  simpl. destruct (decide (m = ∅)) as [->|Hne].
  - rewrite map_size_empty. rewrite (bool_decide_eq_true_2 (∅ = ∅)); done.
  - rewrite (bool_decide_eq_false_2 (m = ∅)); [|done]. simpl.
    apply bool_decide_eq_true. apply map_size_non_empty_iff in Hne. lia.
Qed.

Lemma formatServerTimeToLocal_valid t :
  validTime t → formatServerTimeToLocal (Some t) = Some t.
Proof.
  unfold validTime, formatServerTimeToLocal. intros H.
  destruct (Z.leb_spec (Z.abs t) 8640000000000000); [done|lia].
Qed.

(** The rule for the [priceSource] flag, whatever the payload. *)
Lemma priceSource_rule p d e :
  createHistoricalDataEntry p d = Some e →
  Entry.priceSource e
  = if bool_decide (latestPrices p = ∅) then "entryNtl" else "currentPrices".
Proof.
  unfold createHistoricalDataEntry. rewrite useCurrentPrices_empty.
  destruct (bool_decide (latestPrices p = ∅)); simpl;
    repeat case_match; simpl; intros; simplify_option_eq; done.
Qed.

Lemma createHistoricalDataEntry_is_Some p d :
  is_Some (formatServerTimeToLocal (serverTime d)) →
  is_Some (createHistoricalDataEntry p d).
Proof.
  intros [t Ht]. unfold createHistoricalDataEntry.
  repeat case_match; rewrite Ht; simpl; eauto.
Qed.

(** In the current-price valuation a balance with no positive quantity
    changes neither the total nor the prices used. *)
Lemma addCurrentValue_skip p acc balance :
  nonPositive balance → addCurrentValue p acc balance = acc.
Proof.
  unfold nonPositive, addCurrentValue. intros H. destruct acc. by rewrite H.
Qed.

Lemma le_gt_false a b : JS.le a b = true → JS.gt a b = false.
Proof.
  destruct a as [|x], b as [|y]; simpl; try done.
  intros H. by rewrite H.
Qed.

(** Nor is it recorded by the entry-notional valuation. *)
Lemma recordEntryPrice_skip pricesUsed balance :
  nonPositive balance → recordEntryPrice pricesUsed balance = pricesUsed.
Proof.
  unfold nonPositive, recordEntryPrice. intros H. by rewrite (le_gt_false _ _ H).
Qed.

Lemma addCurrentValue_usdc50 p totalValue pricesUsed :
  addCurrentValue p (totalValue, pricesUsed) usdc50
  = (JS.add totalValue (JS.of_Z 50), <["USDC" := "1.00"]> pricesUsed).
Proof. reflexivity. Qed.

Lemma addCurrentValue_usol2 p totalValue pricesUsed :
  addCurrentValue p (totalValue, pricesUsed) usol2
  = match getSpotTokenPrice p "USOL" with
    | Some currentPrice =>
        (JS.add totalValue (JS.mul (JS.of_Z 2) (JS.parseFloat currentPrice)),
         <["USOL" := currentPrice]> pricesUsed)
    | None =>
        (JS.add totalValue (JS.of_Z 190), <["USOL" := "entryNtl:190"]> pricesUsed)
    end.
Proof. reflexivity. Qed.

Lemma currentPrices_sample p :
  calculateTotalAccountValueWithCurrentPrices p "1000.00" [usdc50; usol2]
  = match getSpotTokenPrice p "USOL" with
    | Some currentPrice =>
        (JS.add (JS.of_Z 1050) (JS.mul (JS.of_Z 2) (JS.parseFloat currentPrice)),
         <["USOL" := currentPrice]> (<["USDC" := "1.00"]> ∅))
    | None => (JS.of_Z 1240, <["USOL" := "entryNtl:190"]> (<["USDC" := "1.00"]> ∅))
    end.
Proof.
  unfold calculateTotalAccountValueWithCurrentPrices. cbn [fold_left].
  rewrite addCurrentValue_usdc50, addCurrentValue_usol2.
  destruct (getSpotTokenPrice p "USOL"); reflexivity.
Qed.

Lemma createHistoricalDataEntry_sample p t :
  validTime t →
  createHistoricalDataEntry p (sampleData t)
  = let '(totalAccountValue, pricesUsed) :=
      if bool_decide (latestPrices p = ∅)
      then (JS.of_Z 1240, <["USOL" := "entryNtl:190"]> (<["USDC" := "1.00"]> ∅))
      else calculateTotalAccountValueWithCurrentPrices p "1000.00" [usdc50; usol2] in
    Some {| Entry.totalAccountValue := totalAccountValue;
            Entry.clearinghouseState := "1000.00";
            Entry.spotBalance := [usdc50; usol2];
            Entry.pricesUsed := pricesUsed;
            Entry.serverTime := Some t;
            Entry.localTime := t;
            Entry.priceSource :=
              if bool_decide (latestPrices p = ∅) then "entryNtl" else "currentPrices" |}.
Proof.
  intros Ht. unfold createHistoricalDataEntry.
  rewrite useCurrentPrices_empty.
  change (serverTime (sampleData t)) with (Some t).
  rewrite (formatServerTimeToLocal_valid t Ht).
  destruct (bool_decide (latestPrices p = ∅)); reflexivity.
Qed.

(** C3, as the code has it: with margin value "1000.00" and the balances
    50 USDC and 2 USOL (entry notional 190), whenever no price can be looked
    up for USOL the total is 1240 and USOL is recorded with the entry-notional
    marker; the [priceSource] flag of any snapshot is "entryNtl" exactly when
    the price cache is empty and "currentPrices" otherwise, whatever prices
    the individual assets found. *)
Theorem C3_fallback_valuation :
  (∀ p t, validTime t → getSpotTokenPrice p "USOL" = None →
     ∃ e, createHistoricalDataEntry p (sampleData t) = Some e
          ∧ Entry.totalAccountValue e = JS.of_Z 1240
          ∧ Entry.pricesUsed e = <["USOL" := "entryNtl:190"]> (<["USDC" := "1.00"]> ∅))
  ∧ (∀ p d e, createHistoricalDataEntry p d = Some e →
       Entry.priceSource e
       = if bool_decide (latestPrices p = ∅) then "entryNtl" else "currentPrices").
Proof.
  split; [|apply priceSource_rule].
  intros p t Ht Hno. rewrite (createHistoricalDataEntry_sample p t Ht).
  rewrite currentPrices_sample, Hno.
  destruct (bool_decide (latestPrices p = ∅));
    (eexists; split; [reflexivity|]); split; reflexivity.
Qed.

Lemma C3_fallback_valuation_witness :
  ∃ e, createHistoricalDataEntry
         {| latestPrices := ∅; tokenToAllMidsMapping := ∅ |} (sampleData 0) = Some e
       ∧ Entry.totalAccountValue e = JS.of_Z 1240
       ∧ Entry.pricesUsed e = <["USOL" := "entryNtl:190"]> (<["USDC" := "1.00"]> ∅).
Proof.
  apply (proj1 C3_fallback_valuation).
  - unfold validTime. simpl. lia.
  - reflexivity.
Defined.

(** C3 as stated fails: with a price cached for BTC only, USOL has no live
    price and is valued at its entry notional, the total is 1240, and the
    flag is not the fallback one. *)
Lemma C3_flag_counterexample :
  let p := {| latestPrices := {["BTC" := "50000"]}; tokenToAllMidsMapping := ∅ |} in
  getSpotTokenPrice p "USOL" = None
  ∧ ∃ e, createHistoricalDataEntry p (sampleData 0) = Some e
         ∧ Entry.totalAccountValue e = JS.of_Z 1240
         ∧ Entry.pricesUsed e !! "USOL" = Some "entryNtl:190"
         ∧ Entry.priceSource e = "currentPrices"
         ∧ Entry.priceSource e ≠ "entryNtl".
Proof.
  split; [reflexivity|]. eexists. split; [vm_compute; reflexivity|].
  simpl. repeat split; try reflexivity. discriminate.
Qed.

(** C4: with margin value "1000.00", 50 USDC and 2 USOL, a cache holding
    SOL at "100" and the alias USOL -> SOL, the total is 1250, USOL is
    recorded at "100" and the flag is "currentPrices".  The lookup for a spot
    asset gives "1.0" for USDC, else the price of the alias when the asset
    has one, else the price under its own name. *)
Theorem C4_live_valuation :
  (∀ p t, validTime t →
     latestPrices p !! "SOL" = Some "100" →
     tokenToAllMidsMapping p !! "USOL" = Some "SOL" →
     ∃ e, createHistoricalDataEntry p (sampleData t) = Some e
          ∧ Entry.totalAccountValue e = JS.of_Z 1250
          ∧ Entry.pricesUsed e = <["USOL" := "100"]> (<["USDC" := "1.00"]> ∅)
          ∧ Entry.priceSource e = "currentPrices")
  ∧ (∀ p, getSpotTokenPrice p "USDC" = Some "1.0")
  ∧ (∀ p spotCoin allMidsKey,
       spotCoin ≠ "USDC" →
       tokenToAllMidsMapping p !! spotCoin = Some allMidsKey →
       JS.truthy allMidsKey = true →
       getSpotTokenPrice p spotCoin = getTokenPrice p allMidsKey)
  ∧ (∀ p spotCoin,
       spotCoin ≠ "USDC" →
       tokenToAllMidsMapping p !! spotCoin = None →
       getSpotTokenPrice p spotCoin = getTokenPrice p spotCoin).
Proof.
  split; [|split; [apply getSpotTokenPrice_USDC|
           split; [apply getSpotTokenPrice_alias|apply getSpotTokenPrice_direct]]].
  intros p t Ht Hsol Halias.
  assert (getSpotTokenPrice p "USOL" = Some "100") as Hprice.
  { rewrite (getSpotTokenPrice_alias p "USOL" "SOL"); [|done..].
    by apply getTokenPrice_Some. }
  assert (bool_decide (latestPrices p = ∅) = false) as Hne.
  { apply bool_decide_eq_false. intros Hempty. by rewrite Hempty in Hsol. }
  rewrite (createHistoricalDataEntry_sample p t Ht), Hne.
  rewrite currentPrices_sample, Hprice.
  eexists; split; [reflexivity|]. repeat split; reflexivity.
Qed.

Lemma C4_live_valuation_witness :
  (∃ e, createHistoricalDataEntry
          {| latestPrices := {["SOL" := "100"]};
             tokenToAllMidsMapping := initializeTokenMapping true |} (sampleData 0) = Some e
        ∧ Entry.totalAccountValue e = JS.of_Z 1250
        ∧ Entry.pricesUsed e = <["USOL" := "100"]> (<["USDC" := "1.00"]> ∅)
        ∧ Entry.priceSource e = "currentPrices")
  ∧ getSpotTokenPrice
      {| latestPrices := {["SOL" := "100"]};
         tokenToAllMidsMapping := initializeTokenMapping true |} "USOL"
    = Some "100"
  ∧ getSpotTokenPrice
      {| latestPrices := {["BTC" := "7"]};
         tokenToAllMidsMapping := initializeTokenMapping true |} "BTC"
    = Some "7".
Proof.
  destruct C4_live_valuation as (Hval & _ & Halias & Hdirect).
  split; [|split].
  - apply Hval; [unfold validTime; simpl; lia|reflexivity|reflexivity].
  - rewrite (Halias _ "USOL" "SOL"); [reflexivity|discriminate|reflexivity|reflexivity].
  - rewrite Hdirect; [reflexivity|discriminate|reflexivity].
Defined.

(** C5, as the code has it: a payload without a margin-summary account
    value is valued as if that value were "0"; a snapshot is produced
    whenever the time stamp can be formatted. *)
Theorem C5_missing_account_value_defaults_to_zero p d :
  marginAccountValue d = None →
  createHistoricalDataEntry p d = createHistoricalDataEntry p (withAccountValue "0" d)
  ∧ (is_Some (formatServerTimeToLocal (serverTime d)) →
     ∃ e, createHistoricalDataEntry p d = Some e ∧ Entry.clearinghouseState e = "0").
Proof.
  intros Hnone. unfold marginAccountValue in Hnone.
  assert (createHistoricalDataEntry p d = createHistoricalDataEntry p (withAccountValue "0" d))
    as Heq.
  { unfold createHistoricalDataEntry. rewrite Hnone. reflexivity. }
  split; [exact Heq|].
  intros Hs. destruct (createHistoricalDataEntry_is_Some p d Hs) as [e He].
  exists e. split; [done|].
  unfold createHistoricalDataEntry in He. rewrite Hnone in He. simpl in He.
  repeat case_match; simplify_option_eq; done.
Qed.

Lemma C5_missing_account_value_defaults_to_zero_witness :
  createHistoricalDataEntry {| latestPrices := ∅; tokenToAllMidsMapping := ∅ |} bareData
  = createHistoricalDataEntry {| latestPrices := ∅; tokenToAllMidsMapping := ∅ |}
      (withAccountValue "0" bareData)
  ∧ (is_Some (formatServerTimeToLocal (serverTime bareData)) →
     ∃ e, createHistoricalDataEntry
            {| latestPrices := ∅; tokenToAllMidsMapping := ∅ |} bareData = Some e
          ∧ Entry.clearinghouseState e = "0").
Proof.
  apply C5_missing_account_value_defaults_to_zero. reflexivity.
Defined.

(** C5 as stated fails: the account value is absent, yet a snapshot is
    produced (total 50, margin component "0") and it is appended to the
    account's history. *)
Lemma C5_snapshot_counterexample :
  let p := {| latestPrices := ∅; tokenToAllMidsMapping := ∅ |} in
  let u := initializeUserData "20250110" historical ["0xabc"] emptyUserData in
  marginAccountValue bareData = None
  ∧ (∃ e, createHistoricalDataEntry p bareData = Some e
          ∧ Entry.totalAccountValue e = JS.of_Z 50
          ∧ (saveHistoricalData p bareData "0xabc" (u, ∅)).1.(userExistingHistoricalData)
              !! "0xabc" = Some (DocArray [ItemEntry e])).
Proof.
  split; [reflexivity|]. eexists. split; [vm_compute; reflexivity|].
  split; [reflexivity|]. vm_compute. reflexivity.
Qed.

(** C6 at the failing input: a holding of quantity "0" and entry notional
    "190" beside a margin value of "1000".  With a price in the cache the
    holding is skipped (total 1000, nothing recorded); with an empty cache
    the entry-notional valuation adds its 190 to the total although it
    records no price for it. *)
Theorem C6_zero_quantity_counted_by_entryNtl_valuation :
  nonPositive emptyUsol
  ∧ (∃ e, createHistoricalDataEntry
            {| latestPrices := {["BTC" := "50000"]}; tokenToAllMidsMapping := ∅ |}
            emptyUsolData = Some e
          ∧ Entry.totalAccountValue e = JS.of_Z 1000 ∧ Entry.pricesUsed e = ∅)
  ∧ (∃ e, createHistoricalDataEntry
            {| latestPrices := ∅; tokenToAllMidsMapping := ∅ |} emptyUsolData = Some e
          ∧ Entry.totalAccountValue e = JS.of_Z 1190 ∧ Entry.pricesUsed e = ∅).
Proof.
  split; [reflexivity|].
  split; (eexists; split; [vm_compute; reflexivity|]); simpl; split; reflexivity.
Qed.

(** ** Partition *)

Lemma slice_step {A} (l : list A) i K : slice l i (i + K) = take K (drop i l).
Proof. unfold slice. f_equal. lia. Qed.

Lemma chunksFrom_S K l i m :
  chunksFrom K l i (S m) = slice l i (i + K) :: chunksFrom K l (i + K) m.
Proof.
  unfold chunksFrom. cbn [seq map]. f_equal.
  - f_equal; lia.
  - rewrite <- seq_shift, map_map. apply map_ext. intros j. f_equal; lia.
Qed.

Lemma groupLoop_run K l : 0 < K → ∀ fuel i acc,
  length l - i ≤ fuel →
  ∃ m, groupLoop fuel K l i acc = Some (acc ++ chunksFrom K l i m)
       ∧ m * K < length l - i + K ∧ length l - i ≤ m * K.
Proof.
  intros HK. induction fuel as [|fuel IH]; intros i acc Hfuel.
  - exists 0. simpl. rewrite bool_decide_eq_false_2 by lia.
    rewrite app_nil_r. split; [done|lia].
  - simpl. destruct (decide (i < length l)) as [Hlt|Hge].
    + rewrite bool_decide_eq_true_2 by done.
      destruct (IH (i + K) (acc ++ [slice l i (i + K)])) as (m & Hrun & Hlo & Hhi); [lia|].
      exists (S m). rewrite Hrun, chunksFrom_S, <- app_assoc. split; [done|].
      destruct (decide (i + K ≤ length l)) as [Hle|Hgt].
      * simpl. lia.
      * assert (m = 0) as -> by nia. simpl. lia.
    + rewrite bool_decide_eq_false_2 by done. exists 0.
      rewrite app_nil_r. split; [done|lia].
Qed.

Lemma connectionIdOf_inj j k : connectionIdOf j = connectionIdOf k → j = k.
Proof.
  unfold connectionIdOf. intros H. apply (inj _) in H. apply (inj _) in H. lia.
Qed.

Lemma conn_set_fresh info l :
  Forall (λ c, id c ≠ id info) l → conn_set info l = l ++ [info].
Proof.
  induction 1 as [|c l Hc _ IH]; [done|]. simpl.
  destruct (String.eqb_spec (id c) (id info)); [done|]. by rewrite IH.
Qed.

Lemma connections_addConnection now c index userGroup :
  connections (addConnection now c (index, userGroup))
  = conn_set (newConnection now index userGroup) (connections c).
Proof. reflexivity. Qed.

Lemma fold_addConnection now gs : ∀ n c,
  Forall (λ x, ∃ j, j < n ∧ id x = connectionIdOf j) (connections c) →
  connections (fold_left (addConnection now) (imap (λ j g, (n + j, g)) gs) c)
  = connections c ++ imap (λ j g, newConnection now (n + j) g) gs.
Proof.
  induction gs as [|g gs IH]; intros n c Hids.
  - simpl. by rewrite app_nil_r.
  - rewrite !imap_cons. cbn [fold_left].
    assert (connections (addConnection now c (n + 0, g))
            = connections c ++ [newConnection now (n + 0) g]) as Hstep.
    { rewrite connections_addConnection. apply conn_set_fresh.
      eapply Forall_impl; [exact Hids|]. intros x (j & Hj & Hx) Heq.
      rewrite Hx in Heq. apply connectionIdOf_inj in Heq. lia. }
    rewrite (imap_ext _ (λ j g0, (S n + j, g0))) by (intros; simpl; f_equal; lia).
    rewrite IH.
    + rewrite Hstep, <- app_assoc. f_equal. simpl. f_equal.
      apply imap_ext. intros. simpl. f_equal. lia.
    + rewrite Hstep. apply Forall_app. split.
      * eapply Forall_impl; [exact Hids|]. intros x (j & Hj & Hx). exists j. split; [lia|done].
      * apply Forall_singleton. exists (n + 0). split; [lia|done].
Qed.

Lemma chunksFrom_lookup K l m j g :
  chunksFrom K l 0 m !! j = Some g → j < m ∧ g = take K (drop (j * K) l).
Proof.
  unfold chunksFrom. rewrite list_lookup_fmap. intros H.
  destruct (seq 0 m !! j) as [k|] eqn:Hk; [|done].
  apply lookup_seq in Hk as [-> Hlt]. simpl in H. injection H as <-.
  split; [done|]. rewrite <- slice_step. done.
Qed.

Lemma chunksFrom_lookup_lt K l m j :
  j < m → chunksFrom K l 0 m !! j = Some (take K (drop (j * K) l)).
Proof.
  intros Hlt. unfold chunksFrom. rewrite list_lookup_fmap.
  rewrite (lookup_seq_lt 0 m j Hlt). simpl. by rewrite <- slice_step.
Qed.

Lemma concat_chunksFrom K l m : concat (chunksFrom K l 0 m) = take (m * K) l.
Proof.
  induction m as [|m IH]; [done|].
  unfold chunksFrom in *. rewrite seq_S, map_app, concat_app, IH. simpl.
  rewrite app_nil_r, slice_step, take_take_drop. f_equal. lia.
Qed.

Lemma elem_of_chunk {A} K (l : list A) j a :
  a ∈ take K (drop (j * K) l) → ∃ p, l !! p = Some a ∧ j * K ≤ p < j * K + K.
Proof.
  intros Hin. apply list_elem_of_lookup in Hin as [i Hi].
  assert (i < K) as HiK.
  { apply lookup_lt_Some in Hi. rewrite length_take in Hi. lia. }
  rewrite lookup_take_lt in Hi by done. rewrite lookup_drop in Hi.
  exists (j * K + i). split; [done|lia].
Qed.

Lemma setupConnectionGroups_run fuel K now accounts c :
  0 < K → connections c = [] → length accounts ≤ fuel →
  ∃ c' m,
    setupConnectionGroups fuel K now accounts c = Some c'
    ∧ connections c' = imap (newConnection now) (chunksFrom K accounts 0 m)
    ∧ totalConnections (connectionStats c') = m
    ∧ m * K < length accounts + K ∧ length accounts ≤ m * K.
Proof.
  intros HK Hfresh Hfuel.
  destruct (groupLoop_run K accounts HK fuel 0 []) as (m & Hrun & Hlo & Hhi); [lia|].
  unfold setupConnectionGroups. rewrite Hrun. simpl.
  eexists _, m. split; [reflexivity|].
  split; [|split; [|lia]].
  - change (connections (upd_stats ?f ?x)) with (connections x).
    rewrite (imap_ext pair (λ j g, (0 + j, g))) by done.
    rewrite fold_addConnection; rewrite Hfresh; [|constructor].
    simpl. apply imap_ext. done.
  - simpl. unfold chunksFrom. by rewrite length_map, length_seq.
Qed.

(** With [K = 0] and an account to place the loop never ends. *)
Lemma groupLoop_zero fuel accounts i acc :
  i < length accounts → groupLoop fuel 0 accounts i acc = None.
Proof.
  revert i acc. induction fuel as [|fuel IH]; intros i acc Hi; simpl;
    rewrite bool_decide_eq_true_2 by done; [done|].
  rewrite Nat.add_0_r. by apply IH.
Qed.

(** C2: for [K > 0] and enough fuel, [setupConnectionGroups] on a client
    without connections creates ceil(N/K) connections; connection [j] (id
    conn-(j+1)) holds the accounts at positions [j*K .. j*K+K-1], at most
    [K] of them; the connections' account lists concatenate to the input,
    the account at position [p] sits in connection [p / K] at offset
    [p mod K]; when the input has no duplicates no account is in two
    connections; an empty input gives no connection. *)
Theorem C2_partition fuel K now accounts c :
  0 < K → connections c = [] → length accounts ≤ fuel →
  ∃ c', setupConnectionGroups fuel K now accounts c = Some c'
    ∧ length (connections c') = (length accounts + K - 1) / K
    ∧ totalConnections (connectionStats c') = length (connections c')
    ∧ (∀ j conn, connections c' !! j = Some conn →
         id conn = connectionIdOf j
         ∧ userAddresses conn = slice accounts (j * K) (j * K + K)
         ∧ length (userAddresses conn) ≤ K)
    ∧ concat (map userAddresses (connections c')) = accounts
    ∧ (∀ p a, accounts !! p = Some a →
         ∃ conn, connections c' !! (p / K) = Some conn
                 ∧ userAddresses conn !! (p mod K) = Some a)
    ∧ (NoDup accounts → ∀ a j1 j2 c1 c2,
         connections c' !! j1 = Some c1 → connections c' !! j2 = Some c2 →
         a ∈ userAddresses c1 → a ∈ userAddresses c2 → j1 = j2)
    ∧ (accounts = [] → connections c' = []).
Proof.
  intros HK Hfresh Hfuel.
  destruct (setupConnectionGroups_run fuel K now accounts c HK Hfresh Hfuel)
    as (c' & m & Hrun & Hconns & Htotal & Hlo & Hhi).
  exists c'. split; [done|].
  assert (length (connections c') = m) as Hlen.
  { rewrite Hconns, length_imap. unfold chunksFrom. by rewrite length_map, length_seq. }
  assert (∀ j conn, connections c' !! j = Some conn →
            j < m ∧ conn = newConnection now j (take K (drop (j * K) accounts))) as Hlook.
  { intros j conn. rewrite Hconns, list_lookup_imap. intros H.
    destruct (chunksFrom K accounts 0 m !! j) as [g|] eqn:Hg; [|done].
    apply chunksFrom_lookup in Hg as [Hj ->]. simpl in H. by injection H as <-. }
  split; [|split; [|split; [|split; [|split; [|split]]]]].
  - rewrite Hlen. apply (Nat.div_unique _ _ _ (length accounts + K - 1 - m * K)); lia.
  - by rewrite Hlen.
  - intros j conn Hj. apply Hlook in Hj as [Hj ->]. simpl.
    split; [done|]. split; [by rewrite slice_step|]. rewrite length_take. lia.
  - assert (map userAddresses (connections c') = chunksFrom K accounts 0 m) as ->.
    { rewrite Hconns. apply list_eq. intros j.
      rewrite list_lookup_fmap, list_lookup_imap.
      by destruct (chunksFrom K accounts 0 m !! j). }
    rewrite concat_chunksFrom. apply firstn_all2. lia.
  - intros p a Hp.
    assert (p < length accounts) as Hplt by (by apply lookup_lt_Some in Hp).
    assert (p / K < m) as Hq.
    { apply Nat.Div0.div_lt_upper_bound. lia. }
    exists (newConnection now (p / K) (take K (drop (p / K * K) accounts))).
    split.
    + rewrite Hconns, list_lookup_imap, (chunksFrom_lookup_lt _ _ _ _ Hq). done.
    + simpl. pose proof (Nat.mod_upper_bound p K ltac:(lia)) as Hmod.
      rewrite lookup_take_lt by done. rewrite lookup_drop.
      rewrite <- Hp. f_equal. pose proof (Nat.div_mod_eq p K). lia.
  - intros Hnd a j1 j2 c1 c2 H1 H2 Ha1 Ha2.
    apply Hlook in H1 as [_ ->]. apply Hlook in H2 as [_ ->]. simpl in *.
    apply elem_of_chunk in Ha1 as (p1 & Hp1 & Hr1).
    apply elem_of_chunk in Ha2 as (p2 & Hp2 & Hr2).
    assert (p1 = p2) as -> by (eapply NoDup_lookup; eauto).
    nia.
  - intros ->. simpl in *. assert (m = 0) as Hm by nia.
    apply length_zero_iff_nil. lia.
Qed.

Lemma C2_partition_witness :
  ∃ c', setupConnectionGroups 7 3 0 ["a"; "b"; "c"; "d"; "e"; "f"; "g"]
          (blankClient continuous historical) = Some c'
    ∧ length (connections c') = 3
    ∧ map userAddresses (connections c') = [["a"; "b"; "c"]; ["d"; "e"; "f"]; ["g"]]
    ∧ map id (connections c') = ["conn-1"; "conn-2"; "conn-3"].
Proof.
  destruct (C2_partition 7 3 0 ["a"; "b"; "c"; "d"; "e"; "f"; "g"]
              (blankClient continuous historical))
    as (c' & Hrun & Hrest); [lia|reflexivity|simpl; lia|].
  exists c'. split; [exact Hrun|].
  vm_compute in Hrun. injection Hrun as <-. vm_compute. done.
Defined.

(** ** The connection map *)

Lemma conn_get_Some i l c : conn_get i l = Some c → id c = i ∧ c ∈ l.
Proof.
  unfold conn_get. intros H. apply find_some in H as [Hin Heq].
  apply String.eqb_eq in Heq. split; [done|]. by apply list_elem_of_In.
Qed.

Lemma conn_get_alter f i j l :
  keepsId f →
  conn_get j (conn_alter f i l)
  = if decide (i = j) then f <$> conn_get j l else conn_get j l.
Proof.
  intros Hf. induction l as [|c l IH]; simpl.
  - by destruct (decide (i = j)).
  - destruct (String.eqb_spec (id c) i) as [Hci|Hci]; simpl.
    + rewrite Hf. destruct (String.eqb_spec (id c) j) as [Hcj|Hcj];
        destruct (decide (i = j)); simpl; congruence.
    + destruct (String.eqb_spec (id c) j) as [Hcj|Hcj].
      * destruct (decide (i = j)); [congruence|done].
      * apply IH.
Qed.

Lemma conn_alter_ids f i l : keepsId f → map id (conn_alter f i l) = map id l.
Proof.
  intros Hf. induction l as [|c l IH]; simpl; [done|].
  destruct (String.eqb (id c) i); simpl; [by rewrite Hf|by rewrite IH].
Qed.

Lemma keepsId_set_ws v : keepsId (set_ws v). Proof. done. Qed.
Lemma keepsId_set_isConnected v : keepsId (set_isConnected v). Proof. done. Qed.
Lemma keepsId_set_reconnectAttempts v : keepsId (set_reconnectAttempts v). Proof. done. Qed.
Lemma keepsId_set_lastHeartbeat v : keepsId (set_lastHeartbeat v). Proof. done. Qed.

Create HintDb conn.
#[export] Hint Resolve keepsId_set_ws keepsId_set_isConnected
  keepsId_set_reconnectAttempts keepsId_set_lastHeartbeat : conn.

(** ** Reconnect *)

Lemma handleReconnect_below i w c d :
  conn_get i (connections (client w)) = Some c →
  details_of i w = Some d →
  reconnectAttempts c < MAX_RECONNECT_ATTEMPTS →
  handleReconnect i w
  = Some (set_timers (timers w ++ [(backoffDelay (S (reconnectAttempts c)), i)])
            (upd_details (set_status reconnecting) i
               (upd_conn (set_reconnectAttempts (S (reconnectAttempts c))) i w))).
Proof.
  intros Hc Hd Hlt. unfold handleReconnect. rewrite Hc.
  rewrite bool_decide_eq_true_2 by done.
  unfold setStatus.
  change (details_of i (upd_conn ?f i w)) with (details_of i w). rewrite Hd.
  reflexivity.
Qed.

Lemma handleReconnect_max i w c d :
  conn_get i (connections (client w)) = Some c →
  details_of i w = Some d →
  MAX_RECONNECT_ATTEMPTS ≤ reconnectAttempts c →
  handleReconnect i w = Some (upd_details (set_status disconnected) i w).
Proof.
  intros Hc Hd Hge. unfold handleReconnect. rewrite Hc.
  rewrite bool_decide_eq_false_2 by lia.
  unfold setStatus. by rewrite Hd.
Qed.

Lemma details_of_upd_details f i j w :
  details_of j (upd_details f i w)
  = if decide (i = j) then f <$> details_of j w else details_of j w.
Proof.
  unfold details_of, upd_details. simpl. rewrite lookup_alter.
  destruct (decide (i = j)); [by subst|done].
Qed.

Lemma conn_get_upd_conn f i j w :
  keepsId f →
  conn_get j (connections (client (upd_conn f i w)))
  = if decide (i = j) then f <$> conn_get j (connections (client w))
    else conn_get j (connections (client w)).
Proof. intros Hf. unfold upd_conn. simpl. by apply conn_get_alter. Qed.

(** After [n] closures in a row, starting with [a] attempts made: the
    attempts [a+1 .. min (a+n) 5] have been scheduled, nothing else. *)
Lemma repeatReconnect_run n : ∀ i w c d,
  conn_get i (connections (client w)) = Some c →
  details_of i w = Some d →
  reconnectAttempts c ≤ MAX_RECONNECT_ATTEMPTS →
  ∃ w' d',
    repeatReconnect n i w = Some w'
    ∧ timers w'
      = timers w ++ map (λ k, (backoffDelay k, i))
                      (seq (S (reconnectAttempts c))
                           (n `min` (MAX_RECONNECT_ATTEMPTS - reconnectAttempts c)))
    ∧ conn_get i (connections (client w'))
      = Some (set_reconnectAttempts
                ((reconnectAttempts c + n) `min` MAX_RECONNECT_ATTEMPTS) c)
    ∧ details_of i w' = Some d'.
Proof.
  induction n as [|n IH]; intros i w c d Hc Hd Hle.
  - exists w, d. simpl. rewrite app_nil_r, Nat.add_0_r, Nat.min_l by done.
    destruct c; done.
  - cbn [repeatReconnect].
    destruct (decide (reconnectAttempts c < MAX_RECONNECT_ATTEMPTS)) as [Hlt|Hge].
    + rewrite (handleReconnect_below i w c d) by done. cbn [mbind option_bind].
      set (c1 := set_reconnectAttempts (S (reconnectAttempts c)) c).
      set (w1 := set_timers _ _).
      assert (conn_get i (connections (client w1)) = Some c1) as Hc1.
      { unfold w1. simpl. rewrite conn_get_alter by auto with conn.
        rewrite decide_True by done. by rewrite Hc. }
      assert (details_of i w1 = Some (set_status reconnecting d)) as Hd1.
      { unfold w1, details_of. simpl. rewrite lookup_alter_eq.
        unfold details_of in Hd. by rewrite Hd. }
      destruct (IH i w1 c1 _ Hc1 Hd1) as (w' & d' & Hrun & Ht & Hg & Hd'); [simpl; lia|].
      exists w', d'. split; [exact Hrun|]. split; [|split; [|exact Hd']].
      * rewrite Ht. change (timers w1) with
          (timers w ++ [(backoffDelay (S (reconnectAttempts c)), i)]).
        change (reconnectAttempts c1) with (S (reconnectAttempts c)).
        rewrite <- app_assoc. f_equal.
        replace (S n `min` (MAX_RECONNECT_ATTEMPTS - reconnectAttempts c))
          with (S (n `min` (MAX_RECONNECT_ATTEMPTS - S (reconnectAttempts c)))) by lia.
        reflexivity.
      * rewrite Hg. change (reconnectAttempts c1) with (S (reconnectAttempts c)).
        unfold c1, set_reconnectAttempts. cbn [id ws userAddresses isConnected
          lastHeartbeat subscriptionTypes]. do 2 f_equal. lia.
    + rewrite (handleReconnect_max i w c d) by (done || lia). cbn [mbind option_bind].
      edestruct (IH i (upd_details (set_status disconnected) i w) c) as (w' & d' & Hrun & Ht & Hg & Hd').
      * exact Hc.
      * rewrite details_of_upd_details, decide_True by done. by rewrite Hd.
      * done.
      * exists w', d'. split; [exact Hrun|]. split; [|split; [|exact Hd']].
        -- rewrite Ht. change (timers (upd_details _ _ w)) with (timers w).
           replace (MAX_RECONNECT_ATTEMPTS - reconnectAttempts c) with 0 by lia.
           by rewrite !Nat.min_0_r.
        -- rewrite Hg. do 2 f_equal. lia.
Qed.

Lemma onClose_exhausted i now w c d :
  conn_get i (connections (client w)) = Some c →
  details_of i w = Some d →
  clientMode (client w) = continuous →
  MAX_RECONNECT_ATTEMPTS ≤ reconnectAttempts c →
  onClose i now w
  = Some (upd_details (set_status disconnected) i
            (upd_details (set_status disconnected) i
               (updateConnectionStats now (upd_conn (set_isConnected false) i w)))).
Proof.
  intros Hc Hd Hmode Hge. unfold onClose, setStatus.
  change (details_of i (updateConnectionStats now (upd_conn ?f i w)))
    with (details_of i w).
  rewrite Hd. cbn [mbind option_bind].
  change (clientMode (client (upd_details ?f i (updateConnectionStats now (upd_conn ?g i w)))))
    with (clientMode (client w)).
  rewrite Hmode, bool_decide_eq_true_2 by done.
  eapply handleReconnect_max.
  - change (connections (client (upd_details ?f i (updateConnectionStats now ?x))))
      with (connections (client x)).
    rewrite conn_get_upd_conn by auto with conn.
    rewrite decide_True by done. rewrite Hc. reflexivity.
  - rewrite details_of_upd_details, decide_True by done.
    change (details_of i (updateConnectionStats now (upd_conn ?f i w)))
      with (details_of i w).
    rewrite Hd. reflexivity.
  - done.
Qed.

Lemma onOpen_run i now w d :
  details_of i w = Some d →
  onOpen i now w
  = Some (setupSubscriptions i
            (upd_details (set_status connected) i
               (updateConnectionStats now
                  (upd_conn (λ c, set_lastHeartbeat now
                                    (set_reconnectAttempts 0 (set_isConnected true c))) i w)))).
Proof.
  intros Hd. unfold onOpen, setStatus.
  change (details_of i (updateConnectionStats now (upd_conn ?f i w)))
    with (details_of i w).
  by rewrite Hd.
Qed.

Lemma connections_setupSubscriptions i w :
  connections (client (setupSubscriptions i w)) = connections (client w).
Proof. unfold setupSubscriptions. by repeat case_match. Qed.

Lemma timers_setupSubscriptions i w : timers (setupSubscriptions i w) = timers w.
Proof. unfold setupSubscriptions. by repeat case_match. Qed.

(** C7: reconnect attempts 1 to 5 are scheduled 5000, 10000, 20000, 40000
    and 80000 ms ahead.  [handleReconnect] on a connection with [a < 5]
    attempts made schedules attempt [a + 1] with its delay and counts it;
    with 5 attempts made it schedules nothing and leaves the connections as
    they are, marking the entry disconnected.  From zero attempts, [n]
    closures in a row schedule exactly the first [min n 5] attempts.  A close
    event with the attempts used up leaves the connection flagged
    disconnected with nothing scheduled.  An open event sets the attempt
    counter back to zero. *)
Theorem C7_reconnect_backoff :
  map backoffDelay [1; 2; 3; 4; 5] = [5000; 10000; 20000; 40000; 80000]%Z
  ∧ (∀ i w c d,
       conn_get i (connections (client w)) = Some c →
       details_of i w = Some d →
       (reconnectAttempts c < MAX_RECONNECT_ATTEMPTS →
        ∃ w', handleReconnect i w = Some w'
          ∧ timers w' = timers w ++ [(backoffDelay (S (reconnectAttempts c)), i)]
          ∧ conn_get i (connections (client w'))
            = Some (set_reconnectAttempts (S (reconnectAttempts c)) c))
       ∧ (MAX_RECONNECT_ATTEMPTS ≤ reconnectAttempts c →
          ∃ w', handleReconnect i w = Some w'
            ∧ timers w' = timers w
            ∧ connections (client w') = connections (client w)
            ∧ status <$> details_of i w' = Some disconnected))
  ∧ (∀ n i w c d,
       conn_get i (connections (client w)) = Some c →
       details_of i w = Some d →
       reconnectAttempts c = 0 →
       ∃ w', repeatReconnect n i w = Some w'
         ∧ timers w' = timers w ++ map (λ k, (backoffDelay k, i)) (seq 1 (n `min` 5))
         ∧ conn_get i (connections (client w'))
           = Some (set_reconnectAttempts (n `min` 5) c))
  ∧ (∀ i now w c d,
       conn_get i (connections (client w)) = Some c →
       details_of i w = Some d →
       clientMode (client w) = continuous →
       MAX_RECONNECT_ATTEMPTS ≤ reconnectAttempts c →
       ∃ w', onClose i now w = Some w'
         ∧ timers w' = timers w
         ∧ conn_get i (connections (client w')) = Some (set_isConnected false c)
         ∧ status <$> details_of i w' = Some disconnected)
  ∧ (∀ i now w c d,
       conn_get i (connections (client w)) = Some c →
       details_of i w = Some d →
       ∃ w' c', onOpen i now w = Some w'
         ∧ conn_get i (connections (client w')) = Some c'
         ∧ reconnectAttempts c' = 0 ∧ isConnected c' = true
         ∧ timers w' = timers w).
Proof.
  split; [reflexivity|]. split; [|split; [|split]].
  - intros i w c d Hc Hd. split; intros Ha.
    + eexists. split; [by eapply handleReconnect_below|]. split; [reflexivity|].
      cbn [client set_timers]. change (connections (client (upd_details ?f i ?x)))
        with (connections (client x)).
      rewrite conn_get_upd_conn by auto with conn.
      rewrite decide_True by done. by rewrite Hc.
    + eexists. split; [by eapply handleReconnect_max|]. split; [reflexivity|].
      split; [reflexivity|].
      rewrite details_of_upd_details, decide_True by done. by rewrite Hd.
  - intros n i w c d Hc Hd Ha.
    destruct (repeatReconnect_run n i w c d Hc Hd) as (w' & d' & Hrun & Ht & Hg & _).
    { rewrite Ha. unfold MAX_RECONNECT_ATTEMPTS. lia. }
    exists w'. split; [exact Hrun|]. rewrite Ht, Hg, Ha.
    split; reflexivity.
  - intros i now w c d Hc Hd Hmode Ha.
    eexists. split; [by eapply onClose_exhausted|]. split; [reflexivity|]. split.
    + change (connections (client (upd_details ?f i (upd_details ?g i
                (updateConnectionStats now ?x))))) with (connections (client x)).
      rewrite conn_get_upd_conn by auto with conn.
      rewrite decide_True by done. by rewrite Hc.
    + rewrite !details_of_upd_details, !decide_True by done.
      change (details_of i (updateConnectionStats now (upd_conn ?f i w)))
        with (details_of i w).
      by rewrite Hd.
  - intros i now w c d Hc Hd.
    eexists _, _. split; [by eapply onOpen_run|].
    rewrite connections_setupSubscriptions, timers_setupSubscriptions.
    change (connections (client (upd_details ?f i (updateConnectionStats now ?x))))
      with (connections (client x)).
    rewrite conn_get_upd_conn by done.
    rewrite decide_True by done. rewrite Hc. split; [reflexivity|]. done.
Qed.

(** ** Health check *)

Lemma conn_get_elem_of l c :
  NoDup (map id l) → c ∈ l → conn_get (id c) l = Some c.
Proof.
  induction l as [|x l IH]; intros Hnd Hin; [by apply elem_of_nil in Hin|].
  simpl in *. apply NoDup_cons in Hnd as [Hx Hnd].
  apply elem_of_cons in Hin as [->|Hin].
  - by rewrite String.eqb_refl.
  - destruct (String.eqb_spec (id x) (id c)) as [Heq|Hne]; [|by apply IH].
    exfalso. apply Hx. rewrite Heq. apply list_elem_of_fmap. by exists c.
Qed.

Lemma keepsId_checked now mode : keepsId (checked now mode).
Proof. intros c. unfold checked. by repeat case_match. Qed.

Lemma conn_alter_id i l : conn_alter (λ c, c) i l = l.
Proof. induction l as [|c l IH]; simpl; [done|]. case_match; [done|by rewrite IH]. Qed.

Lemma conn_alter_compose f g i l :
  keepsId g →
  conn_alter f i (conn_alter g i l) = conn_alter (f ∘ g) i l.
Proof.
  intros Hg. induction l as [|c l IH]; simpl; [done|].
  destruct (String.eqb (id c) i) eqn:Hci; simpl.
  - by rewrite Hg, Hci.
  - by rewrite Hci, IH.
Qed.

Lemma conn_alter_ext f g i l :
  (∀ c, conn_get i l = Some c → f c = g c) → conn_alter f i l = conn_alter g i l.
Proof.
  induction l as [|c l IH]; intros H; [done|].
  unfold conn_get in H. simpl in *.
  destruct (String.eqb (id c) i) eqn:Hci.
  - f_equal. by apply H.
  - f_equal. by apply IH.
Qed.

(** One round of the loop, in closed form. *)
Lemma checkConnection_run now i w c :
  conn_get i (connections (client w)) = Some c →
  is_Some (details_of i w) →
  ∃ w', checkConnection now i w = Some w'
    ∧ connections (client w')
      = conn_alter (checked now (clientMode (client w))) i (connections (client w))
    ∧ timers w' = timers w ++ scheduled now (clientMode (client w)) c
    ∧ clientMode (client w') = clientMode (client w)
    ∧ (∀ j, is_Some (details_of j w') ↔ is_Some (details_of j w)).
Proof.
  intros Hc [d Hd]. pose proof (conn_get_Some _ _ _ Hc) as [Hid _].
  unfold checkConnection. rewrite Hc. fold (stale now c).
  assert (conn_alter (λ c, c) i (connections (client w))
          = conn_alter (checked now (clientMode (client w))) i (connections (client w))
          → stale now c && bool_decide (clientMode (client w) = continuous) = false
          → ∃ w', Some w = Some w'
              ∧ connections (client w')
                = conn_alter (checked now (clientMode (client w))) i (connections (client w))
              ∧ timers w' = timers w ++ scheduled now (clientMode (client w)) c
              ∧ clientMode (client w') = clientMode (client w)
              ∧ (∀ j, is_Some (details_of j w') ↔ is_Some (details_of j w))) as Hsame.
  { intros Heq Hf. exists w. split; [done|]. rewrite <- Heq, conn_alter_id.
    unfold scheduled. rewrite Hf. simpl. by rewrite app_nil_r. }
  destruct (stale now c) eqn:Hst; simpl.
  - destruct (decide (clientMode (client w) = continuous)) as [Hm|Hm].
    + rewrite bool_decide_eq_true_2 by done.
      set (w1 := upd_conn (set_isConnected false) i w).
      assert (conn_get i (connections (client w1)) = Some (set_isConnected false c)) as Hc1.
      { unfold w1. rewrite conn_get_upd_conn by auto with conn.
        rewrite decide_True by done. by rewrite Hc. }
      assert (details_of i w1 = Some d) as Hd1 by done.
      destruct (decide (reconnectAttempts c < MAX_RECONNECT_ATTEMPTS)) as [Hlt|Hge].
      * rewrite (handleReconnect_below i w1 _ d Hc1 Hd1) by done.
        eexists. split; [reflexivity|]. split; [|split; [|split]].
        -- cbn. rewrite conn_alter_compose by auto with conn.
           apply conn_alter_ext. intros c' Hc'.
           assert (c' = c) as -> by congruence.
           unfold checked. rewrite Hst, Hm. simpl.
           rewrite !bool_decide_eq_true_2 by done. done.
        -- cbn. unfold scheduled. rewrite Hst, Hm. simpl.
           rewrite !bool_decide_eq_true_2 by done. by rewrite Hid.
        -- done.
        -- intros j. change (details_of j (set_timers ?t ?x)) with (details_of j x).
           rewrite details_of_upd_details.
           change (details_of j (upd_conn ?f i w1)) with (details_of j w).
           destruct (decide (i = j)); [|done]. by rewrite fmap_is_Some.
      * rewrite (handleReconnect_max i w1 _ d Hc1 Hd1) by (simpl; lia).
        eexists. split; [reflexivity|]. split; [|split; [|split]].
        -- cbn. apply conn_alter_ext. intros c' Hc'.
           assert (c' = c) as -> by congruence.
           unfold checked. rewrite Hst, Hm. simpl.
           by rewrite bool_decide_eq_false_2 by done.
        -- cbn. unfold scheduled. rewrite Hst, Hm. simpl.
           rewrite bool_decide_eq_false_2 by done. by rewrite app_nil_r.
        -- done.
        -- intros j. rewrite details_of_upd_details.
           change (details_of j w1) with (details_of j w).
           destruct (decide (i = j)); [|done]. by rewrite fmap_is_Some.
    + rewrite bool_decide_eq_false_2 by done. apply Hsame.
      * apply conn_alter_ext. intros c' Hc'. unfold checked.
        replace c' with c by congruence. rewrite Hst. simpl.
        by rewrite bool_decide_eq_false_2 by done.
      * by rewrite bool_decide_eq_false_2 by done.
  - apply Hsame; [|done].
    apply conn_alter_ext. intros c' Hc'. unfold checked.
    replace c' with c by congruence. by rewrite Hst.
Qed.

Lemma conn_get_map f j l :
  keepsId f → conn_get j (map f l) = f <$> conn_get j l.
Proof.
  intros Hf. unfold conn_get. induction l as [|c l IH]; simpl; [done|].
  rewrite Hf. by destruct (String.eqb (id c) j).
Qed.

Lemma conn_get_not_in j l : j ∉ map id l → conn_get j l = None.
Proof.
  unfold conn_get. induction l as [|c l IH]; simpl; intros Hj; [done|].
  apply not_elem_of_cons in Hj as [Hne Hj].
  destruct (String.eqb_spec (id c) j); [congruence|by apply IH].
Qed.

(** Two connection maps with the same keys in the same order and the same
    value under every key are equal. *)
Lemma conn_ext l1 : ∀ l2,
  map id l1 = map id l2 → NoDup (map id l1) →
  (∀ j, conn_get j l1 = conn_get j l2) → l1 = l2.
Proof.
  induction l1 as [|c1 l1 IH]; intros [|c2 l2] Hids Hnd Hget; try done.
  simpl in Hids. injection Hids as Hid Hids.
  apply NoDup_cons in Hnd as [Hc1 Hnd].
  assert (c1 = c2) as <-.
  { specialize (Hget (id c1)). unfold conn_get in Hget. simpl in Hget.
    rewrite <- Hid, String.eqb_refl in Hget. congruence. }
  f_equal. apply IH; [done..|]. intros j.
  destruct (decide (j = id c1)) as [->|Hne].
  - rewrite !conn_get_not_in; [done| |done]. by rewrite <- Hids.
  - specialize (Hget j). unfold conn_get in *. simpl in Hget.
    by destruct (String.eqb_spec (id c1) j); [congruence|].
Qed.

Lemma flat_map_nil {A B} (f : A → list B) l : (∀ x, f x = []) → flat_map f l = [].
Proof. intros H. induction l as [|x l IH]; simpl; [done|]. by rewrite H, IH. Qed.

Lemma flat_map_ext_elem {A B} (f g : A → list B) l :
  (∀ x, x ∈ l → f x = g x) → flat_map f l = flat_map g l.
Proof.
  induction l as [|x l IH]; intros H; simpl; [done|].
  rewrite H, IH; [done| |]; intros; try apply H; by constructor.
Qed.

Lemma healthLoop_run now : ∀ ids w,
  NoDup ids →
  (∀ j, j ∈ ids →
     is_Some (conn_get j (connections (client w))) ∧ is_Some (details_of j w)) →
  ∃ w',
    fold_left (λ acc j, acc ≫= checkConnection now j) ids (Some w) = Some w'
    ∧ clientMode (client w') = clientMode (client w)
    ∧ map id (connections (client w')) = map id (connections (client w))
    ∧ (∀ j, conn_get j (connections (client w'))
            = if decide (j ∈ ids)
              then checked now (clientMode (client w)) <$> conn_get j (connections (client w))
              else conn_get j (connections (client w)))
    ∧ timers w'
      = timers w ++ flat_map (λ j, from_option (scheduled now (clientMode (client w))) []
                                     (conn_get j (connections (client w)))) ids
    ∧ (∀ j, is_Some (details_of j w') ↔ is_Some (details_of j w)).
Proof.
  induction ids as [|i ids IH]; intros w Hnd Hok.
  - exists w. simpl. rewrite app_nil_r. repeat split; try done.
  - apply NoDup_cons in Hnd as [Hi Hnd].
    destruct (Hok i) as [[c Hc] Hd]; [by left|].
    destruct (checkConnection_run now i w c Hc Hd) as (w1 & Hrun & Hconn & Htim & Hmode & Hdet).
    assert (∀ j, conn_get j (connections (client w1))
                 = if decide (i = j)
                   then checked now (clientMode (client w)) <$> conn_get j (connections (client w))
                   else conn_get j (connections (client w))) as Hget1.
    { intros j. rewrite Hconn. apply conn_get_alter, keepsId_checked. }
    destruct (IH w1 Hnd) as (w' & Hfold & Hmode' & Hids & Hget & Htim' & Hdet').
    { intros j Hj. destruct (Hok j) as [Hcj Hdj]; [by right|].
      split; [|by apply Hdet]. rewrite Hget1.
      destruct (decide (i = j)); [|done]. by rewrite fmap_is_Some. }
    exists w'. cbn [fold_left mbind option_bind]. rewrite Hrun.
    split; [exact Hfold|]. split; [congruence|]. split; [|split; [|split]].
    + rewrite Hids, Hconn. apply conn_alter_ids, keepsId_checked.
    + intros j. rewrite Hget, Hget1, Hmode.
      destruct (decide (i = j)) as [<-|Hij].
      * rewrite decide_False by done. rewrite decide_True by (by left). done.
      * destruct (decide (j ∈ ids)) as [Hin|Hnin].
        -- rewrite decide_True by (by right). done.
        -- rewrite decide_False; [done|]. intros [->|?]%elem_of_cons; done.
    + rewrite Htim', Htim, <- app_assoc. f_equal. cbn [flat_map]. rewrite Hc. simpl.
      f_equal. rewrite Hmode. apply flat_map_ext_elem. intros j Hj.
      rewrite Hget1. rewrite decide_False; [done|]. by intros ->.
    + intros j. rewrite Hdet'. apply Hdet.
Qed.

Lemma performHealthCheck_run now w :
  NoDup (map id (connections (client w))) →
  (∀ c, c ∈ connections (client w) → is_Some (details_of (id c) w)) →
  ∃ w', performHealthCheck now w = Some w'
    ∧ connections (client w') = map (checked now (clientMode (client w))) (connections (client w))
    ∧ timers w' = timers w ++ flat_map (scheduled now (clientMode (client w)))
                                (connections (client w)).
Proof.
  intros Hnd Hdet.
  destruct (healthLoop_run now (map id (connections (client w))) w Hnd)
    as (w' & Hfold & Hmode & Hids & Hget & Htim & _).
  { intros j Hj. apply list_elem_of_fmap in Hj as (c & -> & Hc).
    split; [|by apply Hdet]. by rewrite (conn_get_elem_of _ c Hnd Hc). }
  exists (updateConnectionStats now w'). unfold performHealthCheck. rewrite Hfold.
  split; [reflexivity|].
  change (connections (client (updateConnectionStats now w'))) with (connections (client w')).
  change (timers (updateConnectionStats now w')) with (timers w').
  split.
  - apply conn_ext.
    + rewrite Hids, map_map. apply map_ext. intros c. by rewrite keepsId_checked.
    + by rewrite Hids.
    + intros j. rewrite Hget, (conn_get_map _ _ _ (keepsId_checked _ _)).
      destruct (decide (j ∈ map id (connections (client w)))) as [|Hnin]; [done|].
      by rewrite (conn_get_not_in _ _ Hnin).
  - rewrite Htim. f_equal. rewrite flat_map_concat_map, map_map, <- flat_map_concat_map.
    apply flat_map_ext_elem. intros c Hc. by rewrite (conn_get_elem_of _ c Hnd Hc).
Qed.

(** C8, as the code has it: one health-check pass over a pool in which
    every connection has its statistics entry.  In continuous mode a stale
    connection ends flagged disconnected, and while it has attempts left a
    reconnect is scheduled for it with the back-off delay of its next
    attempt.  In oneOff mode the pass changes no connection: a stale
    connection stays flagged connected, and nothing is scheduled.  A
    connection that is not stale is left as it is in either mode. *)
Theorem C8_health_check now w :
  NoDup (map id (connections (client w))) →
  (∀ c, c ∈ connections (client w) → is_Some (details_of (id c) w)) →
  ∃ w', performHealthCheck now w = Some w'
    ∧ (∀ c, c ∈ connections (client w) →
         isConnected c = true →
         (HEALTH_CHECK_INTERVAL * 2 < now - lastHeartbeat c)%Z →
         clientMode (client w) = continuous →
         ∃ c', conn_get (id c) (connections (client w')) = Some c'
           ∧ isConnected c' = false
           ∧ (reconnectAttempts c < MAX_RECONNECT_ATTEMPTS →
              reconnectAttempts c' = S (reconnectAttempts c)
              ∧ (backoffDelay (S (reconnectAttempts c)), id c) ∈ timers w'))
    ∧ (clientMode (client w) = oneOff →
         connections (client w') = connections (client w) ∧ timers w' = timers w)
    ∧ (∀ c, c ∈ connections (client w) → stale now c = false →
         conn_get (id c) (connections (client w')) = Some c).
Proof.
  intros Hnd Hdet.
  destruct (performHealthCheck_run now w Hnd Hdet) as (w' & Hrun & Hconn & Htim).
  exists w'. split; [exact Hrun|].
  assert (∀ c, c ∈ connections (client w) →
            conn_get (id c) (connections (client w'))
            = Some (checked now (clientMode (client w)) c)) as Hafter.
  { intros c Hc. rewrite Hconn, (conn_get_map _ _ _ (keepsId_checked _ _)).
    by rewrite (conn_get_elem_of _ c Hnd Hc). }
  split; [|split].
  - intros c Hc Hconnected Hsilent Hm.
    assert (stale now c = true) as Hst.
    { unfold stale. rewrite Hconnected. simpl. by apply bool_decide_eq_true. }
    rewrite (Hafter c Hc). eexists. split; [reflexivity|].
    unfold checked. rewrite Hst, Hm. simpl. split; [by case_bool_decide|].
    intros Hlt. rewrite bool_decide_eq_true_2 by done. split; [done|].
    rewrite Htim. apply elem_of_app. right. apply list_elem_of_In, in_flat_map.
    exists c. split; [by apply list_elem_of_In|].
    unfold scheduled. rewrite Hst, Hm. simpl. rewrite bool_decide_eq_true_2 by done. by left.
  - intros Hm. rewrite Hconn, Htim, Hm. split.
    + rewrite <- (map_id (connections (client w))) at 2. apply map_ext.
      intros c. unfold checked. by rewrite andb_false_r.
    + rewrite flat_map_nil; [by rewrite app_nil_r|].
      intros c. unfold scheduled. by rewrite andb_false_r.
  - intros c Hc Hst. rewrite (Hafter c Hc). unfold checked. by rewrite Hst.
Qed.

(** ** Shutdown *)

Lemma closeLoop_run l : ∀ seen open,
  ∃ open',
    fold_left closeConnection l (seen, open)
    = (seen ++ map (λ c, match ws c with
                         | Some _ => set_isConnected false (set_ws None c)
                         | None => c
                         end) l, open')
    ∧ (∀ s, s ∈ open' ↔ s ∈ open ∧ ∀ c, c ∈ l → ws c ≠ Some s).
Proof.
  induction l as [|c l IH]; intros seen open.
  - exists open. simpl. rewrite app_nil_r. split; [done|].
    intros s. split; [|by intros [? _]]. intros Hs. split; [done|].
    intros c Hc. by apply elem_of_nil in Hc.
  - cbn [fold_left]. unfold closeConnection at 2.
    destruct (ws c) as [socket|] eqn:Hws.
    + destruct (IH (seen ++ [set_isConnected false (set_ws None c)])
                   (filter (λ s, s ≠ socket) open)) as (open' & Hrun & Hopen).
      exists open'. rewrite Hrun, <- app_assoc. simpl. rewrite Hws. split; [done|].
      intros s. rewrite Hopen, list_elem_of_filter. split.
      * intros [[Hne Hs] Hl]. split; [done|]. intros c' [->|Hc']%elem_of_cons; [congruence|auto].
      * intros [Hs Hl]. split; [split; [|done]|].
        -- intros ->. eapply Hl; [by left|done].
        -- intros c' Hc'. apply Hl. by right.
    + destruct (IH (seen ++ [c]) open) as (open' & Hrun & Hopen).
      exists open'. rewrite Hrun, <- app_assoc. simpl. rewrite Hws. split; [done|].
      intros s. rewrite Hopen. split.
      * intros [Hs Hl]. split; [done|]. intros c' [->|Hc']%elem_of_cons; [congruence|auto].
      * intros [Hs Hl]. split; [done|]. intros c' Hc'. apply Hl. by right.
Qed.

(** C9, as the code has it: [disconnect] cancels the health-check timer;
    every connection keeps its place and its id and ends without a socket;
    one that held a socket has had it closed and is flagged disconnected, one
    that held none is unchanged; the pending reconnect timers are left as
    they were. *)
Theorem C9_disconnect now w :
  let w' := disconnect now w in
  healthCheckInterval (client w') = None
  ∧ (∀ h, healthCheckInterval (client w) = Some h → h ∉ intervals w')
  ∧ length (connections (client w')) = length (connections (client w))
  ∧ (∀ k c, connections (client w) !! k = Some c →
       ∃ c', connections (client w') !! k = Some c'
         ∧ id c' = id c ∧ ws c' = None
         ∧ (∀ s, ws c = Some s → isConnected c' = false ∧ s ∉ openSockets w')
         ∧ (ws c = None → c' = c))
  ∧ ((∀ c, c ∈ connections (client w) → isConnected c = true → is_Some (ws c)) →
     ∀ c', c' ∈ connections (client w') → isConnected c' = false)
  ∧ timers w' = timers w.
Proof.
  unfold disconnect.
  set (w1 := match healthCheckInterval (client w) with
             | Some handle => _ | None => w end).
  assert (connections (client w1) = connections (client w)) as Hc1
    by (unfold w1; by destruct (healthCheckInterval (client w))).
  assert (timers w1 = timers w) as Ht1
    by (unfold w1; by destruct (healthCheckInterval (client w))).
  assert (healthCheckInterval (client w1) = None) as Hh1
    by (unfold w1; by destruct (healthCheckInterval (client w)) eqn:E).
  assert (∀ h, healthCheckInterval (client w) = Some h → h ∉ intervals w1) as Hi1.
  { intros h Hh. unfold w1. rewrite Hh. simpl. rewrite list_elem_of_filter. by intros [? _]. }
  destruct (closeLoop_run (connections (client w1)) [] (openSockets w1))
    as (open' & Hrun & Hopen).
  rewrite Hrun. simpl. rewrite Hc1 in *.
  set (closed := λ c, match ws c with
                      | Some _ => set_isConnected false (set_ws None c)
                      | None => c
                      end).
  split; [exact Hh1|]. split; [exact Hi1|]. split; [by rewrite length_map|].
  split; [|split; [|exact Ht1]].
  - intros k c Hk. exists (closed c). split.
    + change (map ?f ?l) with (f <$> l). by rewrite list_lookup_fmap, Hk.
    + unfold closed. destruct (ws c) as [s|] eqn:Hws; simpl.
      * split; [done|]. split; [done|]. split; [|done].
        intros s' [= <-]. split; [done|].
        rewrite Hopen. intros [_ Hl]. eapply Hl; [|exact Hws].
        by eapply list_elem_of_lookup_2.
      * rewrite Hws. split; [done|]. split; [done|]. split; done.
  - intros Hinv c' Hc'. change (map ?f ?l) with (f <$> l) in Hc'.
    apply list_elem_of_fmap in Hc' as (c & -> & Hc).
    unfold closed. destruct (ws c) as [s|] eqn:Hws; [done|].
    destruct (isConnected c) eqn:Hconn; [|done].
    destruct (Hinv c Hc Hconn) as [s Hs]. congruence.
Qed.

(** ** Message dispatch *)

Lemma countMessage_run i now w c d :
  conn_get i (connections (client w)) = Some c →
  details_of i w = Some d →
  countMessage i now w
  = inl (upd_client (λ cl,
           upd_stats (λ s, set_lastUpdate now
                             (set_messagesReceived (S (totalMessagesReceived cl)) s))
             (set_totalMessagesReceived (S (totalMessagesReceived cl)) cl))
           (upd_details (set_messagesCount (S (messagesCount d))) i
              (upd_conn (set_lastHeartbeat now) i w))).
Proof.
  intros Hc Hd. unfold countMessage. rewrite Hc.
  change (details_of i (upd_conn ?f i w)) with (details_of i w). by rewrite Hd.
Qed.

Lemma counters_withUserFiles f w : counters (withUserFiles f w) = counters w.
Proof. unfold withUserFiles. by destruct (f _). Qed.

Lemma counters_processAllMidsMessage data now w :
  counters (processAllMidsMessage data now w) = counters w.
Proof. unfold processAllMidsMessage. by repeat case_match. Qed.

(** C10, as the code has it.  For a frame that parses, on a connection
    that is in the pool with its statistics entry: whatever the channel, the
    connection's heartbeat becomes [now] and its message count and the two
    total counts go up by one.  When the value is [null], or its channel is
    neither "webData2" nor "allMids", the rest of the state is as before but
    for the [lastUpdate] stamp of the statistics, which becomes [now].  A
    frame that does not parse changes nothing. *)
Theorem C10_handleMessage_frame i now w c d :
  conn_get i (connections (client w)) = Some c →
  details_of i w = Some d →
  (∀ frame, frame ≠ Malformed →
     let w' := handleMessage i frame now w in
     conn_get i (connections (client w')) = Some (set_lastHeartbeat now c)
     ∧ details_of i w' = Some (set_messagesCount (S (messagesCount d)) d)
     ∧ totalMessagesReceived (client w') = S (totalMessagesReceived (client w))
     ∧ messagesReceived (connectionStats (client w')) = S (totalMessagesReceived (client w)))
  ∧ (∀ frame,
       (frame = JsonNull
        ∨ ∃ channel data, frame = JsonValue channel data
            ∧ channel ≠ Some "webData2" ∧ channel ≠ Some "allMids") →
       let w' := handleMessage i frame now w in
       prices w' = prices w ∧ files w' = files w
       ∧ userData (client w') = userData (client w)
       ∧ lastAllMidsUpdate (client w') = lastAllMidsUpdate (client w)
       ∧ timers w' = timers w ∧ intervals w' = intervals w
       ∧ openSockets w' = openSockets w ∧ sent w' = sent w
       ∧ nextHandle w' = nextHandle w
       ∧ healthCheckInterval (client w') = healthCheckInterval (client w)
       ∧ userToConnectionMap (client w') = userToConnectionMap (client w)
       ∧ today (client w') = today (client w)
       ∧ clientMode (client w') = clientMode (client w)
       ∧ dataSaveMode (client w') = dataSaveMode (client w)
       ∧ connections (client w') = conn_alter (set_lastHeartbeat now) i (connections (client w))
       ∧ connectionStats (client w')
         = {| totalConnections := totalConnections (connectionStats (client w));
              activeConnections := activeConnections (connectionStats (client w));
              totalUsers := totalUsers (connectionStats (client w));
              messagesReceived := S (totalMessagesReceived (client w));
              lastUpdate := now;
              connectionDetails :=
                alter (set_messagesCount (S (messagesCount d))) i
                  (connectionDetails (connectionStats (client w))) |}
       ∧ totalMessagesReceived (client w') = S (totalMessagesReceived (client w)))
  ∧ handleMessage i Malformed now w = w.
Proof.
  intros Hc Hd. pose proof (countMessage_run i now w c d Hc Hd) as Hcount.
  set (w1 := upd_client _ _) in Hcount.
  assert (counters w1
          = (conn_alter (set_lastHeartbeat now) i (connections (client w)),
             alter (set_messagesCount (S (messagesCount d))) i
               (connectionDetails (connectionStats (client w))),
             S (totalMessagesReceived (client w)),
             S (totalMessagesReceived (client w)))) as Hw1 by reflexivity.
  split; [|split; [|reflexivity]].
  - intros frame Hframe w'.
    assert (counters w' = counters w1) as Hsame.
    { unfold w', handleMessage. destruct frame as [| |channel data]; [done| |];
        rewrite Hcount; [done|].
      repeat case_match; rewrite ?counters_withUserFiles, ?counters_processAllMidsMessage;
        done. }
    rewrite Hw1 in Hsame. unfold counters in Hsame.
    injection Hsame as Hconns Hdets Htotal Hrecv.
    rewrite Hconns, Htotal, Hrecv. unfold details_of. rewrite Hdets.
    rewrite conn_get_alter by auto with conn. rewrite decide_True by done.
    rewrite Hc, lookup_alter_eq. unfold details_of in Hd. rewrite Hd. done.
  - intros frame Hframe w'.
    assert (w' = w1) as ->.
    { unfold w', handleMessage.
      destruct Hframe as [->|(channel & data & -> & Hweb & Hmids)]; rewrite Hcount; [done|].
      by rewrite !bool_decide_eq_false_2 by done. }
    repeat split.
Qed.

(** ** A running client *)

(** It is the state after start-up on an empty store, [startHealthCheck],
    [connectSingle] and the ['open'] event. *)
Lemma sampleWorld_reached mode :
  start "20250110" ["0xabc"] mode historical true 0 ∅
    ≫= (λ w, onOpen "conn-1" 0 (connectSingle "conn-1" (startHealthCheck w)))
  = Some (sampleWorld mode).
Proof. destruct mode; vm_compute; reflexivity. Qed.

Lemma C7_reconnect_backoff_witness :
  (∃ w', handleReconnect "conn-1" (sampleWorld continuous) = Some w'
     ∧ timers w' = [(5000%Z, "conn-1")])
  ∧ (∃ w', repeatReconnect 6 "conn-1" (sampleWorld continuous) = Some w'
       ∧ timers w' = [(5000%Z, "conn-1"); (10000%Z, "conn-1"); (20000%Z, "conn-1");
                      (40000%Z, "conn-1"); (80000%Z, "conn-1")]
       ∧ reconnectAttempts <$> conn_get "conn-1" (connections (client w')) = Some 5)
  ∧ (∃ w', onClose "conn-1" 9
             (upd_conn (set_reconnectAttempts 5) "conn-1" (sampleWorld continuous)) = Some w'
       ∧ timers w' = []
       ∧ isConnected <$> conn_get "conn-1" (connections (client w')) = Some false)
  ∧ (∃ w', onOpen "conn-1" 9
             (upd_conn (set_reconnectAttempts 3) "conn-1" (sampleWorld continuous)) = Some w'
       ∧ reconnectAttempts <$> conn_get "conn-1" (connections (client w')) = Some 0).
Proof.
  destruct C7_reconnect_backoff as (_ & Hstep & Hrun & Hclose & Hopen).
  split; [|split; [|split]].
  - destruct (Hstep "conn-1" (sampleWorld continuous) sampleConnection
                {| users := ["0xabc"]; status := connected; messagesCount := 0 |})
      as [Hbelow _]; [reflexivity|reflexivity|].
    destruct Hbelow as (w' & Hw' & Ht & _); [vm_compute; lia|].
    exists w'. split; [exact Hw'|]. rewrite Ht. reflexivity.
  - destruct (Hrun 6 "conn-1" (sampleWorld continuous) sampleConnection
                {| users := ["0xabc"]; status := connected; messagesCount := 0 |})
      as (w' & Hw' & Ht & Hg); [reflexivity|reflexivity|reflexivity|].
    exists w'. split; [exact Hw'|]. rewrite Ht, Hg. split; reflexivity.
  - destruct (Hclose "conn-1" 9%Z
                (upd_conn (set_reconnectAttempts 5) "conn-1" (sampleWorld continuous))
                (set_reconnectAttempts 5 sampleConnection)
                {| users := ["0xabc"]; status := connected; messagesCount := 0 |})
      as (w' & Hw' & Ht & Hg & _); [reflexivity|reflexivity|reflexivity|vm_compute; lia|].
    exists w'. split; [exact Hw'|]. rewrite Ht, Hg. split; reflexivity.
  - destruct (Hopen "conn-1" 9%Z
                (upd_conn (set_reconnectAttempts 3) "conn-1" (sampleWorld continuous))
                (set_reconnectAttempts 3 sampleConnection)
                {| users := ["0xabc"]; status := connected; messagesCount := 0 |})
      as (w' & c' & Hw' & Hg & Ha & _); [reflexivity|reflexivity|].
    exists w'. split; [exact Hw'|]. rewrite Hg. simpl. by rewrite Ha.
Defined.

Lemma sampleWorld_wf mode :
  NoDup (map id (connections (client (sampleWorld mode))))
  ∧ ∀ c, c ∈ connections (client (sampleWorld mode)) →
         is_Some (details_of (id c) (sampleWorld mode)).
Proof.
  split.
  - simpl. apply NoDup_singleton.
  - intros c Hc. simpl in Hc. apply list_elem_of_singleton in Hc as ->. by eexists.
Qed.

Lemma C8_health_check_witness :
  ∃ w', performHealthCheck 60001 (sampleWorld continuous) = Some w'
    ∧ isConnected <$> conn_get "conn-1" (connections (client w')) = Some false
    ∧ timers w' = [(5000%Z, "conn-1")].
Proof.
  destruct (C8_health_check 60001 (sampleWorld continuous)) as (w' & Hrun & _);
    [apply sampleWorld_wf..|].
  exists w'. split; [exact Hrun|].
  vm_compute in Hrun. injection Hrun as <-. split; reflexivity.
Defined.

(** C8 as stated fails in oneOff mode: the connection is flagged connected
    and has been silent for more than twice the interval, and after the pass
    it is still flagged connected. *)
Lemma C8_oneOff_counterexample :
  isConnected sampleConnection = true
  ∧ (HEALTH_CHECK_INTERVAL * 2 < 60001 - lastHeartbeat sampleConnection)%Z
  ∧ ∃ w', performHealthCheck 60001 (sampleWorld oneOff) = Some w'
      ∧ isConnected <$> conn_get "conn-1" (connections (client w')) = Some true.
Proof.
  split; [reflexivity|]. split; [vm_compute; reflexivity|].
  eexists. split; [vm_compute; reflexivity|]. reflexivity.
Qed.

Lemma C9_disconnect_witness :
  let w' := disconnect 5 (sampleWorld continuous) in
  healthCheckInterval (client w') = None
  ∧ intervals w' = [] ∧ openSockets w' = []
  ∧ (∀ c', c' ∈ connections (client w') → isConnected c' = false).
Proof.
  destruct (C9_disconnect 5 (sampleWorld continuous)) as (Hh & _ & _ & _ & Hall & _).
  split; [exact Hh|]. split; [reflexivity|]. split; [reflexivity|].
  apply Hall. intros c Hc _. simpl in Hc. apply list_elem_of_singleton in Hc as ->.
  by eexists.
Defined.

(** C9 as stated fails: a reconnect scheduled by the health check is still
    pending after [disconnect], and when it fires the connection gets a new
    socket, which is open.  And with nothing pending at all, the ['close']
    event of a socket that [disconnect] closed schedules a reconnect in
    continuous mode. *)
Lemma C9_pending_reconnect_counterexample :
  (∃ w1, performHealthCheck 60001 (sampleWorld continuous) = Some w1
     ∧ timers w1 = [(5000%Z, "conn-1")]
     ∧ let w2 := disconnect 60002 w1 in
       timers w2 = [(5000%Z, "conn-1")]
       ∧ openSockets w2 = []
       ∧ let w3 := fireTimer 0 w2 in
         ws <$> conn_get "conn-1" (connections (client w3)) = Some (Some 2)
         ∧ openSockets w3 = [2])
  ∧ (timers (disconnect 5 (sampleWorld continuous)) = []
     ∧ ∃ w', onClose "conn-1" 6 (disconnect 5 (sampleWorld continuous)) = Some w'
         ∧ timers w' = [(5000%Z, "conn-1")]).
Proof.
  split.
  - eexists. split; [vm_compute; reflexivity|]. repeat split.
  - split; [reflexivity|]. eexists. split; [vm_compute; reflexivity|]. reflexivity.
Qed.

Lemma C10_handleMessage_frame_witness :
  let w' := handleMessage "conn-1" (JsonValue (Some "pong") None) 7 (sampleWorld continuous) in
  lastHeartbeat <$> conn_get "conn-1" (connections (client w')) = Some 7%Z
  ∧ messagesCount <$> details_of "conn-1" w' = Some 1
  ∧ totalMessagesReceived (client w') = 1
  ∧ prices w' = prices (sampleWorld continuous)
  ∧ userData (client w') = userData (client (sampleWorld continuous))
  ∧ handleMessage "conn-1" Malformed 7 (sampleWorld continuous) = sampleWorld continuous.
Proof.
  destruct (C10_handleMessage_frame "conn-1" 7 (sampleWorld continuous) sampleConnection
              {| users := ["0xabc"]; status := connected; messagesCount := 0 |})
    as (Hcount & Hframe & Hbad); [reflexivity|reflexivity|].
  destruct (Hcount (JsonValue (Some "pong") None)) as (Hg & Hd & Ht & _); [done|].
  destruct (Hframe (JsonValue (Some "pong") None)) as (Hp & _ & Hu & _).
  { right. by eexists _, _. }
  intros w'. unfold w'. rewrite Hg, Hd, Ht, Hp, Hu, Hbad. repeat split.
Defined.

(** C10 as stated fails: a parsed message of another channel also moves the
    [lastUpdate] stamp of the statistics. *)
Lemma C10_lastUpdate_counterexample :
  let w := sampleWorld continuous in
  let w' := handleMessage "conn-1" (JsonValue (Some "pong") None) 7 w in
  lastUpdate (connectionStats (client w)) = 0%Z
  ∧ lastUpdate (connectionStats (client w')) = 7%Z.
Proof. split; reflexivity. Qed.

(** ** Order on numbers *)

Lemma le_refl a : a ≠ JS.NaN → JS.le a a = true.
Proof. destruct a as [|x]; [done|]. intros _. simpl. apply Qle_bool_iff, Qle_refl. Qed.

Lemma lt_le a b : JS.lt a b = true → JS.le a b = true.
Proof.
  destruct a as [|x], b as [|y]; simpl; try done.
  rewrite negb_true_iff. intros H. apply Qle_bool_iff.
  destruct (Qlt_le_dec x y) as [Hlt|Hle]; [by apply Qlt_le_weak|].
  apply Qle_bool_iff in Hle. congruence.
Qed.

Lemma not_lt_le a b : a ≠ JS.NaN → b ≠ JS.NaN → JS.lt a b = false → JS.le b a = true.
Proof.
  destruct a as [|x], b as [|y]; simpl; try done.
  intros _ _. by rewrite negb_false_iff.
Qed.

Lemma le_trans a b c : JS.le a b = true → JS.le b c = true → JS.le a c = true.
Proof.
  destruct a as [|x], b as [|y], c as [|z]; simpl; try done.
  rewrite !Qle_bool_iff. apply Qle_trans.
Qed.

(** ** The persistence invariant *)

Lemma omap_entries (h : list Entry.t) :
  omap (λ i, match i with ItemEntry e => Some e | _ => None end) (ItemEntry <$> h) = h.
Proof. induction h as [|e h IH]; [done|]. cbn. by f_equal. Qed.

Lemma persistedHistory_FileOk cfg fs u h :
  default (DocArray []) (fs !! historicalDataPath (cfg_today cfg) u)
  = DocArray (ItemEntry <$> h) →
  persistedHistory cfg fs u = h.
Proof.
  unfold persistedHistory. destruct (fs !! _) as [doc|]; simpl.
  - intros ->. apply omap_entries.
  - intros [= Hh]. symmetry in Hh. by apply fmap_nil_inv in Hh.
Qed.

Lemma accountFiles_distinct today l :
  NoDup (flat_map (λ u, [historicalDataPath today u; historicalLowestPath today u]) l) →
  ∀ u v, u ∈ l → v ∈ l →
    historicalDataPath today u ≠ historicalLowestPath today v
    ∧ (u ≠ v → historicalDataPath today u ≠ historicalDataPath today v
               ∧ historicalLowestPath today u ≠ historicalLowestPath today v).
Proof.
  induction l as [|x l IH]; intros Hnd u v Hu Hv; [by apply elem_of_nil in Hu|].
  simpl in Hnd. apply NoDup_cons in Hnd as [Hx1 Hnd]. apply NoDup_cons in Hnd as [Hx2 Hnd].
  assert (∀ w, w ∈ l →
            historicalDataPath today w
              ∈ flat_map (λ u, [historicalDataPath today u; historicalLowestPath today u]) l
            ∧ historicalLowestPath today w
              ∈ flat_map (λ u, [historicalDataPath today u; historicalLowestPath today u]) l)
    as Hin.
  { intros w Hw. split; apply list_elem_of_In, in_flat_map; exists w;
      (split; [by apply list_elem_of_In|]); simpl; auto. }
  apply not_elem_of_cons in Hx1 as [Hx1 Hx1'].
  apply elem_of_cons in Hu as [->|Hu]; apply elem_of_cons in Hv as [->|Hv].
  - split; [done|]. by intros [].
  - split; [intros E; apply Hx1'; rewrite E; by apply Hin|].
    intros _. split; intros E; [apply Hx1'|apply Hx2]; rewrite E; by apply Hin.
  - split; [intros E; apply Hx2; rewrite <- E; by apply Hin|].
    intros _. split; intros E; [apply Hx1'|apply Hx2]; rewrite <- E; by apply Hin.
  - by apply IH.
Qed.

Lemma findOriginalUserAddress_elem ud ua orig :
  findOriginalUserAddress ud ua = Some orig → orig ∈ userKeys ud.
Proof.
  unfold findOriginalUserAddress. intros H. apply find_some in H as [H _].
  by apply list_elem_of_In.
Qed.

Lemma path_truthy today u :
  JS.or_null (Some (historicalDataPath today u)) = Some (historicalDataPath today u)
  ∧ JS.or_null (Some (historicalLowestPath today u)) = Some (historicalLowestPath today u).
Proof. split; reflexivity. Qed.

Lemma unchanged_account cfg ud fs ud' fs' u :
  Sync cfg ud fs u → FileOk cfg fs u →
  userExistingHistoricalData ud' !! u = userExistingHistoricalData ud !! u →
  userLowestTotalAccountValues ud' !! u = userLowestTotalAccountValues ud !! u →
  fs' !! historicalDataPath (cfg_today cfg) u = fs !! historicalDataPath (cfg_today cfg) u →
  fs' !! historicalLowestPath (cfg_today cfg) u
  = fs !! historicalLowestPath (cfg_today cfg) u →
  Sync cfg ud' fs' u ∧ FileOk cfg fs' u
  ∧ persistedHistory cfg fs u `prefix_of` persistedHistory cfg fs' u.
Proof.
  intros [Hs1 Hs2] Hf Eh El Ehp Elp. unfold Sync, FileOk, persistedHistory.
  rewrite Eh, El, Ehp, Elp. done.
Qed.

(** Appending a snapshot to the history of an account and replacing the
    lowest-value record when the snapshot is below it keeps the files of the
    account as [FileOk] wants them. *)
Lemma appended_lowest_ok (h : list Entry.t) (lowest : option Entry.t) (e : Entry.t) :
  match lowest with
  | None => h = []
  | Some e0 =>
      e0 ∈ h
      ∧ (noNaN h →
         ∀ e', e' ∈ h →
           JS.le (Entry.totalAccountValue e0) (Entry.totalAccountValue e') = true)
  end →
  let e1 :=
    if isNewLowest (Entry.totalAccountValue e)
         (Some (Entry.totalAccountValue <$> lowest))
    then e else default e lowest in
  e1 ∈ h ++ [e]
  ∧ (noNaN (h ++ [e]) →
     ∀ e', e' ∈ h ++ [e] →
       JS.le (Entry.totalAccountValue e1) (Entry.totalAccountValue e') = true).
Proof.
  intros Hlow. destruct lowest as [e0|]; simpl.
  - destruct Hlow as [Hin Hmin].
    destruct (JS.lt (Entry.totalAccountValue e) (Entry.totalAccountValue e0)) eqn:Hlt.
    + split; [apply elem_of_app; right; by left|].
      intros Hnn e' [He'|He']%elem_of_app;
        [|apply list_elem_of_singleton in He' as ->].
      * eapply le_trans; [by apply lt_le|]. apply Hmin; [|done].
        intros x Hx. apply Hnn, elem_of_app. by left.
      * apply le_refl, Hnn, elem_of_app. right. by left.
    + split; [apply elem_of_app; by left|].
      intros Hnn e' [He'|He']%elem_of_app;
        [|apply list_elem_of_singleton in He' as ->].
      * apply Hmin; [|done]. intros x Hx. apply Hnn, elem_of_app. by left.
      * apply not_lt_le; [| |done]; apply Hnn, elem_of_app; [right; by left|by left].
  - subst h. simpl. split; [by left|].
    intros Hnn e' He'. apply list_elem_of_singleton in He' as ->.
    apply le_refl, Hnn. by left.
Qed.

Global Arguments historicalDataPath : simpl never.
Global Arguments historicalLowestPath : simpl never.

Ltac proj_ud :=
  cbn [userExistingHistoricalData userLowestTotalAccountValues
       set_userExistingHistoricalData set_userLowestTotalAccountValues].

Lemma saveHistoricalData_Inv cfg p d ua ud fs :
  NoDup (accountFiles cfg) → Inv cfg ud fs →
  Inv cfg (saveHistoricalData p d ua (ud, fs)).1 (saveHistoricalData p d ua (ud, fs)).2
  ∧ ∀ u, u ∈ cfg_accounts cfg →
      persistedHistory cfg fs u
        `prefix_of` persistedHistory cfg (saveHistoricalData p d ua (ud, fs)).2 u.
Proof.
  intros Hnd [Hstruct Hacc].
  assert (Inv cfg ud fs
          ∧ ∀ u, u ∈ cfg_accounts cfg →
              persistedHistory cfg fs u `prefix_of` persistedHistory cfg fs u) as Hsame
    by (split; [by split|done]).
  unfold saveHistoricalData.
  destruct (findOriginalUserAddress ud ua) as [orig|] eqn:Hfind; [|exact Hsame].
  destruct (createHistoricalDataEntry p d) as [e|]; [|exact Hsame].
  clear Hsame. destruct Hstruct as (Hkeys & Hnoraw & Hpaths).
  assert (orig ∈ cfg_accounts cfg) as Horig.
  { rewrite <- Hkeys. by eapply findOriginalUserAddress_elem. }
  destruct (Hacc orig Horig) as [[Hmem Hlow] (h & Hh & Hfile)].
  destruct (Hpaths orig Horig) as [Hhp Hlp].
  pose proof (accountFiles_distinct (cfg_today cfg) (cfg_accounts cfg) Hnd) as Hdist.
  pose proof (persistedHistory_FileOk cfg fs orig h Hh) as Hhist.
  pose (hp := historicalDataPath (cfg_today cfg)).
  pose (lp := historicalLowestPath (cfg_today cfg)).
  fold hp lp in Hmem, Hlow, Hh, Hfile, Hhp, Hlp, Hdist.
  rewrite Hmem, Hh. cbn [default from_option Datatypes.id push]. rewrite Hhp, Hlp.
  change (JS.or_null (Some (hp orig))) with (Some (hp orig)).
  change (JS.or_null (Some (lp orig))) with (Some (lp orig)).
  cbn [userLowestTotalAccountValues set_userExistingHistoricalData].
  rewrite Hlow.
  set (lowest := persistedLowest cfg fs orig).
  assert (fs !! lp orig ≫= docTotalAccountValue = Entry.totalAccountValue <$> lowest
          ∧ match lowest with
            | None => h = []
            | Some e0 =>
                e0 ∈ h
                ∧ (noNaN h →
                   ∀ e', e' ∈ h →
                     JS.le (Entry.totalAccountValue e0) (Entry.totalAccountValue e') = true)
            end
          ∧ (isNewLowest (Entry.totalAccountValue e)
               (Some (Entry.totalAccountValue <$> lowest)) = false →
             fs !! lp orig
             = Some (DocObject (ItemEntry (default e lowest))))) as (Hval & Hlowest & Hkeep).
  { unfold lowest, persistedLowest. fold lp. clearbody hp lp.
    destruct (fs !! lp orig) as [[l|[e0| |]]|]; simpl in *; try done. }
  rewrite Hval.
  pose proof (appended_lowest_ok h lowest e Hlowest) as [Hin Hmin].
  set (pushed := DocArray ((ItemEntry <$> h) ++ [ItemEntry e])).
  assert (pushed = DocArray (ItemEntry <$> (h ++ [e]))) as Hpushed
    by (unfold pushed; by rewrite fmap_app).
  assert (hp orig ≠ lp orig) as Hne by (by apply Hdist).
  assert (lp orig ≠ hp orig) as Hne2 by (by apply not_eq_sym).
  assert (∀ u, u ∈ cfg_accounts cfg → u ≠ orig →
            hp u ≠ hp orig ∧ hp u ≠ lp orig ∧ lp u ≠ hp orig ∧ lp u ≠ lp orig) as Hother.
  { intros u Hu Hne'. destruct (Hdist u orig Hu Horig) as [H1 H2].
    destruct (Hdist orig u Horig Hu) as [H3 _]. destruct (H2 Hne') as [H4 H5].
    repeat split; try done. }
  assert (∀ u, historicalDataPath (cfg_today cfg) u = hp u) as Ehp by done.
  assert (∀ u, historicalLowestPath (cfg_today cfg) u = lp u) as Elp by done.
  destruct (isNewLowest (Entry.totalAccountValue e)
              (Some (Entry.totalAccountValue <$> lowest))) eqn:Hnew; cbn [fst snd];
    clearbody hp lp.
  - split; [split|].
    + split; [exact Hkeys|]. split; [exact Hnoraw|]. exact Hpaths.
    + intros u Hu. destruct (decide (u = orig)) as [->|Hne'].
      * split; [split|].
        -- proj_ud. rewrite ?Ehp, ?Elp. rewrite lookup_insert_eq.
           rewrite lookup_insert_ne by done. by rewrite lookup_insert_eq.
        -- proj_ud. rewrite ?Ehp, ?Elp. by rewrite !lookup_insert_eq.
        -- exists (h ++ [e]). rewrite ?Ehp, ?Elp.
           rewrite lookup_insert_ne by done. rewrite !lookup_insert_eq.
           split; [done|]. split; [apply elem_of_app; right; by left|]. exact Hmin.
      * destruct (Hother u Hu Hne') as (H1 & H2 & H3 & H4).
        destruct (Hacc u Hu) as [Hs Hf].
        destruct (unchanged_account cfg ud fs
                    (set_userLowestTotalAccountValues
                       (<[orig:=Some (Entry.totalAccountValue e)]>
                          (userLowestTotalAccountValues ud))
                       (set_userExistingHistoricalData
                          (<[orig:=pushed]> (userExistingHistoricalData ud)) ud))
                    (<[lp orig:=DocObject (ItemEntry e)]> (<[hp orig:=pushed]> fs)) u Hs Hf)
          as (? & ? & _); [| | | |done].
        -- proj_ud. by rewrite lookup_insert_ne by (by apply not_eq_sym).
        -- proj_ud. by rewrite lookup_insert_ne by (by apply not_eq_sym).
        -- rewrite ?Ehp. by rewrite !lookup_insert_ne by (by apply not_eq_sym).
        -- rewrite ?Elp. by rewrite !lookup_insert_ne by (by apply not_eq_sym).
    + intros u Hu. destruct (decide (u = orig)) as [->|Hne'].
      * rewrite Hhist. unfold persistedHistory. rewrite ?Ehp.
        rewrite lookup_insert_ne by done. rewrite lookup_insert_eq.
        rewrite Hpushed, omap_entries. by apply prefix_app_r.
      * unfold persistedHistory. rewrite ?Ehp. destruct (Hother u Hu Hne') as (H1 & H2 & H3 & H4).
        by rewrite !lookup_insert_ne by (by apply not_eq_sym).
  - specialize (Hkeep eq_refl). split; [split|].
    + split; [exact Hkeys|]. split; [exact Hnoraw|]. exact Hpaths.
    + intros u Hu. destruct (decide (u = orig)) as [->|Hne'].
      * split; [split|].
        -- proj_ud. rewrite ?Ehp, ?Elp. by rewrite !lookup_insert_eq.
        -- proj_ud. rewrite ?Ehp, ?Elp. rewrite lookup_insert_ne by done. exact Hlow.
        -- exists (h ++ [e]). rewrite ?Ehp, ?Elp.
           rewrite lookup_insert_eq. rewrite lookup_insert_ne by done.
           split; [done|]. rewrite Hkeep. by split.
      * destruct (Hother u Hu Hne') as (H1 & H2 & H3 & H4).
        destruct (Hacc u Hu) as [Hs Hf].
        destruct (unchanged_account cfg ud fs
                    (set_userExistingHistoricalData
                       (<[orig:=pushed]> (userExistingHistoricalData ud)) ud)
                    (<[hp orig:=pushed]> fs) u Hs Hf)
          as (? & ? & _); [| | | |done].
        -- proj_ud. by rewrite lookup_insert_ne by (by apply not_eq_sym).
        -- done.
        -- rewrite ?Ehp. by rewrite !lookup_insert_ne by (by apply not_eq_sym).
        -- rewrite ?Elp. by rewrite !lookup_insert_ne by (by apply not_eq_sym).
    + intros u Hu. destruct (decide (u = orig)) as [->|Hne'].
      * rewrite Hhist. unfold persistedHistory. rewrite ?Ehp.
        rewrite lookup_insert_eq.
        rewrite Hpushed, omap_entries. by apply prefix_app_r.
      * unfold persistedHistory. rewrite ?Ehp. destruct (Hother u Hu Hne') as (H1 & H2 & H3 & H4).
        by rewrite !lookup_insert_ne by (by apply not_eq_sym).
Qed.

Lemma Inv_histPart cfg ud ud' fs :
  histPart ud' = histPart ud → Inv cfg ud fs → Inv cfg ud' fs.
Proof.
  unfold histPart. intros [= E1 E2 E3 E4 E5 E6].
  unfold Inv, Struct, Sync. by rewrite E1, E2, E3, E4, E5, E6.
Qed.

Lemma saveLowestValueEvent_none event ud fs :
  userLowestValueFiles ud = ∅ → saveLowestValueEvent event (ud, fs) = (ud, fs).
Proof.
  intros H. unfold saveLowestValueEvent. rewrite H.
  destruct (JS.or_null (Event.user event)); [|done]. by rewrite lookup_empty.
Qed.

Lemma processWebData2Message_histPart d now ud fs :
  userLowestValueFiles ud = ∅ →
  histPart (processWebData2Message d now (ud, fs)).1 = histPart ud
  ∧ (processWebData2Message d now (ud, fs)).2 = fs.
Proof.
  intros H. unfold processWebData2Message.
  destruct (clearinghouseState d ≫= marginSummary) as [summary|]; [|done].
  destruct (isNewLowest _ _).
  - rewrite saveLowestValueEvent_none by exact H. by destruct (isNewHighest _ _).
  - by destruct (isNewHighest _ _).
Qed.

(** In historical mode a [webData2] message reaches the files through
    [saveHistoricalData] only. *)
Lemma saveData_Inv cfg p data ud fs :
  NoDup (accountFiles cfg) → Inv cfg ud fs →
  Inv cfg (saveData p historical data (ud, fs)).1 (saveData p historical data (ud, fs)).2
  ∧ ∀ u, u ∈ cfg_accounts cfg →
      persistedHistory cfg fs u
        `prefix_of` persistedHistory cfg (saveData p historical data (ud, fs)).2 u.
Proof.
  intros Hnd Hinv. unfold saveData.
  destruct data as [d|]; [|done].
  destruct (JS.or_null (user d)) as [ua|]; [|done].
  rewrite bool_decide_eq_true_2 by done. by apply saveHistoricalData_Inv.
Qed.

Lemma countMessage_persist i now w :
  match countMessage i now w with inl w1 | inr w1 => persist w1 = persist w end.
Proof. unfold countMessage. cbv zeta. repeat case_match; simplify_eq; reflexivity. Qed.

Lemma processAllMidsMessage_persist data now w :
  persist (processAllMidsMessage data now w) = persist w.
Proof. unfold processAllMidsMessage. by repeat case_match. Qed.

Lemma withUserFiles_proj f w :
  dataSaveMode (client (withUserFiles f w)) = dataSaveMode (client w)
  ∧ userData (client (withUserFiles f w)) = (f (userData (client w), files w)).1
  ∧ files (withUserFiles f w) = (f (userData (client w), files w)).2.
Proof. unfold withUserFiles. by destruct (f _). Qed.

Lemma handleMessage_Inv cfg i frame now w :
  NoDup (accountFiles cfg) → WorldInv cfg w →
  WorldInv cfg (handleMessage i frame now w)
  ∧ ∀ u, u ∈ cfg_accounts cfg →
      persistedHistory cfg (files w) u
        `prefix_of` persistedHistory cfg (files (handleMessage i frame now w)) u.
Proof.
  intros Hnd [Hmode Hinv].
  assert (∀ w', persist w' = persist w →
            WorldInv cfg w'
            ∧ ∀ u, u ∈ cfg_accounts cfg →
                persistedHistory cfg (files w) u `prefix_of` persistedHistory cfg (files w') u)
    as Hsame.
  { intros w'. unfold persist, WorldInv. intros [= -> -> ->]. done. }
  unfold handleMessage. pose proof (countMessage_persist i now w) as Hcount.
  destruct frame as [| |channel data]; [by apply Hsame| |];
    destruct (countMessage i now w) as [w1|w1]; try (by apply Hsame).
  unfold persist in Hcount. injection Hcount as Hm1 Hu1 Hf1.
  case_bool_decide.
  - set (w2 := withUserFiles _ w1).
    destruct (saveData_Inv cfg (prices w1) data (userData (client w)) (files w) Hnd Hinv)
      as [Hinv2 Hpre2].
    destruct (withUserFiles_proj
                (saveData (prices w1) (dataSaveMode (client w1)) data) w1)
      as (Hm2 & Hu2 & Hf2).
    fold w2 in Hm2, Hu2, Hf2. rewrite Hm1, Hmode in Hm2.
    rewrite Hm1, Hmode, Hu1, Hf1 in Hu2, Hf2.
    destruct data as [d|].
    + destruct Hinv2 as [Hstruct2 Hacc2].
      destruct (processWebData2Message_histPart d now (userData (client w2)) (files w2))
        as [Hhp Hfs]; [rewrite Hu2; apply Hstruct2|].
      destruct (withUserFiles_proj (processWebData2Message d now) w2) as (Hm3 & Hu3 & Hf3).
      split; [split|].
      * by rewrite Hm3.
      * rewrite Hu3, Hf3, Hfs. eapply Inv_histPart; [exact Hhp|].
        rewrite Hu2, Hf2. by split.
      * intros u Hu. rewrite Hf3, Hfs, Hf2. by apply Hpre2.
    + split; [split; [done|by rewrite Hu2, Hf2]|].
      intros u Hu. rewrite Hf2. by apply Hpre2.
  - case_bool_decide.
    + apply Hsame. rewrite processAllMidsMessage_persist. unfold persist. congruence.
    + apply Hsame. unfold persist. congruence.
Qed.

(** ** Start-up *)

Lemma initializeUserData_run today l : ∀ keys ud,
  NoDup (keys ++ l) → Initialized today keys ud →
  Initialized today (keys ++ l) (fold_left (initializeUser today historical) l ud).
Proof.
  induction l as [|x l IH]; intros keys ud Hnd Hinit.
  - simpl. by rewrite app_nil_r.
  - cbn [fold_left]. rewrite (cons_middle x keys l), app_assoc.
    apply IH; [by rewrite <- app_assoc|].
    destruct Hinit as (Hkeys & Hraw & Hmaps).
    assert (x ∉ keys) as Hx.
    { apply NoDup_app in Hnd as (_ & Hnd & _). intros Hin. apply (Hnd x Hin). by left. }
    unfold initializeUser. rewrite bool_decide_eq_true_2 by done.
    split; [|split].
    + cbn [userKeys]. unfold addKey. rewrite Hkeys.
      by rewrite bool_decide_eq_false_2 by done.
    + exact Hraw.
    + intros u Hu. cbn [userHistoricalDataFiles userHistoricalLowestFiles
        userExistingHistoricalData userLowestTotalAccountValues].
      destruct (decide (u = x)) as [->|Hne].
      * by rewrite !lookup_insert_eq.
      * rewrite !lookup_insert_ne by (by apply not_eq_sym).
        apply Hmaps. apply elem_of_app in Hu as [Hu|Hu]; [done|].
        apply list_elem_of_singleton in Hu. congruence.
Qed.

Lemma loadUser_run cfg fs ud u :
  userHistoricalDataFiles ud !! u = Some (historicalDataPath (cfg_today cfg) u) →
  userHistoricalLowestFiles ud !! u = Some (historicalLowestPath (cfg_today cfg) u) →
  userExistingHistoricalData ud !! u = Some (DocArray []) →
  userLowestTotalAccountValues ud !! u = Some None →
  let ud' := loadUser historical fs ud u in
  Sync cfg ud' fs u
  ∧ userKeys ud' = userKeys ud
  ∧ userLowestValueFiles ud' = userLowestValueFiles ud
  ∧ userHistoricalDataFiles ud' = userHistoricalDataFiles ud
  ∧ userHistoricalLowestFiles ud' = userHistoricalLowestFiles ud
  ∧ (∀ v, v ≠ u →
       userExistingHistoricalData ud' !! v = userExistingHistoricalData ud !! v
       ∧ userLowestTotalAccountValues ud' !! v = userLowestTotalAccountValues ud !! v).
Proof.
  intros Hhp Hlp Hmem Hlow. unfold loadUser, Sync.
  rewrite bool_decide_eq_true_2 by done. rewrite Hhp, Hlp. cbn [mbind option_bind].
  destruct (fs !! historicalDataPath (cfg_today cfg) u) as [doc|];
    destruct (fs !! historicalLowestPath (cfg_today cfg) u ≫= docTotalAccountValue)
      as [value|] eqn:Hvalue; cbn [mbind option_bind] in *; rewrite ?Hvalue;
    proj_ud; rewrite ?lookup_insert_eq; (split; [by split|]); repeat split;
    by rewrite ?lookup_insert_ne by (by apply not_eq_sym).
Qed.

Lemma loadLoop_run cfg fs l : ∀ ud,
  NoDup l →
  (∀ u, u ∈ l →
     userHistoricalDataFiles ud !! u = Some (historicalDataPath (cfg_today cfg) u)
     ∧ userHistoricalLowestFiles ud !! u = Some (historicalLowestPath (cfg_today cfg) u)
     ∧ userExistingHistoricalData ud !! u = Some (DocArray [])
     ∧ userLowestTotalAccountValues ud !! u = Some None) →
  let ud' := fold_left (loadUser historical fs) l ud in
  (∀ u, u ∈ l → Sync cfg ud' fs u)
  ∧ userKeys ud' = userKeys ud
  ∧ userLowestValueFiles ud' = userLowestValueFiles ud
  ∧ userHistoricalDataFiles ud' = userHistoricalDataFiles ud
  ∧ userHistoricalLowestFiles ud' = userHistoricalLowestFiles ud
  ∧ (∀ v, v ∉ l →
       userExistingHistoricalData ud' !! v = userExistingHistoricalData ud !! v
       ∧ userLowestTotalAccountValues ud' !! v = userLowestTotalAccountValues ud !! v).
Proof.
  induction l as [|x l IH]; intros ud Hnd Hinit.
  - simpl. split; [intros u Hu; by apply elem_of_nil in Hu|]. repeat split.
  - apply NoDup_cons in Hnd as [Hx Hnd].
    destruct (Hinit x) as (H1 & H2 & H3 & H4); [by left|].
    destruct (loadUser_run cfg fs ud x H1 H2 H3 H4) as (Hsync & Ek & Er & Ehp & Elp & Eother).
    cbn [fold_left]. set (ud1 := loadUser historical fs ud x) in *.
    destruct (IH ud1 Hnd) as (Hsyncs & Ek' & Er' & Ehp' & Elp' & Eother').
    { intros u Hu. destruct (Hinit u) as (G1 & G2 & G3 & G4); [by right|].
      assert (u ≠ x) as Hne by (by intros ->).
      destruct (Eother u Hne) as [E1 E2]. by rewrite Ehp, Elp, E1, E2. }
    split; [|split; [congruence|split; [congruence|split; [congruence|split; [congruence|]]]]].
    + intros u [->|Hu]%elem_of_cons; [|by apply Hsyncs].
      destruct (Eother' x Hx) as [E1 E2]. unfold Sync in *. by rewrite E1, E2.
    + intros v Hv. apply not_elem_of_cons in Hv as [Hne Hv].
      destruct (Eother' v Hv) as [E1 E2]. destruct (Eother v Hne) as [E3 E4].
      split; congruence.
Qed.

Lemma userData_addConnections now l : ∀ c,
  userData (fold_left (addConnection now) l c) = userData c
  ∧ dataSaveMode (fold_left (addConnection now) l c) = dataSaveMode c.
Proof.
  induction l as [|[index userGroup] l IH]; intros c; [done|].
  cbn [fold_left]. destruct (IH (addConnection now c (index, userGroup))) as [-> ->]. done.
Qed.

(** A start in historical mode succeeds, leaves the files alone, and brings
    the per-user maps in line with them. *)
Lemma start_Inv cfg meta now fs :
  NoDup (cfg_accounts cfg) →
  (∀ u, u ∈ cfg_accounts cfg → FileOk cfg fs u) →
  ∃ w, start (cfg_today cfg) (cfg_accounts cfg) (cfg_mode cfg) historical meta now fs = Some w
     ∧ files w = fs ∧ WorldInv cfg w.
Proof.
  intros Hnd Hfiles. unfold start, newClient.
  set (c0 := {| connections := []; userToConnectionMap := ∅; today := cfg_today cfg;
                clientMode := cfg_mode cfg; dataSaveMode := historical;
                healthCheckInterval := None; connectionStats := _; userData := _;
                lastAllMidsUpdate := 0; totalMessagesReceived := 0 |}).
  destruct (groupLoop_run MAX_USERS_PER_CONNECTION (cfg_accounts cfg)
              ltac:(unfold MAX_USERS_PER_CONNECTION; lia) (length (cfg_accounts cfg)) 0 [])
    as (m & Hrun & _); [lia|].
  unfold setupConnectionGroups. rewrite Hrun. cbn [mbind option_bind].
  eexists. split; [reflexivity|]. split; [reflexivity|].
  set (groups := imap pair _).
  destruct (userData_addConnections now groups c0) as [Hud Hmode].
  split; [exact Hmode|].
  cbn [client userData upd_userData set_userData upd_stats set_connectionStats files].
  rewrite Hud. cbn [userData c0].
  pose proof (initializeUserData_run (cfg_today cfg) (cfg_accounts cfg) [] emptyUserData)
    as Hinit.
  destruct Hinit as (Hkeys & Hraw & Hmaps); [done|by split; [|split; [|intros u []%elem_of_nil]]|].
  unfold initializeUserData, loadExistingData. simpl app in *.
  set (ud0 := fold_left (initializeUser (cfg_today cfg) historical) (cfg_accounts cfg)
                emptyUserData) in *.
  rewrite Hkeys.
  destruct (loadLoop_run cfg fs (cfg_accounts cfg) ud0 Hnd Hmaps)
    as (Hsync & Ek & Er & Ehp & Elp & _).
  split; [split; [congruence|split; [congruence|]]|].
  - intros u Hu. destruct (Hmaps u Hu) as (G1 & G2 & _). by rewrite Ehp, Elp.
  - intros u Hu. split; [by apply Hsync|by apply Hfiles].
Qed.

(** ** Runs *)

Lemma accountFiles_NoDup cfg : NoDup (accountFiles cfg) → NoDup (cfg_accounts cfg).
Proof.
  unfold accountFiles. induction (cfg_accounts cfg) as [|x l IH]; intros Hnd; [constructor|].
  simpl in Hnd. apply NoDup_cons in Hnd as [Hx Hnd]. apply NoDup_cons in Hnd as [_ Hnd].
  apply NoDup_cons. split; [|by apply IH].
  intros Hin. apply Hx. right. apply list_elem_of_In, in_flat_map.
  exists x. split; [by apply list_elem_of_In|by left].
Qed.

Lemma FileOk_lowest cfg fs u :
  FileOk cfg fs u →
  match persistedLowest cfg fs u with
  | None => persistedHistory cfg fs u = []
  | Some e =>
      e ∈ persistedHistory cfg fs u
      ∧ (noNaN (persistedHistory cfg fs u) →
         ∀ e', e' ∈ persistedHistory cfg fs u →
           JS.le (Entry.totalAccountValue e) (Entry.totalAccountValue e') = true)
  end
  ∧ fs !! historicalLowestPath (cfg_today cfg) u ≫= docTotalAccountValue
    = Entry.totalAccountValue <$> persistedLowest cfg fs u.
Proof.
  intros (h & Hh & Hlow). rewrite (persistedHistory_FileOk cfg fs u h Hh).
  unfold persistedLowest.
  by destruct (fs !! historicalLowestPath (cfg_today cfg) u) as [[l|[e| |]]|].
Qed.

Lemma steps_Inv cfg steps : ∀ w,
  NoDup (accountFiles cfg) → WorldInv cfg w →
  ∃ w', fold_left (λ acc s, acc ≫= λ w, step cfg w s) steps (Some w) = Some w'
    ∧ WorldInv cfg w'
    ∧ ∀ u, u ∈ cfg_accounts cfg →
        persistedHistory cfg (files w) u `prefix_of` persistedHistory cfg (files w') u.
Proof.
  induction steps as [|s steps IH]; intros w Hnd Hinv.
  - exists w. split; [reflexivity|]. split; [exact Hinv|]. intros u Hu. reflexivity.
  - cbn [fold_left mbind option_bind].
    assert (∃ w1, step cfg w s = Some w1 ∧ WorldInv cfg w1
              ∧ ∀ u, u ∈ cfg_accounts cfg →
                  persistedHistory cfg (files w) u
                    `prefix_of` persistedHistory cfg (files w1) u) as (w1 & Hstep & Hinv1 & Hpre1).
    { destruct s as [i frame now|meta now]; simpl.
      - eexists. split; [reflexivity|]. by apply handleMessage_Inv.
      - destruct (start_Inv cfg meta now (files w)) as (w1 & Hstart & Hfiles & Hinv1).
        + by apply accountFiles_NoDup.
        + intros u Hu. by apply Hinv.
        + exists w1. rewrite Hfiles. split; [exact Hstart|]. split; [exact Hinv1|].
          intros u Hu. reflexivity. }
    rewrite Hstep. destruct (IH w1 Hnd Hinv1) as (w' & Hrun & Hinv' & Hpre').
    exists w'. split; [exact Hrun|]. split; [exact Hinv'|].
    intros u Hu. etrans; [by apply Hpre1|by apply Hpre'].
Qed.




(** ** The pool under events *)

Lemma evolves_refl c : evolves c c.
Proof. done. Qed.

Lemma evolves_trans c1 c2 c3 : evolves c1 c2 → evolves c2 c3 → evolves c1 c3.
Proof.
  intros (Hi1 & Hu1 & Hs1 & Ha1) (Hi2 & Hu2 & Hs2 & Ha2).
  split; [by rewrite Hi2|]. split; [by rewrite Hu2|]. split; [by rewrite Hs2|]. auto.
Qed.

Lemma Forall2_evolves_refl l : Forall2 evolves l l.
Proof. induction l; constructor; done. Qed.

Lemma Forall2_evolves_trans l1 l2 l3 :
  Forall2 evolves l1 l2 → Forall2 evolves l2 l3 → Forall2 evolves l1 l3.
Proof.
  intros H. revert l3. induction H; intros l3 H3; inversion H3; subst; constructor;
    eauto using evolves_trans.
Qed.

Lemma conn_alter_evolves f i l :
  (∀ c, conn_get i l = Some c → evolves c (f c)) →
  Forall2 evolves l (conn_alter f i l).
Proof.
  induction l as [|c l IH]; intros H; simpl; [constructor|].
  unfold conn_get in H. simpl in H.
  destruct (String.eqb (id c) i) eqn:Hci.
  - constructor; [by apply H|apply Forall2_evolves_refl].
  - constructor; [done|by apply IH].
Qed.

Lemma map_evolves f l :
  (∀ c, evolves c (f c)) → Forall2 evolves l (map f l).
Proof. intros H. induction l; simpl; constructor; done. Qed.

Lemma Forall2_evolves_wiring l l' :
  Forall2 evolves l l' →
  map (λ c, (id c, userAddresses c, subscriptionTypes c)) l'
  = map (λ c, (id c, userAddresses c, subscriptionTypes c)) l.
Proof.
  induction 1 as [|c c' l l' (Hid & Hu & Hs & _) _ IH]; simpl; [done|].
  by rewrite Hid, Hu, Hs, IH.
Qed.

Lemma Forall2_evolves_ids l l' : Forall2 evolves l l' → map id l' = map id l.
Proof.
  induction 1 as [|c c' l l' (Hid & _) _ IH]; simpl; [done|]. by rewrite Hid, IH.
Qed.

Lemma pricesGrow_refl p : pricesGrow p p.
Proof. done. Qed.

Lemma pricesGrow_trans p1 p2 p3 : pricesGrow p1 p2 → pricesGrow p2 p3 → pricesGrow p1 p3.
Proof. intros [H1 G1] [H2 G2]. split; [congruence|auto]. Qed.

Lemma wiring_proj w w' :
  wiring w' = wiring w →
  map (λ c, (id c, userAddresses c, subscriptionTypes c)) (connections (client w'))
  = map (λ c, (id c, userAddresses c, subscriptionTypes c)) (connections (client w))
  ∧ userToConnectionMap (client w') = userToConnectionMap (client w)
  ∧ clientMode (client w') = clientMode (client w)
  ∧ dataSaveMode (client w') = dataSaveMode (client w)
  ∧ usersPart (dataSaveMode (client w)) (userData (client w'))
    = usersPart (dataSaveMode (client w)) (userData (client w)).
Proof.
  unfold wiring. intros H.
  pose proof (f_equal (λ x, x.1.1.1.1.1.1) H) as H1.
  pose proof (f_equal (λ x, x.1.1.1.1.1.2) H) as H2.
  pose proof (f_equal (λ x, x.1.1.1.1.2) H) as H3.
  pose proof (f_equal (λ x, x.1.2) H) as H4.
  pose proof (f_equal (λ x, x.2) H) as H5.
  cbn [fst snd] in *. rewrite H4 in H5. done.
Qed.

Lemma follows_refl w : follows w w.
Proof. split; [apply Forall2_evolves_refl|done]. Qed.

Lemma follows_trans w1 w2 w3 : follows w1 w2 → follows w2 w3 → follows w1 w3.
Proof.
  intros (H1 & Hw1 & Hd1 & Hp1) (H2 & Hw2 & Hd2 & Hp2). split; [|split; [|split]].
  - by eapply Forall2_evolves_trans.
  - congruence.
  - auto.
  - by eapply pricesGrow_trans.
Qed.

Lemma follows_PoolOk w w' : PoolOk w → follows w w' → PoolOk w'.
Proof.
  intros [Hnd Hok] (Hev & _ & Hdet & _). split.
  - by rewrite (Forall2_evolves_ids _ _ Hev).
  - intros c' Hc'. apply list_elem_of_lookup in Hc' as [k Hk].
    destruct (Forall2_lookup_r _ _ _ _ _ Hev Hk) as (c & Hc & Hid & _ & _ & Hat).
    apply list_elem_of_lookup_2 in Hc. destruct (Hok c Hc) as [Hd Ha].
    rewrite Hid. split; [by apply Hdet|by apply Hat].
Qed.

Lemma quiet_refl w : quiet w w.
Proof. split; [apply follows_refl|done]. Qed.

Lemma quiet_trans w1 w2 w3 : quiet w1 w2 → quiet w2 w3 → quiet w1 w3.
Proof.
  intros [H1 T1] [H2 T2]. split; [by eapply follows_trans|congruence].
Qed.

Lemma countsOf_is_Some j w : is_Some (countsOf w !! j) ↔ is_Some (details_of j w).
Proof. unfold countsOf, details_of. rewrite lookup_fmap. apply fmap_is_Some. Qed.

Lemma quiet_intro w w' :
  Forall2 evolves (connections (client w)) (connections (client w')) →
  userToConnectionMap (client w') = userToConnectionMap (client w) →
  clientMode (client w') = clientMode (client w) →
  totalConnections (connectionStats (client w')) = totalConnections (connectionStats (client w)) →
  totalUsers (connectionStats (client w')) = totalUsers (connectionStats (client w)) →
  countsOf w' = countsOf w →
  totalMessagesReceived (client w') = totalMessagesReceived (client w) →
  messagesReceived (connectionStats (client w')) = messagesReceived (connectionStats (client w)) →
  dataSaveMode (client w') = dataSaveMode (client w) →
  usersPart (dataSaveMode (client w)) (userData (client w'))
  = usersPart (dataSaveMode (client w)) (userData (client w)) →
  pricesGrow (prices w) (prices w') →
  quiet w w'.
Proof.
  intros Hev Hmap Hmode Htc Htu Hcounts Htot Hrecv Hsave Hud Hp.
  split; [split; [done|split; [|split; [|done]]]|].
  - unfold wiring.
    by rewrite (Forall2_evolves_wiring _ _ Hev), Hmap, Hmode, Htc, Htu, Hsave, Hud.
  - intros j. rewrite <- !countsOf_is_Some. by rewrite Hcounts.
  - unfold tally. by rewrite Hcounts, Htot, Hrecv.
Qed.

Lemma quiet_client w w' : client w' = client w → prices w' = prices w → quiet w w'.
Proof.
  intros H Hp. apply quiet_intro; unfold countsOf; rewrite ?H, ?Hp; try done.
  apply Forall2_evolves_refl.
Qed.

Lemma quiet_upd_conn f i w :
  (∀ c, conn_get i (connections (client w)) = Some c → evolves c (f c)) →
  quiet w (upd_conn f i w).
Proof. intros H. apply quiet_intro; try done. by apply conn_alter_evolves. Qed.

Lemma quiet_set_status v i w : quiet w (upd_details (set_status v) i w).
Proof.
  apply quiet_intro; try done; [apply Forall2_evolves_refl|].
  unfold countsOf, upd_details. simpl. apply map_eq. intros j.
  rewrite !lookup_fmap, lookup_alter.
  destruct (decide (i = j)) as [->|]; [|done].
  by destruct (connectionDetails (connectionStats (client w)) !! j).
Qed.

Lemma quiet_updateConnectionStats now w : quiet w (updateConnectionStats now w).
Proof. apply quiet_intro; try done. apply Forall2_evolves_refl. Qed.

Lemma client_setupSubscriptions i w : client (setupSubscriptions i w) = client w.
Proof. unfold setupSubscriptions. by repeat case_match. Qed.

Lemma prices_setupSubscriptions i w : prices (setupSubscriptions i w) = prices w.
Proof. unfold setupSubscriptions. by repeat case_match. Qed.

Lemma files_setupSubscriptions i w : files (setupSubscriptions i w) = files w.
Proof. unfold setupSubscriptions. by repeat case_match. Qed.

Lemma quiet_withUserFiles f w :
  usersPart (dataSaveMode (client w)) (f (userData (client w), files w)).1
  = usersPart (dataSaveMode (client w)) (userData (client w)) →
  quiet w (withUserFiles f w).
Proof.
  unfold withUserFiles. destruct (f _) as [u fs]. intros Hu.
  apply quiet_intro; try done. apply Forall2_evolves_refl.
Qed.

Lemma saveHistoricalData_usersPart mode p d ua s :
  usersPart mode (saveHistoricalData p d ua s).1 = usersPart mode s.1.
Proof. destruct s as [u fs]. unfold saveHistoricalData. by repeat case_match. Qed.

Lemma saveData_usersPart p mode data s :
  usersPart mode (saveData p mode data s).1 = usersPart mode s.1.
Proof.
  destruct s as [u fs]. unfold saveData.
  destruct data as [d|]; [|done]. destruct (JS.or_null (user d)); [|done].
  unfold usersPart. destruct (bool_decide (mode = historical)) eqn:Hm.
  - pose proof (saveHistoricalData_usersPart mode p d s (u, fs)) as H.
    unfold usersPart in H. by rewrite Hm in H.
  - by repeat case_match.
Qed.

Lemma saveLowestValueEvent_usersPart mode event s :
  usersPart mode (saveLowestValueEvent event s).1 = usersPart mode s.1.
Proof. destruct s as [u fs]. unfold saveLowestValueEvent. by repeat case_match. Qed.

Lemma processWebData2Message_usersPart mode d now s :
  usersPart mode (processWebData2Message d now s).1 = usersPart mode s.1.
Proof.
  destruct s as [u fs]. unfold processWebData2Message.
  destruct (clearinghouseState d ≫= marginSummary) as [summary|]; [|done].
  destruct (isNewLowest _ _).
  - match goal with |- context [saveLowestValueEvent ?e ?s] =>
      pose proof (saveLowestValueEvent_usersPart mode e s) as H;
      destruct (saveLowestValueEvent e s) as [u1 fs1] end.
    simpl in H. by destruct (isNewHighest _ _).
  - by destruct (isNewHighest _ _).
Qed.

Lemma pricesGrow_updatePriceData d p : pricesGrow p (updatePriceData d p).
Proof.
  unfold updatePriceData. destruct (mids d) as [m|]; [|done]. split; [done|].
  intros coin [price Hp]. simpl. destruct (m !! coin) as [price'|] eqn:Hm.
  - exists price'. by apply lookup_union_Some_l.
  - exists price. rewrite lookup_union_r; done.
Qed.

Lemma quiet_processAllMidsMessage data now w : quiet w (processAllMidsMessage data now w).
Proof.
  unfold processAllMidsMessage. repeat case_match; try apply quiet_refl.
  apply quiet_intro; try done; [apply Forall2_evolves_refl|].
  apply pricesGrow_updatePriceData.
Qed.

Lemma evolves_set_lastHeartbeat v c : evolves c (set_lastHeartbeat v c).
Proof. done. Qed.

Lemma evolves_set_ws v c : evolves c (set_ws v c).
Proof. done. Qed.

Lemma evolves_set_isConnected_false c : evolves c (set_isConnected false c).
Proof.
  split; [done|]. split; [done|]. split; [done|]. intros [Hle _]. split; [done|]. done.
Qed.

Lemma evolves_opened now c :
  evolves c (set_lastHeartbeat now (set_reconnectAttempts 0 (set_isConnected true c))).
Proof.
  split; [done|]. split; [done|]. split; [done|]. intros _. split; simpl; [lia|done].
Qed.

Lemma quiet_connectSingle i w : quiet w (connectSingle i w).
Proof.
  unfold connectSingle. case_match; [|apply quiet_refl].
  eapply quiet_trans; [apply (quiet_upd_conn (set_ws (Some (nextHandle w))) i)|].
  - intros c' _. apply evolves_set_ws.
  - by apply quiet_client.
Qed.

Lemma quiet_fireTimer k w : quiet w (fireTimer k w).
Proof.
  unfold fireTimer. destruct (timers w !! k) as [[delay i]|]; [|apply quiet_refl].
  eapply quiet_trans; [|apply quiet_connectSingle]. by apply quiet_client.
Qed.

Lemma quiet_onError i w : quiet w (onError i w).
Proof. apply quiet_upd_conn. intros c _. apply evolves_set_isConnected_false. Qed.

Lemma quiet_onOpen i now w :
  is_Some (details_of i w) → ∃ w', onOpen i now w = Some w' ∧ quiet w w'.
Proof.
  intros [d Hd]. rewrite (onOpen_run i now w d Hd). eexists. split; [reflexivity|].
  eapply quiet_trans;
    [|apply quiet_client; [apply client_setupSubscriptions|apply prices_setupSubscriptions]].
  eapply quiet_trans; [|apply quiet_set_status].
  eapply quiet_trans; [|apply quiet_updateConnectionStats].
  apply quiet_upd_conn. intros c _. apply evolves_opened.
Qed.

(** [handleReconnect] on a connection that has just been flagged
    disconnected. *)
Lemma quiet_handleReconnect i w c :
  conn_get i (connections (client w)) = Some c →
  is_Some (details_of i w) →
  isConnected c = false →
  ∃ w', handleReconnect i w = Some w' ∧ quiet w w'.
Proof.
  intros Hc [d Hd] Hoff.
  destruct (decide (reconnectAttempts c < MAX_RECONNECT_ATTEMPTS)) as [Hlt|Hge].
  - rewrite (handleReconnect_below i w c d Hc Hd Hlt). eexists. split; [reflexivity|].
    eapply quiet_trans; [|by apply quiet_client].
    eapply quiet_trans; [|apply quiet_set_status].
    apply quiet_upd_conn. intros c' Hc'. assert (c' = c) as -> by congruence.
    split; [done|]. split; [done|]. split; [done|]. intros _.
    split; simpl; [lia|]. by rewrite Hoff.
  - rewrite (handleReconnect_max i w c d Hc Hd) by lia. eexists. split; [reflexivity|].
    apply quiet_set_status.
Qed.

Lemma quiet_PoolOk w w' : PoolOk w → quiet w w' → PoolOk w'.
Proof. intros H [Hf _]. by eapply follows_PoolOk. Qed.

Lemma PoolOk_conn_get w i :
  PoolOk w → i ∈ map id (connections (client w)) →
  ∃ c, conn_get i (connections (client w)) = Some c ∧ is_Some (details_of i w)
       ∧ attemptsOk c.
Proof.
  intros [Hnd Hok] Hi. apply list_elem_of_fmap in Hi as (c & -> & Hc).
  exists c. split; [by apply conn_get_elem_of|]. by apply Hok.
Qed.

Lemma quiet_onClose i now w :
  PoolOk w → i ∈ map id (connections (client w)) →
  ∃ w', onClose i now w = Some w' ∧ quiet w w'.
Proof.
  intros Hok Hi. destruct (PoolOk_conn_get w i Hok Hi) as (c & Hc & [d Hd] & _).
  unfold onClose, setStatus.
  change (details_of i (updateConnectionStats now (upd_conn ?f i w)))
    with (details_of i w).
  rewrite Hd. cbn [mbind option_bind].
  set (w2 := upd_details _ _ _).
  assert (quiet w w2) as Hq.
  { eapply quiet_trans; [|apply quiet_set_status].
    eapply quiet_trans; [|apply quiet_updateConnectionStats].
    apply quiet_upd_conn. intros c' _. apply evolves_set_isConnected_false. }
  case_bool_decide; [|by exists w2].
  destruct (quiet_handleReconnect i w2 (set_isConnected false c)) as (w' & Hrun & Hq').
  - unfold w2.
    change (connections (client (upd_details ?f i (updateConnectionStats now ?x))))
      with (connections (client x)).
    rewrite conn_get_upd_conn by auto with conn.
    rewrite decide_True by done. by rewrite Hc.
  - unfold w2. rewrite details_of_upd_details, decide_True by done.
    change (details_of i (updateConnectionStats now (upd_conn ?f i w)))
      with (details_of i w).
    by rewrite Hd.
  - done.
  - exists w'. split; [done|]. by eapply quiet_trans.
Qed.

Lemma quiet_checkConnection now i w :
  (∀ c, conn_get i (connections (client w)) = Some c → is_Some (details_of i w)) →
  ∃ w', checkConnection now i w = Some w' ∧ quiet w w'.
Proof.
  intros Hd. unfold checkConnection.
  destruct (conn_get i (connections (client w))) as [c|] eqn:Hc;
    [|exists w; split; [done|apply quiet_refl]].
  destruct (isConnected c && _); [|exists w; split; [done|apply quiet_refl]].
  destruct (bool_decide _); [|exists w; split; [done|apply quiet_refl]].
  destruct (quiet_handleReconnect i (upd_conn (set_isConnected false) i w)
              (set_isConnected false c)) as (w' & Hrun & Hq).
  - rewrite conn_get_upd_conn by auto with conn. rewrite decide_True by done.
    by rewrite Hc.
  - change (details_of i (upd_conn ?f i w)) with (details_of i w). by eapply Hd.
  - done.
  - exists w'. split; [done|]. eapply quiet_trans; [|exact Hq].
    apply quiet_upd_conn. intros c' _. apply evolves_set_isConnected_false.
Qed.

Lemma quiet_healthLoop now ids : ∀ w,
  PoolOk w →
  ∃ w', fold_left (λ acc j, acc ≫= checkConnection now j) ids (Some w) = Some w'
        ∧ quiet w w'.
Proof.
  induction ids as [|i ids IH]; intros w Hok.
  - exists w. split; [done|apply quiet_refl].
  - destruct (quiet_checkConnection now i w) as (w1 & Hrun & Hq).
    { intros c Hc. apply conn_get_Some in Hc as [<- Hc]. by apply Hok. }
    destruct (IH w1 (quiet_PoolOk _ _ Hok Hq)) as (w' & Hfold & Hq').
    exists w'. cbn [fold_left mbind option_bind]. rewrite Hrun.
    split; [exact Hfold|]. by eapply quiet_trans.
Qed.

Lemma quiet_performHealthCheck now w :
  PoolOk w → ∃ w', performHealthCheck now w = Some w' ∧ quiet w w'.
Proof.
  intros Hok. unfold performHealthCheck.
  destruct (quiet_healthLoop now (map id (connections (client w))) w Hok)
    as (w1 & Hfold & Hq).
  rewrite Hfold. eexists. split; [reflexivity|].
  eapply quiet_trans; [exact Hq|apply quiet_updateConnectionStats].
Qed.

Lemma quiet_disconnect now w : quiet w (disconnect now w).
Proof.
  unfold disconnect.
  set (w1 := match healthCheckInterval (client w) with
             | Some handle => _ | None => w end).
  assert (quiet w w1) as Hq1.
  { unfold w1. destruct (healthCheckInterval (client w)); [|apply quiet_refl].
    apply quiet_intro; try done. apply Forall2_evolves_refl. }
  destruct (closeLoop_run (connections (client w1)) [] (openSockets w1))
    as (open' & Hrun & _).
  rewrite Hrun. eapply quiet_trans; [exact Hq1|].
  eapply quiet_trans; [|apply quiet_updateConnectionStats].
  apply quiet_intro; try done. simpl. apply map_evolves. intros c.
  destruct (ws c); [|done].
  split; [done|]. split; [done|]. split; [done|]. by intros [Hle _].
Qed.

Lemma client_scheduleConnect l : ∀ w delay,
  client (fold_left scheduleConnect l (w, delay)).1 = client w
  ∧ prices (fold_left scheduleConnect l (w, delay)).1 = prices w.
Proof.
  induction l as [|c l IH]; intros w delay; simpl; [done|].
  by destruct (IH (set_timers (timers w ++ [(delay, id c)]) w)
                 (delay + CONNECTION_STAGGER_DELAY)%Z) as [-> ->].
Qed.

Lemma quiet_connectAll w : quiet w (connectAll w).
Proof.
  unfold connectAll.
  eapply quiet_trans; [|apply quiet_client; apply client_scheduleConnect].
  apply quiet_intro; try done. apply Forall2_evolves_refl.
Qed.

(** Once a frame has been counted, the rest of [handleMessage] leaves the
    pool and the counts alone. *)
Lemma handleMessage_inl i channel data now w w1 :
  countMessage i now w = inl w1 →
  quiet w1 (handleMessage i (JsonValue channel data) now w).
Proof.
  intros Hcount. unfold handleMessage. rewrite Hcount.
  case_bool_decide;
    [|case_bool_decide; [apply quiet_processAllMidsMessage|apply quiet_refl]].
  set (w2 := withUserFiles _ w1).
  assert (quiet w1 w2) as Hq2 by apply quiet_withUserFiles, saveData_usersPart.
  destruct data as [d'|]; [|done].
  eapply quiet_trans; [exact Hq2|].
  apply quiet_withUserFiles, processWebData2Message_usersPart.
Qed.

(** A frame on a connection that is not in the pool is counted in the
    totals only. *)
Lemma handleMessage_stray i frame now w :
  conn_get i (connections (client w)) = None →
  follows w (handleMessage i frame now w).
Proof.
  intros Hc.
  assert (∃ w1, countMessage i now w = inl w1 ∧ follows w w1) as (w1 & Hcount & Hf).
  { unfold countMessage. rewrite Hc. eexists. split; [reflexivity|].
    split; [apply Forall2_evolves_refl|done]. }
  destruct frame as [| |channel data].
  - apply follows_refl.
  - unfold handleMessage. by rewrite Hcount.
  - eapply follows_trans; [exact Hf|]. by apply handleMessage_inl.
Qed.

(** A frame that parses is counted once, on the connection it arrived on. *)
Lemma handleMessage_follows i frame now w :
  PoolOk w → i ∈ map id (connections (client w)) →
  follows w (handleMessage i frame now w)
  ∧ tally (handleMessage i frame now w)
    = match frame with
      | Malformed => tally w
      | _ => (alter S i (countsOf w), S (totalMessagesReceived (client w)),
              S (totalMessagesReceived (client w)))
      end.
Proof.
  intros Hok Hi. destruct (PoolOk_conn_get w i Hok Hi) as (c & Hc & [d Hd] & _).
  pose proof (countMessage_run i now w c d Hc Hd) as Hcount.
  set (w1 := upd_client _ _) in Hcount.
  assert (countsOf w1 = alter S i (countsOf w)) as Hcounts.
  { unfold countsOf, w1. simpl. apply map_eq. intros j.
    rewrite !lookup_fmap. destruct (decide (i = j)) as [<-|Hij].
    - rewrite !lookup_alter_eq. rewrite lookup_fmap. unfold details_of in Hd.
      by rewrite Hd.
    - rewrite !lookup_alter_ne by done. by rewrite lookup_fmap. }
  assert (follows w w1 ∧ tally w1 = (alter S i (countsOf w),
            S (totalMessagesReceived (client w)), S (totalMessagesReceived (client w))))
    as [Hf1 Ht1].
  { split; [split; [|split; [|split]]|].
    - apply (conn_alter_evolves (set_lastHeartbeat now)). intros c' _.
      apply evolves_set_lastHeartbeat.
    - unfold wiring, w1. simpl.
      by rewrite (Forall2_evolves_wiring _ _
           (conn_alter_evolves (set_lastHeartbeat now) i _
              (λ c' _, evolves_set_lastHeartbeat now c'))).
    - intros j. rewrite <- !countsOf_is_Some, Hcounts.
      destruct (decide (i = j)) as [<-|Hij].
      + rewrite lookup_alter_eq. by rewrite fmap_is_Some.
      + by rewrite lookup_alter_ne.
    - done.
    - unfold tally. by rewrite Hcounts. }
  destruct frame as [| |channel data].
  - split; [apply follows_refl|done].
  - unfold handleMessage. by rewrite Hcount.
  - destruct (handleMessage_inl i channel data now w w1 Hcount) as [Hf Ht].
    rewrite <- Ht1. split; [by eapply follows_trans|done].
Qed.

Lemma handleMessage_PoolOk i frame now w :
  PoolOk w → PoolOk (handleMessage i frame now w).
Proof.
  intros Hok. eapply follows_PoolOk; [exact Hok|].
  destruct (conn_get i (connections (client w))) as [c|] eqn:Hc.
  - apply handleMessage_follows; [done|]. apply conn_get_Some in Hc as [<- Hin].
    apply list_elem_of_fmap. by exists c.
  - by apply handleMessage_stray.
Qed.

(** Every event handler runs to its end on a well-formed pool, and leaves
    a well-formed pool. *)
Lemma fire_follows w e :
  PoolOk w → wired w e →
  ∃ w', fire w e = Some w' ∧ follows w w'
    ∧ tally w'
      = match e with
        | Received i Malformed _ => tally w
        | Received i _ _ =>
            (alter S i (countsOf w), S (totalMessagesReceived (client w)),
             S (totalMessagesReceived (client w)))
        | _ => tally w
        end.
Proof.
  intros Hok Hw.
  assert (∀ r, (∃ w', r = Some w' ∧ quiet w w') →
               ∃ w', r = Some w' ∧ follows w w' ∧ tally w' = tally w) as Hq.
  { intros r (w' & -> & Hf & Ht). by exists w'. }
  destruct e as [i now|i now|i|i frame now|k|now|now]; simpl.
  - apply Hq, quiet_onOpen. by destruct (PoolOk_conn_get w i Hok Hw) as (c & _ & Hd & _).
  - apply Hq. by apply quiet_onClose.
  - apply Hq. eexists. split; [done|apply quiet_onError].
  - destruct (handleMessage_follows i frame now w Hok Hw) as [Hf Ht].
    eexists. split; [done|]. split; [done|]. rewrite Ht. by destruct frame.
  - apply Hq. eexists. split; [done|apply quiet_fireTimer].
  - apply Hq. by apply quiet_performHealthCheck.
  - apply Hq. eexists. split; [done|apply quiet_disconnect].
Qed.

(** ** The pool at start-up *)

Lemma fold_insert_const (v : string) (g : list string) : ∀ (m : gmap string string) u,
  fold_left (λ m userAddress, <[userAddress := v]> m) g m !! u
  = if decide (u ∈ g) then Some v else m !! u.
Proof.
  induction g as [|a g IH]; intros m u; cbn [fold_left].
  - rewrite decide_False; [done|]. by intros ?%elem_of_nil.
  - rewrite IH. destruct (decide (u ∈ g)) as [Hin|Hnin].
    + by rewrite decide_True by (by right).
    + destruct (decide (u = a)) as [->|Hne].
      * rewrite decide_True by (by left). by rewrite lookup_insert_eq.
      * rewrite decide_False by (by intros [?|?]%elem_of_cons).
        by rewrite lookup_insert_ne by (by apply not_eq_sym).
Qed.

Lemma clientRest_addConnections now l : ∀ c,
  clientRest (fold_left (addConnection now) l c) = clientRest c.
Proof.
  induction l as [|[index userGroup] l IH]; intros c; [done|].
  cbn [fold_left]. by rewrite IH.
Qed.

Lemma fold_addConnection_maps now gs : ∀ n c,
  let c' := fold_left (addConnection now) (imap (λ j g, (n + j, g)) gs) c in
  (∀ j g, gs !! j = Some g →
     connectionDetails (connectionStats c') !! connectionIdOf (n + j)
     = Some {| users := g; status := disconnected; messagesCount := 0 |})
  ∧ (∀ k, (∀ j, j < length gs → k ≠ connectionIdOf (n + j)) →
       connectionDetails (connectionStats c') !! k
       = connectionDetails (connectionStats c) !! k)
  ∧ (NoDup (concat gs) → ∀ j g u, gs !! j = Some g → u ∈ g →
       userToConnectionMap c' !! u = Some (connectionIdOf (n + j)))
  ∧ (∀ u, u ∉ concat gs → userToConnectionMap c' !! u = userToConnectionMap c !! u).
Proof.
  induction gs as [|g gs IH]; intros n c.
  - simpl. split; [done|]. split; [done|]. split; done.
  - rewrite imap_cons. cbn [fold_left].
    rewrite (imap_ext _ (λ j g0, (S n + j, g0))) by (intros; simpl; f_equal; lia).
    set (c1 := addConnection now c (n + 0, g)).
    destruct (IH (S n) c1) as (Hdet & Hframe & Hmap & Hmframe).
    assert (∀ u, userToConnectionMap c1 !! u
                 = if decide (u ∈ g) then Some (connectionIdOf (n + 0))
                   else userToConnectionMap c !! u) as Hm1.
    { intros u. unfold c1, addConnection. simpl. apply fold_insert_const. }
    assert (∀ k, connectionDetails (connectionStats c1) !! k
                 = if decide (k = connectionIdOf (n + 0))
                   then Some {| users := g; status := disconnected; messagesCount := 0 |}
                   else connectionDetails (connectionStats c) !! k) as Hd1.
    { intros k. unfold c1, addConnection. simpl.
      destruct (decide (k = connectionIdOf (n + 0))) as [->|Hne].
      - by rewrite lookup_insert_eq.
      - by rewrite lookup_insert_ne by (by apply not_eq_sym). }
    split; [|split; [|split]].
    + intros [|j] g' Hj; simpl in Hj.
      * injection Hj as <-. rewrite Hframe.
        -- by rewrite Hd1, decide_True.
        -- intros j _ Heq. apply connectionIdOf_inj in Heq. lia.
      * replace (n + S j) with (S n + j) by lia. by apply Hdet.
    + intros k Hk. rewrite Hframe.
      * rewrite Hd1, decide_False; [done|]. apply (Hk 0). simpl. lia.
      * intros j Hj. replace (S n + j) with (n + S j) by lia. apply Hk. simpl. lia.
    + intros Hnd [|j] g' u Hj Hu; simpl in Hj.
      * injection Hj as <-. simpl in Hnd. apply NoDup_app in Hnd as (_ & Hdis & _).
        rewrite Hmframe by (by apply Hdis). by rewrite Hm1, decide_True.
      * replace (n + S j) with (S n + j) by lia. simpl in Hnd.
        apply NoDup_app in Hnd as (_ & _ & Hnd). by eapply Hmap.
    + intros u Hu. simpl in Hu. apply not_elem_of_app in Hu as [Hg Hgs].
      rewrite Hmframe by done. by rewrite Hm1, decide_False.
Qed.

(** A start, in closed form: [m] connections over the groups of three, each
    with its statistics entry; nothing counted, nothing scheduled. *)
Lemma start_run today accounts mode saveMode meta now fs :
  ∃ w m,
    start today accounts mode saveMode meta now fs = Some w
    ∧ connections (client w)
      = imap (newConnection now) (chunksFrom MAX_USERS_PER_CONNECTION accounts 0 m)
    ∧ m * MAX_USERS_PER_CONNECTION < length accounts + MAX_USERS_PER_CONNECTION
    ∧ length accounts ≤ m * MAX_USERS_PER_CONNECTION
    ∧ (∀ j g, chunksFrom MAX_USERS_PER_CONNECTION accounts 0 m !! j = Some g →
         details_of (connectionIdOf j) w
         = Some {| users := g; status := disconnected; messagesCount := 0 |})
    ∧ (NoDup accounts → ∀ p a, accounts !! p = Some a →
         userToConnectionMap (client w) !! a
         = Some (connectionIdOf (p / MAX_USERS_PER_CONNECTION)))
    ∧ clientMode (client w) = mode ∧ dataSaveMode (client w) = saveMode
    ∧ totalMessagesReceived (client w) = 0
    ∧ messagesReceived (connectionStats (client w)) = 0
    ∧ totalConnections (connectionStats (client w)) = m
    ∧ totalUsers (connectionStats (client w)) = length accounts
    ∧ healthCheckInterval (client w) = None
    ∧ userData (client w)
      = loadExistingData saveMode fs (initializeUserData today saveMode accounts emptyUserData)
    ∧ files w = fs ∧ timers w = [] ∧ intervals w = [] ∧ openSockets w = []
    ∧ sent w = [] ∧ latestPrices (prices w) = ∅.
Proof.
  unfold start, newClient.
  set (c0 := {| connections := []; userToConnectionMap := ∅; today := today;
                clientMode := mode; dataSaveMode := saveMode;
                healthCheckInterval := None; connectionStats := _; userData := _;
                lastAllMidsUpdate := 0; totalMessagesReceived := 0 |}).
  assert (0 < MAX_USERS_PER_CONNECTION) as HK by (unfold MAX_USERS_PER_CONNECTION; lia).
  destruct (groupLoop_run MAX_USERS_PER_CONNECTION accounts HK (length accounts) 0 [])
    as (m & Hrun & Hlo & Hhi); [lia|].
  unfold setupConnectionGroups. rewrite Hrun. cbn [mbind option_bind app].
  set (gs := chunksFrom MAX_USERS_PER_CONNECTION accounts 0 m).
  rewrite (imap_ext pair (λ j g, (0 + j, g))) by done.
  set (c1 := fold_left (addConnection now) _ c0).
  pose proof (clientRest_addConnections now (imap (λ j g, (0 + j, g)) gs) c0) as Hrest.
  fold c1 in Hrest. unfold clientRest in Hrest.
  injection Hrest as Htoday Hmode Hsave Hhc Hud Hlast Htot Htu Hact Hrecv Hupd.
  destruct (fold_addConnection_maps now gs 0 c0) as (Hdet & _ & Hmap & _). fold c1 in Hdet, Hmap.
  eexists _, m. split; [reflexivity|].
  cbn [client prices files timers intervals openSockets sent latestPrices].
  split; [|split; [lia|split; [lia|split; [|split]]]].
  - change (connections (upd_userData ?f (upd_stats ?g c1))) with (connections c1).
    unfold c1. rewrite fold_addConnection; [|constructor]. simpl. by apply imap_ext.
  - intros j g Hj. unfold details_of. simpl. by apply (Hdet j g).
  - intros Hnd p a Hp.
    change (userToConnectionMap (upd_userData ?f (upd_stats ?g c1)))
      with (userToConnectionMap c1).
    assert (p < length accounts) as Hplt by (by apply lookup_lt_Some in Hp).
    assert (p / MAX_USERS_PER_CONNECTION < m) as Hq
      by (apply Nat.Div0.div_lt_upper_bound; lia).
    apply (Hmap) with (g := take MAX_USERS_PER_CONNECTION
                              (drop (p / MAX_USERS_PER_CONNECTION * MAX_USERS_PER_CONNECTION)
                                 accounts)).
    + unfold gs. rewrite concat_chunksFrom.
      eapply sublist_NoDup; [exact Hnd|apply sublist_take].
    + by apply chunksFrom_lookup_lt.
    + apply (list_elem_of_lookup_2 _ (p mod MAX_USERS_PER_CONNECTION)).
      pose proof (Nat.mod_upper_bound p MAX_USERS_PER_CONNECTION ltac:(lia)) as Hmod.
      rewrite lookup_take_lt by done. rewrite lookup_drop. rewrite <- Hp. f_equal.
      pose proof (Nat.div_mod_eq p MAX_USERS_PER_CONNECTION). lia.
  - cbn [upd_userData upd_stats set_userData set_connectionStats clientMode dataSaveMode
         totalMessagesReceived connectionStats messagesReceived totalConnections
         set_totalConnections totalUsers healthCheckInterval userData].
    rewrite Hmode, Hsave, Htot, Hrecv, Htu, Hhc, Hud.
    repeat split; try done. unfold gs, chunksFrom. by rewrite length_map, length_seq.
Qed.

Lemma sum_list_zero {A} (f : A → nat) l :
  (∀ x, x ∈ l → f x = 0) → sum_list (map f l) = 0.
Proof.
  induction l as [|x l IH]; intros H; simpl; [done|].
  rewrite H by (by left). rewrite IH; [done|]. intros y Hy. apply H. by right.
Qed.

Lemma start_PoolOk today accounts mode saveMode meta now fs :
  ∃ w, start today accounts mode saveMode meta now fs = Some w
     ∧ PoolOk w ∧ tally w = (countsOf w, 0, 0) ∧ countedMessages w = 0.
Proof.
  destruct (start_run today accounts mode saveMode meta now fs)
    as (w & m & Hrun & Hconns & _ & _ & Hdet & _ & _ & _ & Htot & Hrecv & _).
  exists w. split; [exact Hrun|].
  assert (∀ c, c ∈ connections (client w) →
            ∃ j g, chunksFrom MAX_USERS_PER_CONNECTION accounts 0 m !! j = Some g
                   ∧ c = newConnection now j g) as Hmem.
  { intros c Hc. rewrite Hconns in Hc. apply list_elem_of_lookup in Hc as [j Hj].
    rewrite list_lookup_imap in Hj.
    destruct (chunksFrom _ accounts 0 m !! j) as [g|] eqn:Hg; [|done].
    exists j, g. split; [done|]. simpl in Hj. by injection Hj. }
  split; [split|split].
  - rewrite Hconns. apply NoDup_alt. intros j1 j2 i.
    rewrite !list_lookup_fmap, !list_lookup_imap. intros H1 H2.
    destruct (chunksFrom _ accounts 0 m !! j1); [|done].
    destruct (chunksFrom _ accounts 0 m !! j2); [|done].
    simpl in *. apply connectionIdOf_inj. congruence.
  - intros c Hc. destruct (Hmem c Hc) as (j & g & Hg & ->). simpl. split.
    + by rewrite (Hdet j g Hg).
    + split; simpl; [lia|done].
  - unfold tally. by rewrite Htot, Hrecv.
  - unfold countedMessages. apply sum_list_zero. intros c Hc.
    destruct (Hmem c Hc) as (j & g & Hg & ->). simpl.
    unfold countsOf. rewrite lookup_fmap. pose proof (Hdet j g Hg) as Hj.
    unfold details_of in Hj. by rewrite Hj.
Qed.

(** ** Runs of events *)

Lemma sum_list_alter (m : gmap string nat) i ids :
  NoDup ids → i ∈ ids → is_Some (m !! i) →
  sum_list (map (λ j, default 0 (alter S i m !! j)) ids)
  = S (sum_list (map (λ j, default 0 (m !! j)) ids)).
Proof.
  intros Hnd Hi [n Hn]. induction ids as [|j ids IH]; [by apply elem_of_nil in Hi|].
  apply NoDup_cons in Hnd as [Hj Hnd]. simpl.
  apply elem_of_cons in Hi as [<-|Hi].
  - rewrite lookup_alter_eq, Hn. simpl. f_equal. f_equal. f_equal.
    apply map_ext_in. intros k Hk. apply list_elem_of_In in Hk.
    rewrite lookup_alter_ne; [done|]. by intros ->.
  - rewrite lookup_alter_ne by (by intros ->). rewrite IH by done. lia.
Qed.

Lemma countedMessages_ids w :
  countedMessages w
  = sum_list (map (λ j, default 0 (countsOf w !! j)) (map id (connections (client w)))).
Proof. unfold countedMessages. by rewrite map_map. Qed.

Lemma wired_follows w w' e : follows w w' → wired w e → wired w' e.
Proof.
  intros (Hev & _) Hw. unfold wired in *. destruct (socketOf e); [|done].
  by rewrite (Forall2_evolves_ids _ _ Hev).
Qed.

Lemma fire_CountOk w e w' :
  PoolOk w → wired w e → CountOk w → fire w e = Some w' → 
  CountOk w'
  ∧ totalMessagesReceived (client w')
    = totalMessagesReceived (client w) + (if parses e then 1 else 0).
Proof.
  intros Hok Hw [Hrecv Hsum] Hrun.
  destruct (fire_follows w e Hok Hw) as (w'' & Hrun' & (Hev & _) & Ht).
  assert (w'' = w') as -> by congruence. clear Hrun Hrun'.
  pose proof (Forall2_evolves_ids _ _ Hev) as Hids.
  assert (tally w' = tally w → CountOk w'
            ∧ totalMessagesReceived (client w') = totalMessagesReceived (client w) + 0)
    as Hsame.
  { unfold tally. intros [= Hc Htot Hr]. split; [split; [congruence|]|lia].
    by rewrite countedMessages_ids, Hids, Hc, <- countedMessages_ids, Htot. }
  destruct e as [i now|i now|i|i frame now|k|now|now]; try (by apply Hsame).
  destruct frame as [| |channel data]; [by apply Hsame| |];
    (unfold tally in Ht; injection Ht as Hc Htot Hr;
     destruct (PoolOk_conn_get w i Hok Hw) as (c & _ & Hd & _);
     split; [split; [congruence|]|simpl; lia];
     rewrite countedMessages_ids, Hids, Hc, Htot;
     rewrite sum_list_alter;
       [by rewrite <- countedMessages_ids, Hsum|by destruct Hok|done
       |by apply countsOf_is_Some]).
Qed.

(** Whatever the events on the sockets of the pool, no callback throws, the
    pool stays well formed and the counts stay in step. *)
Lemma fireAll_run events : ∀ w,
  PoolOk w → CountOk w → Forall (wired w) events →
  ∃ w', fireAll events w = Some w' ∧ follows w w' ∧ PoolOk w' ∧ CountOk w'
    ∧ totalMessagesReceived (client w')
      = totalMessagesReceived (client w) + parsedFrames events.
Proof.
  induction events as [|e events IH]; intros w Hok Hcnt Hw.
  - exists w. split; [done|]. split; [apply follows_refl|]. split; [done|].
    split; [done|]. unfold parsedFrames. simpl. lia.
  - apply Forall_cons in Hw as [He Hw].
    destruct (fire_follows w e Hok He) as (w1 & Hrun & Hf & _).
    destruct (fire_CountOk w e w1 Hok He Hcnt Hrun) as [Hcnt1 Htot1].
    destruct (IH w1) as (w' & Hfold & Hf' & Hok' & Hcnt' & Htot').
    + by eapply follows_PoolOk.
    + done.
    + eapply Forall_impl; [exact Hw|]. intros e'. by apply wired_follows.
    + exists w'. unfold fireAll in *. cbn [fold_left mbind option_bind]. rewrite Hrun.
      split; [exact Hfold|]. split; [by eapply follows_trans|]. split; [done|].
      split; [done|]. rewrite Htot', Htot1. unfold parsedFrames.
      destruct (parses e) eqn:Hp.
      * rewrite filter_cons_True by done. simpl. lia.
      * rewrite filter_cons_False by (by rewrite Hp). lia.
Qed.

Lemma main_run today accounts mode saveMode meta now fs :
  ∃ w0 w, start today accounts mode saveMode meta now fs = Some w0
    ∧ main today accounts mode saveMode meta now fs = Some w
    ∧ w = connectAll w0 ∧ quiet w0 w ∧ PoolOk w ∧ CountOk w
    ∧ totalMessagesReceived (client w) = 0.
Proof.
  destruct (start_PoolOk today accounts mode saveMode meta now fs)
    as (w0 & Hstart & Hok & Ht & Hsum).
  exists w0, (connectAll w0). unfold main. rewrite Hstart.
  split; [done|]. split; [done|]. split; [done|].
  pose proof (quiet_connectAll w0) as Hq. split; [exact Hq|].
  split; [by eapply quiet_PoolOk|].
  destruct Hq as [(Hev & _) Hq]. rewrite Ht in Hq. unfold tally in Hq.
  injection Hq as Hc Htot Hr. split; [split; [congruence|]|done].
  by rewrite countedMessages_ids, (Forall2_evolves_ids _ _ Hev), Hc,
    <- countedMessages_ids, Hsum.
Qed.


Lemma sampleMain_ids saveMode :
  main "20250110" ["0xabc"] continuous saveMode true 0 ∅
    ≫= (λ w0, Some (map id (connections (client w0))))
  = Some ["conn-1"].
Proof. destruct saveMode; vm_compute; reflexivity. Qed.

Lemma sampleMain_wired saveMode events w0 :
  main "20250110" ["0xabc"] continuous saveMode true 0 ∅ = Some w0 →
  onFirstConnection events = true →
  Forall (wired w0) events.
Proof.
  intros Hmain Hev. pose proof (sampleMain_ids saveMode) as Hids. rewrite Hmain in Hids.
  cbn [mbind option_bind] in Hids. injection Hids as Hids.
  apply Forall_forall. intros e He. apply list_elem_of_In in He.
  unfold onFirstConnection in Hev. rewrite forallb_forall in Hev. specialize (Hev e He).
  unfold wired. destruct (socketOf e) as [i|]; [|done].
  apply String.eqb_eq in Hev as ->. rewrite Hids. apply list_elem_of_here.
Qed.

Lemma sampleMain_fireAll saveMode events w0 :
  main "20250110" ["0xabc"] continuous saveMode true 0 ∅ = Some w0 →
  onFirstConnection events = true →
  ∃ w, fireAll events w0 = Some w.
Proof.
  intros Hmain Hev.
  destruct (main_run "20250110" ["0xabc"] continuous saveMode true 0 ∅)
    as (ws & w0' & _ & Hmain' & _ & _ & Hok & Hcnt & _).
  assert (w0' = w0) as -> by congruence.
  destruct (fireAll_run events w0 Hok Hcnt (sampleMain_wired saveMode events w0 Hmain Hev))
    as (w & Hrun & _).
  by exists w.
Qed.



(** X2.  Every account stays on the connection it was assigned to at
    construction.  From [main] on, whatever the events: the pool has
    ceil(N/3) connections, connection [j] has id conn-(j+1), the accounts at
    positions [3j .. 3j+2] and both subscription types, and (for accounts
    given without duplicates) [userToConnectionMap] sends the account at
    position [p] to connection [p / 3]. *)
Theorem account_assignment_stable today accounts mode saveMode meta now fs :
  ∃ w0, main today accounts mode saveMode meta now fs = Some w0
    ∧ ∀ events w, Forall (wired w0) events → fireAll events w0 = Some w →
        length (connections (client w))
        = (length accounts + MAX_USERS_PER_CONNECTION - 1) / MAX_USERS_PER_CONNECTION
        ∧ (∀ j c, connections (client w) !! j = Some c →
             id c = connectionIdOf j
             ∧ userAddresses c
               = slice accounts (j * MAX_USERS_PER_CONNECTION)
                   (j * MAX_USERS_PER_CONNECTION + MAX_USERS_PER_CONNECTION)
             ∧ subscriptionTypes c = SUBSCRIPTION_TYPES)
        ∧ (NoDup accounts → ∀ p a, accounts !! p = Some a →
             userToConnectionMap (client w) !! a
             = Some (connectionIdOf (p / MAX_USERS_PER_CONNECTION)))
        ∧ clientMode (client w) = mode.
Proof.
  destruct (main_run today accounts mode saveMode meta now fs)
    as (ws & w0 & Hstart & Hmain & _ & [(_ & Hwire0 & _) _] & Hok & Hcnt & _).
  destruct (start_run today accounts mode saveMode meta now fs)
    as (ws' & m & Hstart' & Hconns & Hlo & Hhi & _ & Hmap & Hmode & _).
  assert (ws' = ws) as -> by congruence.
  exists w0. split; [exact Hmain|]. intros events w Hw Hrun.
  destruct (fireAll_run events w0 Hok Hcnt Hw) as (w' & Hrun' & (_ & Hwire & _) & _).
  assert (w' = w) as -> by congruence.
  rewrite Hwire0 in Hwire. apply wiring_proj in Hwire as (Hl & Hm & Hmd & _).
  rewrite Hconns in Hl.
  assert (length (connections (client w)) = m) as Hlen.
  { rewrite <- (length_map (λ c, (id c, userAddresses c, subscriptionTypes c))), Hl.
    rewrite length_map, length_imap. unfold chunksFrom. by rewrite length_map, length_seq. }
  split; [|split; [|split]].
  - rewrite Hlen. unfold MAX_USERS_PER_CONNECTION in *.
    apply (Nat.div_unique _ _ _ (length accounts + 3 - 1 - m * 3)); lia.
  - intros j c Hj.
    assert (map (λ c, (id c, userAddresses c, subscriptionTypes c))
              (connections (client w)) !! j
            = Some (id c, userAddresses c, subscriptionTypes c)) as Hlook.
    { change (map ?f ?l) with (f <$> l). by rewrite list_lookup_fmap, Hj. }
    rewrite Hl in Hlook. change (map ?f ?l) with (f <$> l) in Hlook.
    rewrite list_lookup_fmap, list_lookup_imap in Hlook.
    destruct (chunksFrom _ accounts 0 m !! j) as [g|] eqn:Hg; [|done].
    apply chunksFrom_lookup in Hg as [_ ->]. simpl in Hlook.
    injection Hlook as Hid Hu Hs. by rewrite slice_step.
  - intros Hnd p a Hp. rewrite Hm. by apply Hmap.
  - by rewrite Hmd.
Qed.

Lemma account_assignment_stable_witness :
  ∃ w0 w, main "20250110" ["0xabc"] continuous historical true 0 ∅ = Some w0
    ∧ fireAll sampleEvents w0 = Some w
    ∧ length (connections (client w)) = 1
    ∧ userToConnectionMap (client w) !! "0xabc" = Some "conn-1".
Proof.
  destruct (account_assignment_stable "20250110" ["0xabc"] continuous historical true 0 ∅)
    as (w0 & Hmain & Hstable).
  destruct (sampleMain_fireAll historical sampleEvents w0 Hmain eq_refl) as (w & Hrun).
  destruct (Hstable sampleEvents w
              (sampleMain_wired historical sampleEvents w0 Hmain eq_refl) Hrun)
    as (Hlen & _ & Hmap & _).
  exists w0, w. split; [exact Hmain|]. split; [exact Hrun|]. split; [exact Hlen|].
  apply (Hmap ltac:(apply NoDup_singleton) 0 "0xabc"). reflexivity.
Defined.

(** X3.  The three message counts agree.  From [main] on, whatever the events:
    the statistics' [messagesReceived], the client's
    [totalMessagesReceived] and the sum of the per-connection counts are all
    equal to the number of frames received that parsed. *)
Theorem message_counts_agree today accounts mode saveMode meta now fs :
  ∃ w0, main today accounts mode saveMode meta now fs = Some w0
    ∧ ∀ events w, Forall (wired w0) events → fireAll events w0 = Some w →
        totalMessagesReceived (client w) = parsedFrames events
        ∧ messagesReceived (connectionStats (client w)) = parsedFrames events
        ∧ countedMessages w = parsedFrames events.
Proof.
  destruct (main_run today accounts mode saveMode meta now fs)
    as (ws & w0 & _ & Hmain & _ & _ & Hok & Hcnt & Hzero).
  exists w0. split; [exact Hmain|]. intros events w Hw Hrun.
  destruct (fireAll_run events w0 Hok Hcnt Hw) as (w' & Hrun' & _ & _ & [Hr Hs] & Htot).
  assert (w' = w) as -> by congruence.
  rewrite Hzero in Htot. simpl in Htot. rewrite Hr, Hs. done.
Qed.

Lemma message_counts_agree_witness :
  ∃ w0 w, main "20250110" ["0xabc"] continuous historical true 0 ∅ = Some w0
    ∧ fireAll sampleEvents w0 = Some w
    ∧ totalMessagesReceived (client w) = 1
    ∧ countedMessages w = 1.
Proof.
  destruct (message_counts_agree "20250110" ["0xabc"] continuous historical true 0 ∅)
    as (w0 & Hmain & Hcounts).
  destruct (sampleMain_fireAll historical sampleEvents w0 Hmain eq_refl) as (w & Hrun).
  destruct (Hcounts sampleEvents w
              (sampleMain_wired historical sampleEvents w0 Hmain eq_refl) Hrun)
    as (Ht & _ & Hc).
  exists w0, w. split; [exact Hmain|]. split; [exact Hrun|]. split; [exact Ht|exact Hc].
Defined.

(** X4.  In continuous mode a health check always finds attempts left.  From
    [main] on, whatever the events, a pass of the health check runs to its
    end, and every connection it finds flagged connected with a heartbeat
    older than twice the interval ends flagged disconnected with exactly one
    attempt counted and a reconnect scheduled [RECONNECT_DELAY_MS] ahead. *)
Theorem stale_connection_reconnects_at_base_delay today accounts saveMode meta now0 fs :
  ∃ w0, main today accounts continuous saveMode meta now0 fs = Some w0
    ∧ ∀ events w now, Forall (wired w0) events → fireAll events w0 = Some w →
        ∃ w', performHealthCheck now w = Some w'
          ∧ ∀ c, c ∈ connections (client w) → stale now c = true →
              conn_get (id c) (connections (client w'))
              = Some (set_reconnectAttempts 1 (set_isConnected false c))
              ∧ (RECONNECT_DELAY_MS, id c) ∈ timers w'.
Proof.
  destruct (main_run today accounts continuous saveMode meta now0 fs)
    as (ws & w0 & Hstart & Hmain & _ & [(_ & Hwire0 & _) _] & Hok & Hcnt & _).
  destruct (start_run today accounts continuous saveMode meta now0 fs)
    as (ws' & m & Hstart' & _ & _ & _ & _ & _ & Hmode & _).
  assert (ws' = ws) as -> by congruence.
  exists w0. split; [exact Hmain|]. intros events w now Hw Hrun.
  destruct (fireAll_run events w0 Hok Hcnt Hw)
    as (w1 & Hrun' & (_ & Hwire & _) & [Hnd Hok'] & _).
  assert (w1 = w) as -> by congruence.
  assert (clientMode (client w) = continuous) as Hm.
  { rewrite Hwire0 in Hwire. apply wiring_proj in Hwire as (_ & _ & Hmd & _).
    congruence. }
  destruct (performHealthCheck_run now w Hnd) as (w' & Hcheck & Hconns & Htim).
  { intros c Hc. by apply Hok'. }
  exists w'. split; [exact Hcheck|]. intros c Hc Hst.
  destruct (Hok' c Hc) as [_ [_ Hzero]].
  assert (isConnected c = true) as Hon.
  { unfold stale in Hst. by apply andb_true_iff in Hst as [? _]. }
  specialize (Hzero Hon). split.
  - rewrite Hconns, (conn_get_map _ _ _ (keepsId_checked _ _)).
    rewrite (conn_get_elem_of _ c Hnd Hc). simpl. f_equal.
    unfold checked. rewrite Hst, Hm, Hzero. reflexivity.
  - rewrite Htim. apply elem_of_app. right. apply list_elem_of_In, in_flat_map.
    exists c. split; [by apply list_elem_of_In|].
    unfold scheduled. rewrite Hst, Hm, Hzero. simpl. by left.
Qed.

Lemma sampleOpening_run :
  (main "20250110" ["0xabc"] continuous historical true 0 ∅ ≫= fireAll sampleOpening)
    ≫= (λ w, Some (connections (client w)))
  = Some [{| id := "conn-1"; ws := Some 1; userAddresses := ["0xabc"];
             isConnected := true; reconnectAttempts := 0; lastHeartbeat := 20;
             subscriptionTypes := SUBSCRIPTION_TYPES |}].
Proof. vm_compute. reflexivity. Qed.

Lemma stale_connection_reconnects_at_base_delay_witness :
  ∃ w0 w w',
    main "20250110" ["0xabc"] continuous historical true 0 ∅ = Some w0
    ∧ fireAll sampleOpening w0 = Some w
    ∧ performHealthCheck 100000 w = Some w'
    ∧ (5000%Z, "conn-1") ∈ timers w'.
Proof.
  destruct (stale_connection_reconnects_at_base_delay "20250110" ["0xabc"] historical true 0 ∅)
    as (w0 & Hmain & Hcheck).
  destruct (sampleMain_fireAll historical sampleOpening w0 Hmain eq_refl) as (w & Hrun).
  destruct (Hcheck sampleOpening w 100000%Z
              (sampleMain_wired historical sampleOpening w0 Hmain eq_refl) Hrun)
    as (w' & Hpass & Hstale).
  exists w0, w, w'. split; [exact Hmain|]. split; [exact Hrun|]. split; [exact Hpass|].
  pose proof sampleOpening_run as Hconns. rewrite Hmain in Hconns.
  cbn [mbind option_bind] in Hconns. rewrite Hrun in Hconns.
  cbn [mbind option_bind] in Hconns. clear Hmain Hrun Hpass Hcheck.
  injection Hconns as Hconns.
  edestruct Hstale as [_ Hin].
  - rewrite Hconns. apply list_elem_of_here.
  - reflexivity.
  - exact Hin.
Defined.

Lemma scheduleConnect_run l : ∀ w delay,
  fold_left scheduleConnect l (w, delay)
  = (set_timers (timers w ++ imap (λ j c, ((delay + Z.of_nat j * CONNECTION_STAGGER_DELAY)%Z,
                                           id c)) l) w,
     (delay + Z.of_nat (length l) * CONNECTION_STAGGER_DELAY)%Z).
Proof.
  induction l as [|c l IH]; intros w delay.
  - simpl. rewrite app_nil_r, Z.add_0_r. by destruct w.
  - cbn [fold_left scheduleConnect]. rewrite IH. f_equal; [|cbn [length]; lia].
    unfold set_timers. destruct w as [cl pr fs ts iv os sn nh].
    cbn [client prices files timers intervals openSockets sent nextHandle]. f_equal.
    rewrite imap_cons, <- app_assoc. simpl. rewrite Z.add_0_r. do 2 f_equal.
    apply imap_ext. intros j c' _. simpl. f_equal. lia.
Qed.

(** X5.  [connectAll] staggers the first connects: it arms the health-check
    timer and queues exactly one connect per connection, in connection
    order, the one of connection [j] (counting from 0) after
    [j * CONNECTION_STAGGER_DELAY] ms.  After [main] the queue holds the
    connects of conn-1, conn-2, ... at 0, 1000, 2000, ... ms and nothing
    else. *)
Theorem connectAll_staggers_connects :
  (∀ w, timers (connectAll w)
        = timers w ++ imap (λ j c, ((Z.of_nat j * CONNECTION_STAGGER_DELAY)%Z, id c))
                         (connections (client w))
        ∧ healthCheckInterval (client (connectAll w)) = Some (nextHandle w)
        ∧ intervals (connectAll w) = nextHandle w :: intervals w
        ∧ connections (client (connectAll w)) = connections (client w)
        ∧ openSockets (connectAll w) = openSockets w)
  ∧ (∀ today accounts mode saveMode meta now fs,
       ∃ w0, main today accounts mode saveMode meta now fs = Some w0
         ∧ timers w0
           = map (λ j, ((Z.of_nat j * 1000)%Z, connectionIdOf j))
               (seq 0 ((length accounts + 2) / 3))).
Proof.
  assert (∀ w, timers (connectAll w)
        = timers w ++ imap (λ j c, ((Z.of_nat j * CONNECTION_STAGGER_DELAY)%Z, id c))
                         (connections (client w))
        ∧ healthCheckInterval (client (connectAll w)) = Some (nextHandle w)
        ∧ intervals (connectAll w) = nextHandle w :: intervals w
        ∧ connections (client (connectAll w)) = connections (client w)
        ∧ openSockets (connectAll w) = openSockets w) as Hall.
  { intros w. unfold connectAll. rewrite scheduleConnect_run. cbn [fst].
    repeat split. }
  split; [exact Hall|].
  intros today accounts mode saveMode meta now fs.
  destruct (start_run today accounts mode saveMode meta now fs)
    as (ws & m & Hstart & Hconns & Hlo & Hhi & _ & _ & _ & _ & _ & _ & _ & _ & _ & _ & _
        & Htimers & _).
  exists (connectAll ws). unfold main. rewrite Hstart. split; [done|].
  destruct (Hall ws) as (-> & _). rewrite Htimers, Hconns. cbn [app].
  assert ((length accounts + 2) / 3 = m) as ->.
  { unfold MAX_USERS_PER_CONNECTION in *. symmetry.
    apply (Nat.div_unique _ _ _ (length accounts + 2 - m * 3)); lia. }
  apply list_eq. intros j. rewrite list_lookup_imap, list_lookup_imap, list_lookup_fmap.
  unfold chunksFrom. rewrite list_lookup_fmap.
  destruct (seq 0 m !! j) as [k|] eqn:Hk; [|done].
  apply lookup_seq in Hk as [-> _]. done.
Qed.

Lemma closeLoop_closed l : ∀ seen open,
  (∀ c, c ∈ l → ws c = None) →
  fold_left closeConnection l (seen, open) = (seen ++ l, open).
Proof.
  induction l as [|c l IH]; intros seen open Hl.
  - simpl. by rewrite app_nil_r.
  - cbn [fold_left]. unfold closeConnection at 2.
    rewrite (Hl c) by (by left). rewrite IH.
    + by rewrite <- app_assoc.
    + intros c' Hc'. apply Hl. by right.
Qed.

(** X6.  [disconnect] is idempotent: a second call changes nothing but the time
    stamp of the statistics, so that two calls leave the state one call at
    the later time leaves. *)
Theorem disconnect_idempotent t1 t2 w :
  disconnect t2 (disconnect t1 w) = disconnect t2 w.
Proof.
  unfold disconnect at 2 3.
  set (w1 := match healthCheckInterval (client w) with
             | Some handle => _ | None => w end).
  assert (healthCheckInterval (client w1) = None) as Hh1
    by (unfold w1; by destruct (healthCheckInterval (client w)) eqn:E).
  destruct (closeLoop_run (connections (client w1)) [] (openSockets w1))
    as (open' & Hrun & _).
  rewrite Hrun. cbn [app].
  set (closed := λ c, match ws c with
                      | Some _ => set_isConnected false (set_ws None c)
                      | None => c
                      end).
  unfold disconnect.
  cbn [updateConnectionStats upd_client set_client client upd_stats set_connectionStats
       healthCheckInterval set_openSockets set_connections].
  rewrite Hh1.
  cbn [connections openSockets].
  rewrite closeLoop_closed.
  - reflexivity.
  - intros c' Hc'. change (map ?f ?l) with (f <$> l) in Hc'.
    apply list_elem_of_fmap in Hc' as (c & -> & _). unfold closed. by destruct (ws c) eqn:E.
Qed.



(** ** The per-user maps at start-up, in any save mode *)

Lemma initializeUserData_keys today mode l : ∀ ud,
  let ud' := fold_left (initializeUser today mode) l ud in
  (∀ k, k ∈ userKeys ud' ↔ k ∈ userKeys ud ∨ k ∈ l)
  ∧ (NoDup (userKeys ud ++ l) → userKeys ud' = userKeys ud ++ l)
  ∧ (∀ k, is_Some (userLowestValueFiles ud' !! k) →
       is_Some (userLowestValueFiles ud !! k) ∨ k ∈ l)
  ∧ (mode = historical → userLowestValueFiles ud' = userLowestValueFiles ud)
  ∧ (∀ k, k ∈ l → userExistingData ud' !! k = Some (DocArray []))
  ∧ (∀ k, k ∉ l → userExistingData ud' !! k = userExistingData ud !! k).
Proof.
  induction l as [|x l IH]; intros ud.
  - simpl. split; [intros k; rewrite elem_of_nil; tauto|].
    split; [by rewrite app_nil_r|]. split; [auto|]. split; [done|].
    split; [by intros k ?%elem_of_nil|done].
  - cbn [fold_left]. set (ud1 := initializeUser today mode ud x).
    destruct (IH ud1) as (Hk & Hnd & Hlow & Hhist & Hin & Hout).
    assert (∀ k, k ∈ userKeys ud1 ↔ k ∈ userKeys ud ∨ k = x) as Hk1.
    { intros k. unfold ud1, initializeUser, addKey. cbn [userKeys].
      case_bool_decide as Hx.
      - split; [by left|]. by intros [?| ->].
      - rewrite elem_of_app, list_elem_of_singleton. done. }
    split; [|split; [|split; [|split; [|split]]]].
    + intros k. rewrite Hk, Hk1, elem_of_cons. tauto.
    + intros Hnd'. rewrite Hnd.
      * unfold ud1, initializeUser, addKey. cbn [userKeys].
        rewrite bool_decide_eq_false_2; [by rewrite <- app_assoc|].
        apply NoDup_app in Hnd' as (_ & Hdis & _). intros Hx. apply (Hdis x Hx). by left.
      * unfold ud1, initializeUser, addKey. cbn [userKeys].
        rewrite bool_decide_eq_false_2; [by rewrite <- app_assoc|].
        apply NoDup_app in Hnd' as (_ & Hdis & _). intros Hx. apply (Hdis x Hx). by left.
    + intros k Hsome. destruct (Hlow k Hsome) as [H1|H1]; [|right; by right].
      unfold ud1, initializeUser in H1. cbn [userLowestValueFiles] in H1.
      destruct (bool_decide (mode = historical)); [by left|].
      destruct (decide (k = x)) as [->|Hne]; [right; by left|].
      rewrite lookup_insert_ne in H1 by (by apply not_eq_sym). by left.
    + intros Hm. rewrite (Hhist Hm). unfold ud1, initializeUser.
      cbn [userLowestValueFiles]. by rewrite bool_decide_eq_true_2.
    + intros k Hkx. destruct (decide (k ∈ l)) as [Hl|Hl]; [by apply Hin|].
      rewrite (Hout k Hl). apply elem_of_cons in Hkx as [->|?]; [|done].
      unfold ud1, initializeUser. cbn [userExistingData]. by rewrite lookup_insert_eq.
    + intros k Hkx. apply not_elem_of_cons in Hkx as [Hne Hl]. rewrite (Hout k Hl).
      unfold ud1, initializeUser. cbn [userExistingData].
      by rewrite lookup_insert_ne by (by apply not_eq_sym).
Qed.

Lemma loadEvent_usersPart mode u ud event :
  usersPart mode (loadEvent u ud event) = usersPart mode ud.
Proof. unfold loadEvent. by repeat case_match. Qed.

Lemma loadEvents_usersPart mode u events : ∀ ud,
  usersPart mode (fold_left (loadEvent u) events ud) = usersPart mode ud.
Proof.
  induction events as [|ev events IH]; intros ud; [done|].
  cbn [fold_left]. by rewrite IH, loadEvent_usersPart.
Qed.

Lemma loadUser_usersPart mode fs ud u :
  usersPart mode (loadUser mode fs ud u) = usersPart mode ud.
Proof.
  unfold loadUser. destruct (decide (mode = historical)) as [Hm|Hm].
  - rewrite bool_decide_eq_true_2 by done. by repeat case_match.
  - rewrite bool_decide_eq_false_2 by done.
    assert (∀ v, usersPart mode (set_userExistingData v ud) = usersPart mode ud) as H1.
    { intros v. unfold usersPart. by rewrite bool_decide_eq_false_2 by done. }
    destruct (userDataFiles ud !! u ≫= (fs !!.)) as [existingData|];
      destruct (userLowestValueFiles _ !! u ≫= (fs !!.)) as [[events|item]|];
      rewrite ?loadEvents_usersPart; try done;
      unfold usersPart; by rewrite bool_decide_eq_false_2 by done.
Qed.

Lemma loadExistingData_usersPart mode fs ud :
  usersPart mode (loadExistingData mode fs ud) = usersPart mode ud.
Proof.
  unfold loadExistingData. generalize (userKeys ud) as l. intros l. revert ud.
  induction l as [|u l IH]; intros ud; [done|].
  cbn [fold_left]. by rewrite IH, loadUser_usersPart.
Qed.

(** What holds in every state the client reaches from [main]. *)
Lemma reach today accounts mode saveMode meta now fs :
  ∃ w0, main today accounts mode saveMode meta now fs = Some w0
    ∧ ∀ events w, Forall (wired w0) events → fireAll events w0 = Some w →
        PoolOk w
        ∧ dataSaveMode (client w) = saveMode
        ∧ usersPart saveMode (userData (client w))
          = usersPart saveMode (initializeUserData today saveMode accounts emptyUserData)
        ∧ userToConnectionMap (client w) = userToConnectionMap (client w0)
        ∧ pricesGrow (prices w0) (prices w).
Proof.
  destruct (main_run today accounts mode saveMode meta now fs)
    as (ws & w0 & Hstart & Hmain & _ & [(_ & Hwire0 & _) _] & Hok & Hcnt & _).
  destruct (start_run today accounts mode saveMode meta now fs)
    as (ws' & m & Hstart' & _ & _ & _ & _ & _ & _ & Hsave & _ & _ & _ & _ & _ & Hud & _).
  assert (ws' = ws) as -> by congruence.
  exists w0. split; [exact Hmain|]. intros events w Hw Hrun.
  destruct (fireAll_run events w0 Hok Hcnt Hw)
    as (w' & Hrun' & (_ & Hwire & _ & Hgrow) & Hok' & _).
  assert (w' = w) as -> by congruence.
  pose proof Hwire0 as Hw0. apply wiring_proj in Hw0 as (_ & Hmap0 & _).
  rewrite Hwire0 in Hwire. apply wiring_proj in Hwire as (_ & Hmap & _ & Hmode & Husers).
  rewrite Hsave in Hmode, Husers. rewrite Hud, loadExistingData_usersPart in Husers.
  split; [done|]. split; [done|]. split; [done|]. split; [|done].
  by rewrite Hmap, Hmap0.
Qed.

(** ** What a [webData2] frame does to the per-user maps and the files *)

Lemma countMessage_inl i now w :
  PoolOk w →
  ∃ w1, countMessage i now w = inl w1 ∧ persist w1 = persist w ∧ prices w1 = prices w.
Proof.
  intros [_ Hok]. destruct (conn_get i (connections (client w))) as [c|] eqn:Hc.
  - apply conn_get_Some in Hc as Hc'. destruct Hc' as [<- Hin].
    destruct (Hok c Hin) as [[d Hd] _].
    rewrite (countMessage_run (id c) now w c d Hc Hd). eexists. by split.
  - unfold countMessage. rewrite Hc. eexists. by split.
Qed.

Lemma handleMessage_webData2 i d t w :
  PoolOk w →
  let w' := handleMessage i (JsonValue (Some "webData2") (Some d)) t w in
  let s := processWebData2Message d t
             (saveData (prices w) (dataSaveMode (client w)) (Some d)
                (userData (client w), files w)) in
  userData (client w') = s.1 ∧ files w' = s.2
  ∧ dataSaveMode (client w') = dataSaveMode (client w) ∧ prices w' = prices w.
Proof.
  intros Hok. destruct (countMessage_inl i t w Hok) as (w1 & Hcount & Hp & Hpr).
  unfold persist in Hp.
  pose proof (f_equal (λ x, x.1.1) Hp) as Hm. pose proof (f_equal (λ x, x.1.2) Hp) as Hu.
  pose proof (f_equal snd Hp) as Hf. cbn [fst snd] in Hm, Hu, Hf. clear Hp.
  cbv zeta. unfold handleMessage. rewrite Hcount.
  rewrite bool_decide_eq_true_2 by done.
  set (w2 := withUserFiles _ w1).
  destruct (withUserFiles_proj (saveData (prices w1) (dataSaveMode (client w1)) (Some d)) w1)
    as (Hm2 & Hu2 & Hf2). fold w2 in Hm2, Hu2, Hf2.
  destruct (withUserFiles_proj (processWebData2Message d t) w2) as (Hm3 & Hu3 & Hf3).
  rewrite Hu3, Hf3, Hm3, Hu2, Hf2, Hm2, Hpr, Hm, Hu, Hf.
  rewrite <- surjective_pairing. split; [done|]. split; [done|]. split; [done|].
  unfold withUserFiles. destruct (processWebData2Message _ _ _).
  unfold w2, withUserFiles. by destruct (saveData _ _ _ _).
Qed.

(** The message logs and the historical tracker are out of the reach of
    [processWebData2Message]; it writes no file unless the address is a key
    of the lowest-value files. *)
Lemma processWebData2Message_logs d t ud fs :
  let s := processWebData2Message d t (ud, fs) in
  userExistingData s.1 = userExistingData ud
  ∧ userExistingHistoricalData s.1 = userExistingHistoricalData ud
  ∧ userLowestTotalAccountValues s.1 = userLowestTotalAccountValues ud
  ∧ ((∀ ua, JS.or_null (user d) = Some ua → userLowestValueFiles ud !! ua = None) →
     s.2 = fs ∧ userExistingLowestData s.1 = userExistingLowestData ud).
Proof.
  cbv zeta. unfold processWebData2Message.
  destruct (clearinghouseState d ≫= marginSummary) as [summary|]; [|done].
  destruct (isNewLowest _ _); [|by destruct (isNewHighest _ _)].
  unfold saveLowestValueEvent. cbn [Event.user].
  destruct (JS.or_null (user d)) as [ua|] eqn:Hua;
    [|by destruct (isNewHighest _ _)].
  cbn [userLowestValueFiles set_userLowestAccountValues].
  destruct (userLowestValueFiles ud !! ua) as [path|] eqn:Hpath.
  - assert (∀ P : Prop,
              (∀ ua', Some ua = Some ua' → userLowestValueFiles ud !! ua' = None) → P)
      as Hex.
    { intros P H. specialize (H ua eq_refl). congruence. }
    destruct (push _ _) as [doc|]; [destruct (JS.truthy path)|];
      destruct (isNewHighest _ _); (split; [done|split; [done|split; [done|apply Hex]]]).
  - by destruct (isNewHighest _ _).
Qed.

Lemma createHistoricalDataEntry_None p d :
  formatServerTimeToLocal (serverTime d) = None → createHistoricalDataEntry p d = None.
Proof.
  intros H. unfold createHistoricalDataEntry. rewrite H. by repeat case_match.
Qed.

Lemma findOriginalUserAddress_None ud ua :
  (∀ k, k ∈ userKeys ud → JS.toLowerCase k ≠ JS.toLowerCase ua) →
  findOriginalUserAddress ud ua = None.
Proof.
  intros H. unfold findOriginalUserAddress.
  destruct (find _ _) as [k|] eqn:Hk; [|done].
  apply find_some in Hk as [Hin Heq]. apply String.eqb_eq in Heq.
  apply list_elem_of_In in Hin. by destruct (H k Hin).
Qed.

(** [saveData] stores nothing when the address is not one of the
    configured ones or the time stamp cannot be rendered. *)
Lemma saveData_dropped p mode d s :
  (∀ ua, JS.or_null (user d) = Some ua → findOriginalUserAddress s.1 ua = None)
  ∨ formatServerTimeToLocal (serverTime d) = None →
  saveData p mode (Some d) s = s.
Proof.
  destruct s as [ud fs]. cbn [fst]. intros H. unfold saveData, saveHistoricalData.
  destruct (JS.or_null (user d)) as [ua|]; [|done].
  destruct H as [H|H].
  - rewrite (H ua eq_refl). by destruct (bool_decide _).
  - rewrite (createHistoricalDataEntry_None p d H), H.
    destruct (bool_decide _); by destruct (findOriginalUserAddress ud ua).
Qed.

Lemma usersPart_proj mode u u' :
  usersPart mode u = usersPart mode u' →
  userKeys u = userKeys u'
  ∧ userDataFiles u = userDataFiles u'
  ∧ userLowestValueFiles u = userLowestValueFiles u'
  ∧ (mode = historical → userExistingData u = userExistingData u').
Proof.
  unfold usersPart. intros H.
  pose proof (f_equal (λ x, x.1.1.1.1.1) H) as H1.
  pose proof (f_equal (λ x, x.1.1.1.1.2) H) as H2.
  pose proof (f_equal (λ x, x.1.1.1.2) H) as H3.
  pose proof (f_equal (λ x, x.2) H) as H4.
  cbn [fst snd] in *. split; [done|]. split; [done|]. split; [done|].
  intros Hm. by rewrite !bool_decide_eq_true_2 in H4 by done.
Qed.

(** The per-user maps in a state reached from [main]: the keys are the
    configured accounts; only they have a lowest-value file, and none has in
    historical mode, where the raw message logs stay empty too. *)
Lemma reach_users today accounts saveMode ud :
  usersPart saveMode ud
  = usersPart saveMode (initializeUserData today saveMode accounts emptyUserData) →
  (∀ k, k ∈ userKeys ud ↔ k ∈ accounts)
  ∧ (NoDup accounts → userKeys ud = accounts)
  ∧ (∀ k, is_Some (userLowestValueFiles ud !! k) → k ∈ accounts)
  ∧ (saveMode = historical →
     userLowestValueFiles ud = ∅
     ∧ ∀ k, k ∈ accounts → userExistingData ud !! k = Some (DocArray [])).
Proof.
  intros H. apply usersPart_proj in H as (Hk & _ & Hl & He).
  destruct (initializeUserData_keys today saveMode accounts emptyUserData)
    as (Hkeys & Hnd & Hlow & Hhist & Hin & _).
  fold (initializeUserData today saveMode accounts emptyUserData) in Hkeys, Hnd, Hlow, Hhist, Hin.
  rewrite Hk, Hl. split; [|split; [|split]].
  - intros k. rewrite Hkeys. simpl. rewrite elem_of_nil. tauto.
  - intros Hno. by rewrite Hnd.
  - intros k Hsome. destruct (Hlow k Hsome) as [Hs|Hs]; [|done].
    simpl in Hs. rewrite lookup_empty in Hs. by destruct Hs.
  - intros Hm. split; [by rewrite Hhist|]. intros k Hkin. rewrite (He Hm). by apply Hin.
Qed.

(** X8.  A [webData2] message for an address that matches none of the
    configured accounts, upper and lower case taken as equal, or that names
    no address, is never stored.  In every save mode and every state reached
    from [main]: no file is written, and the message logs, the history and
    the historical tracker in memory stay as they are. *)
Theorem unknown_account_never_written today accounts mode saveMode meta now fs :
  ∃ w0, main today accounts mode saveMode meta now fs = Some w0
    ∧ ∀ events w i d t,
        Forall (wired w0) events → fireAll events w0 = Some w →
        (∀ ua, JS.or_null (user d) = Some ua →
           ∀ k, k ∈ accounts → JS.toLowerCase k ≠ JS.toLowerCase ua) →
        let w' := handleMessage i (JsonValue (Some "webData2") (Some d)) t w in
        files w' = files w
        ∧ userExistingData (userData (client w')) = userExistingData (userData (client w))
        ∧ userExistingLowestData (userData (client w'))
          = userExistingLowestData (userData (client w))
        ∧ userExistingHistoricalData (userData (client w'))
          = userExistingHistoricalData (userData (client w))
        ∧ userLowestTotalAccountValues (userData (client w'))
          = userLowestTotalAccountValues (userData (client w)).
Proof.
  destruct (reach today accounts mode saveMode meta now fs) as (w0 & Hmain & Hreach).
  exists w0. split; [exact Hmain|]. intros events w i d t Hw Hrun Hunknown.
  destruct (Hreach events w Hw Hrun) as (Hok & Hmode & Husers & _).
  destruct (reach_users today accounts saveMode _ Husers) as (Hkeys & _ & Hlow & _).
  destruct (handleMessage_webData2 i d t w Hok) as (Hu & Hf & _).
  cbv zeta. rewrite Hu, Hf.
  rewrite saveData_dropped.
  - destruct (processWebData2Message_logs d t (userData (client w)) (files w))
      as (H1 & H2 & H3 & H4).
    destruct H4 as [H4 H5]; [|done].
    intros ua Hua. destruct (userLowestValueFiles _ !! ua) eqn:Hpath; [|done].
    exfalso. apply (Hunknown ua Hua ua); [|done]. apply Hlow. by rewrite Hpath.
  - left. cbn [fst]. intros ua Hua. apply findOriginalUserAddress_None.
    intros k Hk. apply (Hunknown ua Hua). by apply Hkeys.
Qed.

Lemma sampleAll_files :
  (main "20250110" ["0xabc"] continuous all true 0 ∅ ≫= fireAll sampleOpening)
    ≫= (λ w, Some (map_to_list (files w)))
  = Some [("data/dataFromSubscription/20250110/0xabc-lowestAccountValue.json",
           DocArray [ItemEvent {| Event.timestamp := 20;
                                  Event.accountValue := JS.of_Z 1000;
                                  Event.serverTime := Some 0%Z;
                                  Event.user := Some "0xabc" |}]);
          ("data/dataFromSubscription/20250110/0xabc.json",
           DocArray [ItemRaw false
                       {| user := Some "0xabc"; serverTime := Some 0%Z;
                          clearinghouseState :=
                            Some {| marginSummary :=
                                      Some {| accountValue := Some "1000" |} |};
                          spotState := None; mids := None |} 0])].
Proof. vm_compute. reflexivity. Qed.

Lemma unknown_account_never_written_witness :
  ∃ w0 w, main "20250110" ["0xabc"] continuous all true 0 ∅ = Some w0
    ∧ fireAll sampleOpening w0 = Some w
    ∧ size (files w) = 2
    ∧ files (handleMessage "conn-1" (JsonValue (Some "webData2") (Some strangerUpdate)) 30 w)
      = files w.
Proof.
  destruct (unknown_account_never_written "20250110" ["0xabc"] continuous all true 0 ∅)
    as (w0 & Hmain & Hnever).
  destruct (sampleMain_fireAll all sampleOpening w0 Hmain eq_refl) as (w & Hrun).
  exists w0, w. split; [exact Hmain|]. split; [exact Hrun|]. split.
  - pose proof sampleAll_files as Hfiles. rewrite Hmain in Hfiles.
    cbn [mbind option_bind] in Hfiles. rewrite Hrun in Hfiles.
    cbn [mbind option_bind] in Hfiles. clear Hmain Hrun Hnever.
    injection Hfiles as Hfiles. unfold size, map_size.
    by rewrite map_fold_foldr, Hfiles.
  - apply (Hnever sampleOpening w "conn-1" strangerUpdate 30%Z
             (sampleMain_wired all sampleOpening w0 Hmain eq_refl) Hrun).
    intros ua [= <-] k Hk%list_elem_of_singleton. by subst k.
Defined.



(** ** Status *)

(** X10.  [getDetailedStatus] lists every configured account once, in the
    configured order, under the connection it was assigned to, never as
    "unknown"; in historical mode the message count it reports for an account
    is 0 whatever has been received, since that mode never touches the log the
    count is read from.  This holds in every state reached from [main], for
    accounts given without duplicates. *)
Theorem status_reports_assignment today accounts mode saveMode meta now fs :
  NoDup accounts →
  ∃ w0, main today accounts mode saveMode meta now fs = Some w0
    ∧ ∀ events w, Forall (wired w0) events → fireAll events w0 = Some w →
        map fst (getDetailedStatus (client w)).2 = accounts
        ∧ ∀ p a, accounts !! p = Some a →
            ∃ st, (getDetailedStatus (client w)).2 !! p = Some (a, st)
              ∧ UserStats.connectionId st = connectionIdOf (p / MAX_USERS_PER_CONNECTION)
              ∧ (saveMode = historical → UserStats.messageCount st = Some 0).
Proof.
  intros Hnd.
  destruct (reach today accounts mode saveMode meta now fs) as (w0 & Hmain & Hreach).
  destruct (main_run today accounts mode saveMode meta now fs)
    as (ws & w0' & Hstart & Hmain' & -> & _).
  assert (connectAll ws = w0) as Hw0 by congruence.
  destruct (start_run today accounts mode saveMode meta now fs)
    as (ws' & m & Hstart' & _ & _ & _ & _ & Hmap & _).
  assert (ws' = ws) as -> by congruence.
  exists w0. split; [exact Hmain|]. intros events w Hw Hrun.
  destruct (Hreach events w Hw Hrun) as (_ & _ & Husers & Hmapw & _).
  destruct (reach_users today accounts saveMode _ Husers) as (_ & Hkeys & _ & Hhist).
  specialize (Hkeys Hnd). unfold getDetailedStatus. cbn [snd]. rewrite Hkeys.
  split; [rewrite map_map; apply map_id|].
  intros p a Hp. change (map ?f ?l) with (f <$> l). rewrite list_lookup_fmap, Hp.
  eexists. split; [reflexivity|]. cbn [UserStats.connectionId UserStats.messageCount].
  split.
  - rewrite Hmapw, <- Hw0.
    destruct (quiet_connectAll ws) as [(_ & Hwire & _) _].
    apply wiring_proj in Hwire as (_ & -> & _).
    rewrite (Hmap Hnd p a Hp). reflexivity.
  - intros Hm. destruct (Hhist Hm) as [_ Hlog].
    rewrite Hlog; [done|]. by eapply list_elem_of_lookup_2.
Qed.

Lemma status_reports_assignment_witness :
  ∃ w0 w, main "20250110" ["0xabc"] continuous historical true 0 ∅ = Some w0
    ∧ fireAll sampleOpening w0 = Some w
    ∧ ∃ st, (getDetailedStatus (client w)).2 = [("0xabc", st)]
        ∧ UserStats.connectionId st = "conn-1"
        ∧ UserStats.messageCount st = Some 0.
Proof.
  destruct (status_reports_assignment "20250110" ["0xabc"] continuous historical true 0 ∅)
    as (w0 & Hmain & Hstatus); [apply NoDup_singleton|].
  destruct (sampleMain_fireAll historical sampleOpening w0 Hmain eq_refl) as (w & Hrun).
  destruct (Hstatus sampleOpening w
              (sampleMain_wired historical sampleOpening w0 Hmain eq_refl) Hrun)
    as (Hkeys & Hst).
  destruct (Hst 0 "0xabc" eq_refl) as (st & Hlook & Hconn & Hcount).
  exists w0, w. split; [exact Hmain|]. split; [exact Hrun|]. exists st.
  split; [|split; [exact Hconn|by apply Hcount]].
  clear Hmain Hrun Hstatus Hst.
  destruct ((getDetailedStatus (client w)).2) as [|x [|y l]]; try discriminate.
  simpl in Hlook. by injection Hlook as ->.
Defined.

(** ** The history files in historical mode *)

Lemma steps_PoolOk cfg steps : ∀ w w',
  PoolOk w →
  fold_left (λ acc s, acc ≫= λ w, step cfg w s) steps (Some w) = Some w' →
  PoolOk w'.
Proof.
  induction steps as [|s steps IH]; intros w w' Hok Hrun.
  - simpl in Hrun. by injection Hrun as <-.
  - cbn [fold_left mbind option_bind] in Hrun.
    destruct (step cfg w s) as [w1|] eqn:Hstep.
    + apply (IH w1 w'); [|done]. destruct s as [i frame now|meta now]; simpl in Hstep.
      * injection Hstep as <-. by apply handleMessage_PoolOk.
      * destruct (start_PoolOk (cfg_today cfg) (cfg_accounts cfg) (cfg_mode cfg) historical
                    meta now (files w)) as (w1' & Hstart & Hok1 & _).
        congruence.
    + exfalso. clear -Hrun. induction steps as [|s' steps IH]; [done|]. by apply IH.
Qed.

(** The states of a run: it never fails, the files and the maps in memory
    stay in line, the pool stays well formed. *)
Lemma run_reach cfg meta now steps :
  NoDup (accountFiles cfg) →
  ∃ w, run cfg ∅ meta now steps = Some w ∧ WorldInv cfg w ∧ PoolOk w.
Proof.
  intros Hnd. unfold run.
  destruct (start_Inv cfg meta now ∅) as (w0 & Hstart & _ & Hinv0).
  { by apply accountFiles_NoDup. }
  { intros u Hu. exists []. by rewrite !lookup_empty. }
  rewrite Hstart.
  destruct (steps_Inv cfg steps w0 Hnd Hinv0) as (w & Hrun & Hinv & _).
  exists w. split; [exact Hrun|]. split; [exact Hinv|].
  destruct (start_PoolOk (cfg_today cfg) (cfg_accounts cfg) (cfg_mode cfg) historical
              meta now ∅) as (w0' & Hstart' & Hok0 & _).
  assert (w0' = w0) as -> by congruence.
  by eapply steps_PoolOk.
Qed.

Lemma WorldInv_history cfg w u :
  WorldInv cfg w → u ∈ cfg_accounts cfg →
  userExistingHistoricalData (userData (client w)) !! u
  = Some (DocArray (ItemEntry <$> persistedHistory cfg (files w) u))
  ∧ userLowestTotalAccountValues (userData (client w)) !! u
    = Some (Entry.totalAccountValue <$> persistedLowest cfg (files w) u).
Proof.
  intros [_ [_ Hacc]] Hu. destruct (Hacc u Hu) as [[Hmem Hlow] Hfile].
  destruct (FileOk_lowest cfg (files w) u Hfile) as [_ Hval].
  destruct Hfile as (h & Hh & _).
  rewrite (persistedHistory_FileOk cfg (files w) u h Hh), Hmem, Hh, Hlow, Hval. done.
Qed.

(** X11.  The history of an account is append-only.  For a run in historical
    mode from an empty store, restarts included, for accounts no two of which
    share a file: the run never fails; at its end the history in memory is
    the history on file; and the history on file after any earlier part of
    the run is a prefix of the history at the end. *)
Theorem history_append_only cfg spotMetaPresent now steps :
  NoDup (accountFiles cfg) →
  ∃ w, run cfg ∅ spotMetaPresent now steps = Some w
    ∧ ∀ u, u ∈ cfg_accounts cfg →
        userExistingHistoricalData (userData (client w)) !! u
        = Some (DocArray (ItemEntry <$> persistedHistory cfg (files w) u))
        ∧ ∀ steps1 steps2 w1,
            steps = steps1 ++ steps2 →
            run cfg ∅ spotMetaPresent now steps1 = Some w1 →
            persistedHistory cfg (files w1) u `prefix_of` persistedHistory cfg (files w) u.
Proof.
  intros Hnd.
  destruct (run_reach cfg spotMetaPresent now steps Hnd) as (w & Hrun & Hinv & _).
  exists w. split; [exact Hrun|]. intros u Hu.
  split; [by apply WorldInv_history|].
  intros steps1 steps2 w1 -> Hrun1.
  destruct (run_reach cfg spotMetaPresent now steps1 Hnd) as (w1' & Hrun1' & Hinv1 & _).
  assert (w1' = w1) as -> by congruence.
  unfold run in Hrun. rewrite fold_left_app in Hrun.
  unfold run in Hrun1. rewrite Hrun1 in Hrun.
  destruct (steps_Inv cfg steps2 w1 Hnd Hinv1) as (w' & Hrun2 & _ & Hpre).
  assert (w' = w) as -> by congruence.
  by apply Hpre.
Qed.

Lemma history_append_only_witness :
  ∃ w, run sampleConfig ∅ true 0 sampleSteps = Some w
    ∧ ∀ w1, run sampleConfig ∅ true 0 (take 2 sampleSteps) = Some w1 →
        persistedHistory sampleConfig (files w1) "0xAbC"
          `prefix_of` persistedHistory sampleConfig (files w) "0xAbC".
Proof.
  destruct (history_append_only sampleConfig true 0 sampleSteps) as (w & Hrun & Hall).
  { apply (bool_decide_unpack _). vm_compute. exact I. }
  exists w. split; [exact Hrun|]. intros w1 Hrun1.
  destruct (Hall "0xAbC" (list_elem_of_here _ _)) as [_ Hpre].
  apply (Hpre (take 2 sampleSteps) (drop 2 sampleSteps) w1); [reflexivity|exact Hrun1].
Defined.

(** X12.  A restart loses nothing of the history.  At the end of any run in
    historical mode from an empty store, for accounts no two of which share a
    file, starting the process again succeeds, leaves the files as they are, and
    loads for every account the history and the lowest value the client had
    in memory before. *)
Theorem restart_resumes cfg spotMetaPresent now steps :
  NoDup (accountFiles cfg) →
  ∃ w, run cfg ∅ spotMetaPresent now steps = Some w
    ∧ ∀ spotMetaPresent' now',
        ∃ w', step cfg w (Restart spotMetaPresent' now') = Some w'
          ∧ files w' = files w
          ∧ ∀ u, u ∈ cfg_accounts cfg →
              userExistingHistoricalData (userData (client w')) !! u
              = userExistingHistoricalData (userData (client w)) !! u
              ∧ userLowestTotalAccountValues (userData (client w')) !! u
                = userLowestTotalAccountValues (userData (client w)) !! u.
Proof.
  intros Hnd.
  destruct (run_reach cfg spotMetaPresent now steps Hnd) as (w & Hrun & Hinv & _).
  exists w. split; [exact Hrun|]. intros meta' now'.
  destruct (start_Inv cfg meta' now' (files w)) as (w' & Hstart & Hfiles & Hinv').
  { by apply accountFiles_NoDup. }
  { intros u Hu. by apply Hinv. }
  exists w'. split; [exact Hstart|]. split; [exact Hfiles|].
  intros u Hu.
  destruct (WorldInv_history cfg w u Hinv Hu) as [-> ->].
  destruct (WorldInv_history cfg w' u Hinv' Hu) as [-> ->].
  by rewrite Hfiles.
Qed.

Lemma restart_resumes_witness :
  ∃ w w', run sampleConfig ∅ true 0 sampleSteps = Some w
    ∧ step sampleConfig w (Restart false 9) = Some w'
    ∧ files w' = files w
    ∧ userLowestTotalAccountValues (userData (client w')) !! "0xAbC"
      = userLowestTotalAccountValues (userData (client w)) !! "0xAbC".
Proof.
  destruct (restart_resumes sampleConfig true 0 sampleSteps) as (w & Hrun & Hall).
  { apply (bool_decide_unpack _). vm_compute. exact I. }
  destruct (Hall false 9%Z) as (w' & Hstep & Hfiles & Hmem).
  exists w, w'. split; [exact Hrun|]. split; [exact Hstep|]. split; [exact Hfiles|].
  apply (Hmem "0xAbC" (list_elem_of_here _ _)).
Defined.

(** Accounts that do not share a file are told apart by their lower-case
    form, so the configured account a message address stands for is
    unique. *)
Lemma findOriginalUserAddress_lower cfg ud ua orig :
  NoDup (accountFiles cfg) → userKeys ud = cfg_accounts cfg →
  orig ∈ cfg_accounts cfg → JS.toLowerCase ua = JS.toLowerCase orig →
  findOriginalUserAddress ud ua = Some orig.
Proof.
  intros Hnd Hkeys Horig Hlower. unfold findOriginalUserAddress. rewrite Hkeys.
  destruct (find _ _) as [k|] eqn:Hk.
  - apply find_some in Hk as [Hin Heq]. apply String.eqb_eq in Heq.
    apply list_elem_of_In in Hin. f_equal.
    destruct (decide (k = orig)) as [|Hne]; [done|].
    destruct (accountFiles_distinct (cfg_today cfg) (cfg_accounts cfg) Hnd k orig Hin Horig)
      as [_ Hdist].
    destruct (Hdist Hne) as [Hd _]. exfalso. apply Hd.
    unfold historicalDataPath. by rewrite Heq, Hlower.
  - apply list_elem_of_In in Horig. pose proof (find_none _ _ Hk orig Horig) as Hno.
    apply String.eqb_neq in Hno. by rewrite Hlower in Hno.
Qed.

Lemma saveHistoricalData_files cfg p d ua ud fs orig e :
  NoDup (accountFiles cfg) → Inv cfg ud fs →
  findOriginalUserAddress ud ua = Some orig →
  createHistoricalDataEntry p d = Some e →
  (saveHistoricalData p d ua (ud, fs)).2
  = let fs1 := <[historicalDataPath (cfg_today cfg) orig
                 := DocArray (ItemEntry <$> (persistedHistory cfg fs orig ++ [e]))]> fs in
    if isNewLowest (Entry.totalAccountValue e)
         (Some (Entry.totalAccountValue <$> persistedLowest cfg fs orig))
    then <[historicalLowestPath (cfg_today cfg) orig := DocObject (ItemEntry e)]> fs1
    else fs1.
Proof.
  intros Hnd [(Hkeys & Hnoraw & Hpaths) Hacc] Hfind Hcreate.
  assert (orig ∈ cfg_accounts cfg) as Horig.
  { rewrite <- Hkeys. by eapply findOriginalUserAddress_elem. }
  destruct (Hacc orig Horig) as [[Hmem Hlow] Hfile].
  destruct (Hpaths orig Horig) as [Hhp Hlp].
  destruct (FileOk_lowest cfg fs orig Hfile) as [_ Hval].
  destruct Hfile as (h & Hh & _).
  rewrite (persistedHistory_FileOk cfg fs orig h Hh).
  unfold saveHistoricalData. rewrite Hfind, Hcreate, Hmem, Hh.
  cbn [default from_option Datatypes.id push]. rewrite Hhp, Hlp.
  destruct (path_truthy (cfg_today cfg) orig) as [-> ->].
  cbn [userLowestTotalAccountValues set_userExistingHistoricalData].
  rewrite Hlow, Hval, fmap_app. cbv zeta.
  by destruct (isNewLowest _ _).
Qed.

(** X13.  A value update is appended to the history of the account it is for,
    and to no other.  At the end of any run in historical mode, a [webData2]
    message whose address is, upper and lower case taken as equal, the
    configured account [orig], and for which a snapshot [e] can be made, adds
    exactly [e] at the end of the history file of [orig]; the lowest-value
    file of [orig] becomes [e] when [e] is strictly below the value it held
    (or it held none) and stays otherwise; the files of every other account
    stay as they are. *)
Theorem snapshot_appended cfg spotMetaPresent now steps :
  NoDup (accountFiles cfg) →
  ∃ w, run cfg ∅ spotMetaPresent now steps = Some w
    ∧ ∀ i d t ua orig e,
        JS.or_null (user d) = Some ua →
        orig ∈ cfg_accounts cfg → JS.toLowerCase ua = JS.toLowerCase orig →
        createHistoricalDataEntry (prices w) d = Some e →
        let w' := handleMessage i (JsonValue (Some "webData2") (Some d)) t w in
        persistedHistory cfg (files w') orig = persistedHistory cfg (files w) orig ++ [e]
        ∧ persistedLowest cfg (files w') orig
          = (if isNewLowest (Entry.totalAccountValue e)
                  (Some (Entry.totalAccountValue <$> persistedLowest cfg (files w) orig))
             then Some e else persistedLowest cfg (files w) orig)
        ∧ ∀ u, u ∈ cfg_accounts cfg → u ≠ orig →
            persistedHistory cfg (files w') u = persistedHistory cfg (files w) u
            ∧ persistedLowest cfg (files w') u = persistedLowest cfg (files w) u.
Proof.
  intros Hnd.
  destruct (run_reach cfg spotMetaPresent now steps Hnd) as (w & Hrun & [Hmode Hinv] & Hok).
  exists w. split; [exact Hrun|]. intros i d t ua orig e Hua Horig Hlower Hcreate.
  destruct (handleMessage_webData2 i d t w Hok) as (_ & Hf & _).
  cbv zeta. rewrite Hf, Hmode. clear Hf.
  pose proof Hinv as [(Hkeys & Hnoraw & _) _].
  pose proof (findOriginalUserAddress_lower cfg _ ua orig Hnd Hkeys Horig Hlower) as Hfind.
  assert (saveData (prices w) historical (Some d) (userData (client w), files w)
          = saveHistoricalData (prices w) d ua (userData (client w), files w)) as ->.
  { unfold saveData. by rewrite Hua. }
  pose proof (saveHistoricalData_files cfg (prices w) d ua _ _ orig e Hnd Hinv Hfind Hcreate)
    as Hfiles.
  destruct (saveHistoricalData_Inv cfg (prices w) d ua _ _ Hnd Hinv) as [[(_ & Hnoraw' & _) _] _].
  destruct (saveHistoricalData (prices w) d ua (userData (client w), files w))
    as [ud1 fs1] eqn:Hsave.
  cbn [fst snd] in Hfiles, Hnoraw'.
  destruct (processWebData2Message_histPart d t ud1 fs1 Hnoraw') as [_ ->].
  rewrite Hfiles. clear Hfiles Hsave.
  pose proof (accountFiles_distinct (cfg_today cfg) (cfg_accounts cfg) Hnd) as Hdist.
  assert (historicalDataPath (cfg_today cfg) orig ≠ historicalLowestPath (cfg_today cfg) orig)
    as Hne by (by apply Hdist).
  cbv zeta. unfold persistedHistory, persistedLowest.
  split; [|split].
  - destruct (isNewLowest _ _).
    + rewrite lookup_insert_ne by (by apply not_eq_sym). rewrite lookup_insert_eq.
      apply omap_entries.
    + rewrite lookup_insert_eq. apply omap_entries.
  - destruct (isNewLowest _ _).
    + by rewrite lookup_insert_eq.
    + by rewrite lookup_insert_ne by done.
  - intros u Hu Hneq.
    destruct (Hdist u orig Hu Horig) as [H1 H2]. destruct (H2 Hneq) as [H3 H4].
    destruct (Hdist orig u Horig Hu) as [H5 _].
    destruct (isNewLowest _ _);
      rewrite ?lookup_insert_ne by (by apply not_eq_sym); done.
Qed.

Lemma sampleRun_prices :
  latestPrices ∘ prices <$> run sampleConfig ∅ true 0 sampleSteps = Some ∅.
Proof. vm_compute. reflexivity. Qed.

Lemma snapshot_appended_witness :
  ∃ w, run sampleConfig ∅ true 0 sampleSteps = Some w
    ∧ persistedHistory sampleConfig
        (files (handleMessage "conn-1" (valueUpdate "800") 5 w)) "0xAbC"
      = persistedHistory sampleConfig (files w) "0xAbC" ++ [sampleEntry "800"].
Proof.
  destruct (snapshot_appended sampleConfig true 0 sampleSteps) as (w & Hrun & Hall).
  { apply (bool_decide_unpack _). vm_compute. exact I. }
  exists w. split; [exact Hrun|].
  apply (Hall "conn-1" _ 5%Z "0xabc" "0xAbC" (sampleEntry "800")).
  - reflexivity.
  - apply list_elem_of_here.
  - reflexivity.
  - pose proof sampleRun_prices as Hp. rewrite Hrun in Hp. clear Hrun Hall.
    injection Hp as Hp. unfold createHistoricalDataEntry. rewrite Hp. reflexivity.
Defined.

(** ** The two valuations side by side *)

Lemma gt_le_false a b : JS.gt a b = true → JS.le a b = false.
Proof.
  destruct a as [|x], b as [|y]; simpl; try done.
  intros H. by apply negb_true_iff in H.
Qed.

Lemma positive_total balance :
  positive balance →
  JS.parseFloat_opt (total balance) = JS.parseFloat (JS.or_else (total balance) "0").
Proof.
  unfold positive. destruct (total balance) as [[|c s]|]; simpl; [|done|];
    intros H; vm_compute in H; discriminate.
Qed.

Lemma addCurrentValue_fallback p totalValue pricesUsed balance :
  positive balance →
  (coin balance ≠ "USDC" → getSpotTokenPrice p (coin balance) = None) →
  addCurrentValue p (totalValue, pricesUsed) balance
  = (addEntryValue totalValue balance, recordEntryPrice pricesUsed balance).
Proof.
  intros Hpos Hprice. unfold addCurrentValue, addEntryValue, recordEntryPrice.
  rewrite (gt_le_false _ _ Hpos). unfold positive in Hpos. rewrite Hpos.
  destruct (String.eqb_spec (coin balance) "USDC") as [Heq|Hne].
  - by rewrite positive_total.
  - by rewrite (Hprice Hne).
Qed.

(** X14.  With no price to be had for any asset held, the current-price
    valuation is the entry-notional valuation.  For balances that all have a
    quantity above zero, none but USDC with a price in the cache (alias
    resolved): [calculateTotalAccountValueWithCurrentPrices] returns the
    total of [calculateTotalAccountValue] and records the prices the
    entry-notional path of [createHistoricalDataEntry] records. *)
Theorem current_price_valuation_falls_back p clearinghouseValue spotBalances :
  (∀ balance, balance ∈ spotBalances →
     positive balance
     ∧ (coin balance ≠ "USDC" → getSpotTokenPrice p (coin balance) = None)) →
  calculateTotalAccountValueWithCurrentPrices p clearinghouseValue spotBalances
  = (calculateTotalAccountValue clearinghouseValue spotBalances,
     fold_left recordEntryPrice spotBalances ∅).
Proof.
  unfold calculateTotalAccountValueWithCurrentPrices, calculateTotalAccountValue.
  generalize (JS.parseFloat clearinghouseValue) as totalValue.
  generalize (∅ : gmap string string) as pricesUsed.
  induction spotBalances as [|balance l IH]; intros pricesUsed totalValue Hall; [done|].
  cbn [fold_left]. destruct (Hall balance) as [Hpos Hprice]; [by left|].
  rewrite addCurrentValue_fallback by done. apply IH.
  intros b Hb. apply Hall. by right.
Qed.

Lemma current_price_valuation_falls_back_witness :
  calculateTotalAccountValueWithCurrentPrices btcOnly "1000.00" [usdc50; usol2]
  = (JS.of_Z 1240, <["USOL" := "entryNtl:190"]> (<["USDC" := "1.00"]> ∅)).
Proof.
  rewrite (current_price_valuation_falls_back btcOnly "1000.00" [usdc50; usol2]).
  - reflexivity.
  - intros balance Hb.
    apply elem_of_cons in Hb as [->|Hb];
      [|apply list_elem_of_singleton in Hb as ->]; split; try reflexivity; done.
Defined.

(** ** The price cache across events *)

Lemma handleMessage_allMids i d t w :
  PoolOk w →
  let w' := handleMessage i (JsonValue (Some "allMids") (Some d)) t w in
  files w' = files w ∧ userData (client w') = userData (client w)
  ∧ if bool_decide (allMidsUpdateInterval ≤ t - lastAllMidsUpdate (client w))%Z
    then prices w' = updatePriceData d (prices w) ∧ lastAllMidsUpdate (client w') = t
    else prices w' = prices w
         ∧ lastAllMidsUpdate (client w') = lastAllMidsUpdate (client w).
Proof.
  intros [_ Hok].
  assert (∃ w1, countMessage i t w = inl w1
            ∧ files w1 = files w ∧ userData (client w1) = userData (client w)
            ∧ prices w1 = prices w
            ∧ lastAllMidsUpdate (client w1) = lastAllMidsUpdate (client w))
    as (w1 & Hcount & Hf & Hu & Hp & Hl).
  { destruct (conn_get i (connections (client w))) as [c|] eqn:Hc.
    - apply conn_get_Some in Hc as Hc'. destruct Hc' as [<- Hin].
      destruct (Hok c Hin) as [[dt Hd] _].
      rewrite (countMessage_run (id c) t w c dt Hc Hd). eexists. by split.
    - unfold countMessage. rewrite Hc. eexists. by split. }
  cbv zeta. unfold handleMessage. rewrite Hcount.
  rewrite bool_decide_eq_false_2 by done. rewrite bool_decide_eq_true_2 by done.
  unfold processAllMidsMessage. rewrite Hl.
  case_bool_decide; simpl; rewrite ?Hf, ?Hu, ?Hp, ?Hl; done.
Qed.

(** X15.  Price updates are throttled to one in five seconds.  In every state
    reached from [main], an [allMids] message that arrives less than
    [allMidsUpdateInterval] ms after the last update that was applied changes
    neither the prices nor the time of the last update; one that arrives
    later overwrites the price of every coin it quotes, keeps the others, and
    becomes the last update, so that any further message within the next five
    seconds is dropped in turn.  No [allMids] message touches the files or
    the per-user maps. *)
Theorem price_updates_throttled today accounts mode saveMode meta now fs :
  ∃ w0, main today accounts mode saveMode meta now fs = Some w0
    ∧ ∀ events w i d t,
        Forall (wired w0) events → fireAll events w0 = Some w →
        let w' := handleMessage i (JsonValue (Some "allMids") (Some d)) t w in
        files w' = files w ∧ userData (client w') = userData (client w)
        ∧ ((t - lastAllMidsUpdate (client w) < allMidsUpdateInterval)%Z →
           prices w' = prices w
           ∧ lastAllMidsUpdate (client w') = lastAllMidsUpdate (client w))
        ∧ ((allMidsUpdateInterval ≤ t - lastAllMidsUpdate (client w))%Z →
           prices w' = updatePriceData d (prices w)
           ∧ (∀ m coin, mids d = Some m →
                latestPrices (prices w') !! coin
                = match m !! coin with
                  | Some price => Some price
                  | None => latestPrices (prices w) !! coin
                  end)
           ∧ lastAllMidsUpdate (client w') = t
           ∧ ∀ j d2 t2, (t2 - t < allMidsUpdateInterval)%Z →
               prices (handleMessage j (JsonValue (Some "allMids") (Some d2)) t2 w')
               = prices w').
Proof.
  destruct (reach today accounts mode saveMode meta now fs) as (w0 & Hmain & Hreach).
  exists w0. split; [exact Hmain|]. intros events w i d t Hw Hrun.
  destruct (Hreach events w Hw Hrun) as (Hok & _).
  destruct (handleMessage_allMids i d t w Hok) as (Hf & Hu & Hp).
  cbv zeta. split; [exact Hf|]. split; [exact Hu|]. split.
  - intros Hlt. by rewrite bool_decide_eq_false_2 in Hp by lia.
  - intros Hge. rewrite bool_decide_eq_true_2 in Hp by done. destruct Hp as [Hp Hl].
    split; [exact Hp|]. split; [|split; [exact Hl|]].
    + intros m coin Hm. rewrite Hp. unfold updatePriceData. rewrite Hm. simpl.
      rewrite lookup_union. by destruct (m !! coin), (latestPrices (prices w) !! coin).
    + intros j d2 t2 Hlt.
      destruct (handleMessage_allMids j d2 t2 _
                  (handleMessage_PoolOk i (JsonValue (Some "allMids") (Some d)) t w Hok))
        as (_ & _ & Hp2).
      rewrite Hl in Hp2. rewrite bool_decide_eq_false_2 in Hp2 by lia. by destruct Hp2.
Qed.

Lemma sampleThrottle :
  (main "20250110" ["0xabc"] continuous historical true 0 ∅ ≫= fireAll sampleOpening)
    ≫= (λ w, Some (lastAllMidsUpdate (client w)))
  = Some 0%Z.
Proof. vm_compute. reflexivity. Qed.

Lemma price_updates_throttled_witness :
  ∃ w0 w, main "20250110" ["0xabc"] continuous historical true 0 ∅ = Some w0
    ∧ fireAll sampleOpening w0 = Some w
    ∧ let w1 := handleMessage "conn-1" (JsonValue (Some "allMids") (Some (midsAt "100")))
                  6000 w in
      latestPrices (prices w1) !! "SOL" = Some "100"
      ∧ prices (handleMessage "conn-1" (JsonValue (Some "allMids") (Some (midsAt "101")))
                  7000 w1)
        = prices w1.
Proof.
  destruct (price_updates_throttled "20250110" ["0xabc"] continuous historical true 0 ∅)
    as (w0 & Hmain & Hthrottle).
  destruct (sampleMain_fireAll historical sampleOpening w0 Hmain eq_refl) as (w & Hrun).
  exists w0, w. split; [exact Hmain|]. split; [exact Hrun|].
  destruct (Hthrottle sampleOpening w "conn-1" (midsAt "100") 6000%Z
              (sampleMain_wired historical sampleOpening w0 Hmain eq_refl) Hrun)
    as (_ & _ & _ & Hlate).
  pose proof sampleThrottle as Hlast. rewrite Hmain in Hlast.
  cbn [mbind option_bind] in Hlast. rewrite Hrun in Hlast.
  cbn [mbind option_bind] in Hlast. clear Hmain Hrun Hthrottle.
  injection Hlast as Hlast. rewrite Hlast in Hlate.
  destruct Hlate as (_ & Hcoin & _ & Hnext); [unfold allMidsUpdateInterval; lia|].
  cbv zeta. split.
  - rewrite (Hcoin {["SOL" := "100"]} "SOL" eq_refl). reflexivity.
  - apply Hnext. unfold allMidsUpdateInterval. lia.
Defined.

Lemma fireAll_app events1 events2 w :
  fireAll (events1 ++ events2) w = fireAll events1 w ≫= fireAll events2.
Proof.
  unfold fireAll. rewrite fold_left_app.
  destruct (fold_left _ events1 (Some w)) as [w1|]; [done|].
  simpl. induction events2 as [|e events2 IH]; [done|]. exact IH.
Qed.

Lemma start_prices today accounts mode saveMode meta now fs w :
  start today accounts mode saveMode meta now fs = Some w →
  prices w = {| latestPrices := ∅; tokenToAllMidsMapping := initializeTokenMapping meta |}.
Proof.
  unfold start. destruct (newClient _ _ _ _ _ _) as [c|]; [|done].
  simpl. by intros [= <-].
Qed.

(** X16.  The price cache never forgets, and the alias table never changes.
    From [main] on, whatever the events: the alias table is the one
    [initializeTokenMapping] built; a coin that has a price keeps having one;
    and once the cache holds any price at all, every snapshot made later in
    the life of the process is flagged "currentPrices". *)
Theorem price_cache_only_grows today accounts mode saveMode meta now fs :
  ∃ w0, main today accounts mode saveMode meta now fs = Some w0
    ∧ ∀ events1 events2 w1 w2,
        Forall (wired w0) (events1 ++ events2) →
        fireAll events1 w0 = Some w1 →
        fireAll (events1 ++ events2) w0 = Some w2 →
        tokenToAllMidsMapping (prices w2) = initializeTokenMapping meta
        ∧ (∀ coin, is_Some (latestPrices (prices w1) !! coin) →
             is_Some (latestPrices (prices w2) !! coin))
        ∧ (latestPrices (prices w1) ≠ ∅ →
           ∀ d e, createHistoricalDataEntry (prices w2) d = Some e →
             Entry.priceSource e = "currentPrices").
Proof.
  destruct (main_run today accounts mode saveMode meta now fs)
    as (ws & w0 & Hstart & Hmain & _ & [(_ & _ & _ & Hgrow0) _] & Hok & Hcnt & _).
  pose proof (start_prices _ _ _ _ _ _ _ _ Hstart) as Hp0.
  exists w0. split; [exact Hmain|]. intros events1 events2 w1 w2 Hw Hrun1 Hrun2.
  apply Forall_app in Hw as [Hw1 Hw2].
  destruct (fireAll_run events1 w0 Hok Hcnt Hw1)
    as (w1' & Hrun1' & Hf1 & Hok1 & Hcnt1 & _).
  assert (w1' = w1) as -> by congruence.
  rewrite fireAll_app, Hrun1 in Hrun2. cbn [mbind option_bind] in Hrun2.
  destruct (fireAll_run events2 w1 Hok1 Hcnt1) as (w2' & Hrun2' & Hf2 & _).
  { eapply Forall_impl; [exact Hw2|]. intros e. by apply wired_follows. }
  assert (w2' = w2) as -> by congruence.
  destruct Hf1 as (_ & _ & _ & [Ha1 _]). destruct Hf2 as (_ & _ & _ & [Ha2 Hg2]).
  destruct Hgrow0 as [Ha0 _].
  split; [|split; [exact Hg2|]].
  - by rewrite Ha2, Ha1, Ha0, Hp0.
  - intros Hne d e Hcreate. rewrite (priceSource_rule _ _ _ Hcreate).
    rewrite bool_decide_eq_false_2; [done|].
    intros Hempty. apply map_choose in Hne as (coin & price & Hcoin).
    destruct (Hg2 coin) as [price' Hcoin']; [by exists price|].
    rewrite Hempty, lookup_empty in Hcoin'. done.
Qed.

Lemma samplePriced_prices :
  (main "20250110" ["0xabc"] continuous historical true 0 ∅ ≫= fireAll samplePriced)
    ≫= (λ w, Some (latestPrices (prices w) !! "SOL"))
  = Some (Some "100").
Proof. vm_compute. reflexivity. Qed.

Lemma price_cache_only_grows_witness :
  ∃ w0 w1 w2,
    main "20250110" ["0xabc"] continuous historical true 0 ∅ = Some w0
    ∧ fireAll samplePriced w0 = Some w1
    ∧ fireAll (samplePriced ++ [Closed "conn-1" 7000]) w0 = Some w2
    ∧ is_Some (latestPrices (prices w2) !! "SOL").
Proof.
  destruct (price_cache_only_grows "20250110" ["0xabc"] continuous historical true 0 ∅)
    as (w0 & Hmain & Hgrows).
  destruct (sampleMain_fireAll historical samplePriced w0 Hmain eq_refl) as (w1 & Hrun1).
  destruct (sampleMain_fireAll historical (samplePriced ++ [Closed "conn-1" 7000])
              w0 Hmain eq_refl) as (w2 & Hrun2).
  exists w0, w1, w2. split; [exact Hmain|]. split; [exact Hrun1|]. split; [exact Hrun2|].
  destruct (Hgrows samplePriced [Closed "conn-1" 7000] w1 w2
              (sampleMain_wired historical (samplePriced ++ [Closed "conn-1" 7000])
                 w0 Hmain eq_refl) Hrun1 Hrun2)
    as (_ & Hkeeps & _).
  apply Hkeeps.
  pose proof samplePriced_prices as Hp. rewrite Hmain in Hp.
  cbn [mbind option_bind] in Hp. rewrite Hrun1 in Hp.
  cbn [mbind option_bind] in Hp. clear Hmain Hrun1 Hrun2 Hgrows Hkeeps.
  injection Hp as ->. by eexists.
Defined.

(** ** The raw save modes *)

Lemma setStatus_persist v i w w' :
  setStatus v i w = Some w' → persist w' = persist w ∧ prices w' = prices w.
Proof. unfold setStatus. destruct (details_of i w); [|done]. by intros [= <-]. Qed.

Lemma handleReconnect_persist i w w' :
  handleReconnect i w = Some w' → persist w' = persist w ∧ prices w' = prices w.
Proof.
  unfold handleReconnect. destruct (conn_get _ _); [|by intros [= <-]].
  case_bool_decide; [|apply setStatus_persist].
  destruct (setStatus _ _ _) as [w2|] eqn:Hs; [|done]. intros [= <-].
  by apply setStatus_persist in Hs.
Qed.

Lemma onOpen_persist i now w w' :
  onOpen i now w = Some w' → persist w' = persist w ∧ prices w' = prices w.
Proof.
  unfold onOpen. destruct (setStatus _ _ _) as [w2|] eqn:Hs; [|done]. intros [= <-].
  apply setStatus_persist in Hs as [Hp Hpr]. unfold persist.
  by rewrite client_setupSubscriptions, prices_setupSubscriptions,
    files_setupSubscriptions.
Qed.

Lemma onClose_persist i now w w' :
  onClose i now w = Some w' → persist w' = persist w ∧ prices w' = prices w.
Proof.
  unfold onClose. destruct (setStatus _ _ _) as [w2|] eqn:Hs; [|done].
  apply setStatus_persist in Hs as [Hp Hpr]. cbn [mbind option_bind].
  case_bool_decide.
  - intros Hr. apply handleReconnect_persist in Hr as [-> ->]. by rewrite Hp, Hpr.
  - intros [= <-]. by rewrite Hp, Hpr.
Qed.

Lemma checkConnection_persist now i w w' :
  checkConnection now i w = Some w' → persist w' = persist w ∧ prices w' = prices w.
Proof.
  unfold checkConnection. destruct (conn_get _ _); [|by intros [= <-]].
  destruct (_ && _); [|by intros [= <-]].
  destruct (bool_decide _); [|by intros [= <-]].
  intros Hr. by apply handleReconnect_persist in Hr as [-> ->].
Qed.

Lemma healthLoop_persist now ids : ∀ w w',
  fold_left (λ acc j, acc ≫= checkConnection now j) ids (Some w) = Some w' →
  persist w' = persist w ∧ prices w' = prices w.
Proof.
  induction ids as [|i ids IH]; intros w w' Hrun.
  - simpl in Hrun. by injection Hrun as <-.
  - cbn [fold_left mbind option_bind] in Hrun.
    destruct (checkConnection now i w) as [w1|] eqn:Hc.
    + apply checkConnection_persist in Hc as [<- <-]. by apply IH.
    + exfalso. clear -Hrun. induction ids as [|j ids IH]; [done|]. by apply IH.
Qed.

Lemma fire_persist w e w' :
  noFrame e → fire w e = Some w' → persist w' = persist w ∧ prices w' = prices w.
Proof.
  destruct e as [i now|i now|i|i frame now|k|now|now]; simpl; intros Hno Hrun; try done.
  - by apply onOpen_persist in Hrun.
  - by apply onClose_persist in Hrun.
  - by injection Hrun as <-.
  - injection Hrun as <-. unfold fireTimer. destruct (timers w !! k) as [[delay i]|]; [|done].
    unfold connectSingle. by case_match.
  - unfold performHealthCheck in Hrun.
    destruct (fold_left _ _ _) as [w1|] eqn:Hfold; [|done].
    apply healthLoop_persist in Hfold as [Hp Hpr]. by injection Hrun as <-.
  - injection Hrun as <-. unfold disconnect.
    set (w1 := match healthCheckInterval (client w) with
               | Some handle => _ | None => w end).
    assert (persist w1 = persist w ∧ prices w1 = prices w) as [Hp Hpr]
      by (unfold w1; by destruct (healthCheckInterval (client w))).
    destruct (fold_left _ _ _) as [conns open]. by rewrite <- Hp, <- Hpr.
Qed.

Global Arguments dataPath : simpl never.
Global Arguments lowestValuePath : simpl never.

Lemma rawPath_truthy today u :
  JS.truthy (dataPath today u) = true ∧ JS.truthy (lowestValuePath today u) = true.
Proof. split; reflexivity. Qed.

Lemma rawFiles_distinct today l :
  NoDup (rawFiles today l) →
  ∀ u v, u ∈ l → v ∈ l →
    dataPath today u ≠ lowestValuePath today v
    ∧ (u ≠ v → dataPath today u ≠ dataPath today v
               ∧ lowestValuePath today u ≠ lowestValuePath today v).
Proof.
  unfold rawFiles.
  induction l as [|x l IH]; intros Hnd u v Hu Hv; [by apply elem_of_nil in Hu|].
  cbn [flat_map app] in Hnd.
  apply NoDup_cons in Hnd as [Hx1 Hnd]. apply NoDup_cons in Hnd as [Hx2 Hnd].
  assert (∀ w, w ∈ l →
            dataPath today w ∈ flat_map (λ u, [dataPath today u; lowestValuePath today u]) l
            ∧ lowestValuePath today w
              ∈ flat_map (λ u, [dataPath today u; lowestValuePath today u]) l) as Hin.
  { intros w Hw. split; apply list_elem_of_In, in_flat_map; exists w;
      (split; [by apply list_elem_of_In|]); simpl; auto. }
  apply not_elem_of_cons in Hx1 as [Hx1 Hx1'].
  apply elem_of_cons in Hu as [->|Hu]; apply elem_of_cons in Hv as [->|Hv].
  - split; [done|]. by intros [].
  - split; [intros E; apply Hx1'; rewrite E; by apply Hin|].
    intros _. split; intros E; [apply Hx1'|apply Hx2]; rewrite E; by apply Hin.
  - split; [intros E; apply Hx2; rewrite <- E; by apply Hin|].
    intros _. split; intros E; [apply Hx1'|apply Hx2]; rewrite <- E; by apply Hin.
  - by apply IH.
Qed.

Lemma rawFiles_NoDup today l : NoDup (rawFiles today l) → NoDup l.
Proof.
  unfold rawFiles. induction l as [|x l IH]; intros Hnd; [constructor|].
  cbn [flat_map app] in Hnd.
  apply NoDup_cons in Hnd as [Hx Hnd]. apply NoDup_cons in Hnd as [_ Hnd].
  apply NoDup_cons. split; [|by apply IH].
  intros Hin. apply Hx. right. apply list_elem_of_In, in_flat_map.
  exists x. split; [by apply list_elem_of_In|by left].
Qed.

Lemma initializeUserData_raw today mode l :
  mode ≠ historical →
  ∀ k, k ∈ l →
    let ud := initializeUserData today mode l emptyUserData in
    userDataFiles ud !! k = Some (dataPath today k)
    ∧ userLowestValueFiles ud !! k = Some (lowestValuePath today k)
    ∧ userExistingData ud !! k = Some (DocArray [])
    ∧ userExistingLowestData ud !! k = Some (DocArray [])
    ∧ userLowestAccountValues ud !! Some k = Some None
    ∧ userHighestAccountValues ud !! Some k = Some None.
Proof.
  intros Hm. unfold initializeUserData.
  induction l as [|x l IH] using rev_ind; intros k Hk; [by apply elem_of_nil in Hk|].
  rewrite fold_left_app. cbn [fold_left].
  set (ud := fold_left (initializeUser today mode) l emptyUserData) in *.
  cbv zeta. unfold initializeUser. rewrite bool_decide_eq_false_2 by done.
  cbn [userDataFiles userLowestValueFiles userExistingData userExistingLowestData
       userLowestAccountValues userHighestAccountValues].
  destruct (decide (k = x)) as [->|Hne].
  - by rewrite !lookup_insert_eq.
  - rewrite !lookup_insert_ne by congruence.
    apply IH. apply elem_of_app in Hk as [Hk|Hk]; [done|].
    apply list_elem_of_singleton in Hk. congruence.
Qed.

Lemma loadExistingData_empty mode ud : loadExistingData mode ∅ ud = ud.
Proof.
  unfold loadExistingData. generalize (userKeys ud) as l. intros l.
  induction l as [|u l IH]; [done|]. cbn [fold_left].
  assert (loadUser mode ∅ ud u = ud) as Hu; [|by rewrite Hu].
  unfold loadUser.
  assert (∀ x : option string, x ≫= ((∅ : gmap string Doc) !!.) = None) as Hnone.
  { intros [x|]; [|done]. simpl. apply lookup_empty. }
  rewrite !Hnone. simpl. by destruct (bool_decide _).
Qed.

Lemma start_RawInv today accounts mode saveMode meta now w :
  saveMode ≠ historical → NoDup accounts →
  start today accounts mode saveMode meta now ∅ = Some w →
  RawInv today accounts (userData (client w)) (files w)
  ∧ dataSaveMode (client w) = saveMode.
Proof.
  intros Hm Hnd Hstart.
  destruct (start_run today accounts mode saveMode meta now ∅)
    as (w' & m & Hstart' & _ & _ & _ & _ & _ & _ & Hsave & _ & _ & _ & _ & _ & Hud & Hfs & _).
  assert (w' = w) as -> by congruence.
  split; [|done]. rewrite Hud, Hfs, loadExistingData_empty.
  destruct (reach_users today accounts saveMode
              (initializeUserData today saveMode accounts emptyUserData) eq_refl)
    as (_ & Hkeys & Hlow & _).
  split; [by apply Hkeys|]. split; [exact Hlow|].
  intros u Hu.
  destruct (initializeUserData_raw today saveMode accounts Hm u Hu)
    as (H1 & H2 & H3 & H4 & H5 & H6).
  split; [done|]. split; [done|]. split.
  - exists []. by rewrite lookup_empty.
  - exists []. rewrite lookup_empty. repeat split; done.
Qed.

Lemma findOriginalUserAddress_raw today accounts ud ua orig :
  NoDup (rawFiles today accounts) → userKeys ud = accounts →
  orig ∈ accounts → JS.toLowerCase ua = JS.toLowerCase orig →
  findOriginalUserAddress ud ua = Some orig.
Proof.
  intros Hnd Hkeys Horig Hlower. unfold findOriginalUserAddress. rewrite Hkeys.
  destruct (find _ _) as [k|] eqn:Hk.
  - apply find_some in Hk as [Hin Heq]. apply String.eqb_eq in Heq.
    apply list_elem_of_In in Hin. f_equal.
    destruct (decide (k = orig)) as [|Hne]; [done|].
    destruct (rawFiles_distinct today accounts Hnd k orig Hin Horig) as [_ Hdist].
    destruct (Hdist Hne) as [Hd _]. exfalso. apply Hd.
    unfold dataPath. by rewrite Heq, Hlower.
  - apply list_elem_of_In in Horig. pose proof (find_none _ _ Hk orig Horig) as Hno.
    apply String.eqb_neq in Hno. by rewrite Hlower in Hno.
Qed.

Lemma saveData_raw_eq p mode d ud fs ua orig localTime path log :
  mode ≠ historical →
  JS.or_null (user d) = Some ua →
  findOriginalUserAddress ud ua = Some orig →
  formatServerTimeToLocal (serverTime d) = Some localTime →
  userDataFiles ud !! orig = Some path → JS.truthy path = true →
  userExistingData ud !! orig = Some (DocArray log) →
  saveData p mode (Some d) (ud, fs)
  = (set_userExistingData
       (<[orig := DocArray (log ++ [rawRecord mode d localTime])]> (userExistingData ud)) ud,
     <[path := DocArray (log ++ [rawRecord mode d localTime])]> fs).
Proof.
  intros Hm Hua Hfind Htime Hpath Htruthy Hlog. unfold saveData.
  rewrite Hua, bool_decide_eq_false_2 by done.
  rewrite Hfind, Htime, Hpath, Hlog. simpl. by rewrite Htruthy.
Qed.

Lemma LogOk_frame today ud fs ud' fs' u :
  LogOk today ud fs u →
  userExistingData ud' !! u = userExistingData ud !! u →
  fs' !! dataPath today u = fs !! dataPath today u →
  LogOk today ud' fs' u.
Proof. intros (log & H1 & H2) E1 E2. exists log. by rewrite E1, E2. Qed.

Lemma EventsOk_frame today ud fs ud' fs' u :
  EventsOk today ud fs u →
  userExistingLowestData ud' !! u = userExistingLowestData ud !! u →
  fs' !! lowestValuePath today u = fs !! lowestValuePath today u →
  (u ≠ "" → userLowestAccountValues ud' !! Some u = userLowestAccountValues ud !! Some u) →
  EventsOk today ud' fs' u.
Proof.
  intros (events & H1 & H2 & H3 & H4 & H5) E1 E2 E3. exists events.
  rewrite E1, E2. repeat split; try done. intros Hu. rewrite E3 by done. by apply H5.
Qed.

(** [saveData] in a raw mode appends the record to the log of the account
    the address stands for, in memory and on file, and touches nothing
    else. *)
Lemma saveData_RawInv today accounts p mode d ud fs :
  mode ≠ historical → NoDup (rawFiles today accounts) →
  RawInv today accounts ud fs →
  RawInv today accounts (saveData p mode (Some d) (ud, fs)).1
    (saveData p mode (Some d) (ud, fs)).2
  ∧ (∀ ua orig localTime log,
      JS.or_null (user d) = Some ua →
      orig ∈ accounts → JS.toLowerCase ua = JS.toLowerCase orig →
      formatServerTimeToLocal (serverTime d) = Some localTime →
      userExistingData ud !! orig = Some (DocArray log) →
      (saveData p mode (Some d) (ud, fs)).2 !! dataPath today orig
      = Some (DocArray (log ++ [rawRecord mode d localTime]))
      ∧ userExistingData (saveData p mode (Some d) (ud, fs)).1 !! orig
        = Some (DocArray (log ++ [rawRecord mode d localTime])))
  ∧ ∀ u, u ∈ accounts →
      (saveData p mode (Some d) (ud, fs)).2 !! lowestValuePath today u
      = fs !! lowestValuePath today u.
Proof.
  intros Hm Hnd Hinv. pose proof Hinv as (Hkeys & Hdom & Hacc).
  destruct (JS.or_null (user d)) as [ua|] eqn:Hua.
  2:{ rewrite saveData_dropped by (left; intros ua; by rewrite Hua). done. }
  destruct (findOriginalUserAddress ud ua) as [orig|] eqn:Hfind.
  2:{ rewrite saveData_dropped by (left; intros ua'; rewrite Hua; by intros [= <-]).
      split; [done|]. split; [|done]. intros ua' orig lt log [= <-] Horig Hlower.
      by rewrite (findOriginalUserAddress_raw today accounts ud ua orig) in Hfind. }
  destruct (formatServerTimeToLocal (serverTime d)) as [lt|] eqn:Htime.
  2:{ rewrite saveData_dropped by (by right). done. }
  assert (orig ∈ accounts) as Horig.
  { rewrite <- Hkeys. by eapply findOriginalUserAddress_elem. }
  destruct (Hacc orig Horig) as (Hpath & Hlpath & (log & Hlog & Hfile) & Hevents).
  destruct (rawPath_truthy today orig) as [Htruthy _].
  rewrite (saveData_raw_eq p mode d ud fs ua orig lt _ log Hm Hua Hfind Htime Hpath
             Htruthy Hlog).
  cbn [fst snd].
  pose proof (rawFiles_distinct today accounts Hnd) as Hdist.
  split; [|split].
  - split; [done|]. split; [done|]. intros u Hu.
    destruct (Hacc u Hu) as (Hp & Hl & Hlg & Hev).
    split; [done|]. split; [done|]. split.
    + destruct (decide (u = orig)) as [->|Hne].
      * exists (log ++ [rawRecord mode d lt]).
        cbn [userExistingData set_userExistingData]. by rewrite !lookup_insert_eq.
      * eapply LogOk_frame; [exact Hlg| |].
        -- cbn [userExistingData set_userExistingData].
           by rewrite lookup_insert_ne by congruence.
        -- destruct (Hdist orig u Horig Hu) as [_ Hd]. destruct (Hd ltac:(congruence)).
           by rewrite lookup_insert_ne.
    + eapply EventsOk_frame; [exact Hev|done| |done].
      destruct (Hdist orig u Horig Hu) as [Hd _]. by rewrite lookup_insert_ne.
  - intros ua' orig' lt' log' [= <-] Horig' Hlower [= <-] Hlog'.
    assert (orig' = orig) as ->.
    { pose proof (findOriginalUserAddress_raw today accounts ud ua orig' Hnd Hkeys
                    Horig' Hlower). congruence. }
    assert (log' = log) as -> by congruence.
    cbn [userExistingData set_userExistingData]. by rewrite !lookup_insert_eq.
  - intros u Hu. destruct (Hdist orig u Horig Hu) as [Hd _]. by rewrite lookup_insert_ne.
Qed.

Lemma descending_snoc events e :
  descending events →
  (∀ e0, last events = Some e0 →
     JS.lt (Event.accountValue e) (Event.accountValue e0) = true) →
  descending (events ++ [e]).
Proof.
  induction events as [|e1 [|e2 rest] IH]; intros Hd Hlast; [done| |].
  - simpl. split; [|done]. by apply Hlast.
  - destruct Hd as [Hlt Hd]. change ((e1 :: e2 :: rest) ++ [e]) with (e1 :: (e2 :: rest) ++ [e]).
    cbn [app descending]. split; [done|]. apply IH; [done|].
    intros e0 He0. apply Hlast. by rewrite last_cons_cons.
Qed.

Lemma ItemEvent_fmap_inj (l1 l2 : list Event.t) :
  ItemEvent <$> l1 = ItemEvent <$> l2 → l1 = l2.
Proof.
  revert l2. induction l1 as [|e1 l1 IH]; intros [|e2 l2] H; try done.
  injection H as -> H. f_equal. by apply IH.
Qed.

Lemma RawInv_highest today accounts v ud fs :
  RawInv today accounts ud fs →
  RawInv today accounts (set_userHighestAccountValues v ud) fs.
Proof. done. Qed.

(** [saveLowestValueEvent] after the tracker of [key] has been set to the
    value of the event: the event goes to the log of the account whose
    configured address is exactly the address of the message. *)
Lemma saveLowestValueEvent_RawInv today accounts ud fs t v key serverTime :
  NoDup (rawFiles today accounts) →
  RawInv today accounts ud fs →
  isNewLowest v (userLowestAccountValues ud !! key) = true →
  let event := {| Event.timestamp := t; Event.accountValue := v;
                  Event.serverTime := serverTime; Event.user := key |} in
  let s := saveLowestValueEvent event
             (set_userLowestAccountValues
                (<[key := Some v]> (userLowestAccountValues ud)) ud, fs) in
  RawInv today accounts s.1 s.2
  ∧ userExistingData s.1 = userExistingData ud
  ∧ (∀ u, key = Some u → u ∈ accounts → u ≠ "" → ∀ events,
       userExistingLowestData ud !! u = Some (DocArray (ItemEvent <$> events)) →
       s.2 !! lowestValuePath today u = Some (DocArray (ItemEvent <$> (events ++ [event]))))
  ∧ ((∀ u, key = Some u → u ∉ accounts) →
     s.2 = fs ∧ userExistingLowestData s.1 = userExistingLowestData ud).
Proof.
  intros Hnd Hinv Hnew event s. pose proof Hinv as (Hkeys & Hdom & Hacc).
  pose proof (rawFiles_distinct today accounts Hnd) as Hdist.
  set (ud1 := set_userLowestAccountValues _ ud) in s.
  assert (∀ u, u ∈ accounts → key ≠ Some u → ∀ ud' fs',
            userExistingData ud' = userExistingData ud →
            userExistingLowestData ud' !! u = userExistingLowestData ud !! u →
            userLowestAccountValues ud' = userLowestAccountValues ud1 →
            fs' !! dataPath today u = fs !! dataPath today u →
            fs' !! lowestValuePath today u = fs !! lowestValuePath today u →
            LogOk today ud' fs' u ∧ EventsOk today ud' fs' u) as Hother.
  { intros u Hu Hkey ud' fs' E1 E2 E3 E4 E5.
    destruct (Hacc u Hu) as (_ & _ & Hlg & Hev). split.
    - eapply LogOk_frame; [exact Hlg|by rewrite E1|done].
    - eapply EventsOk_frame; [exact Hev|done|done|].
      intros _. rewrite E3. unfold ud1. cbn [userLowestAccountValues set_userLowestAccountValues].
      by rewrite lookup_insert_ne. }
  assert (∀ u, u ∈ accounts → JS.or_null key ≠ Some u →
            LogOk today ud1 fs u ∧ EventsOk today ud1 fs u) as Hsame.
  { intros u Hu Hkey. destruct (Hacc u Hu) as (_ & _ & Hlg & Hev). split.
    - by eapply LogOk_frame.
    - eapply EventsOk_frame; [exact Hev|done|done|].
      intros Hne. unfold ud1. cbn [userLowestAccountValues set_userLowestAccountValues].
      rewrite lookup_insert_ne; [done|]. intros ->. apply Hkey.
      simpl. by destruct u. }
  unfold s, saveLowestValueEvent. change (Event.user event) with key.
  destruct (JS.or_null key) as [ua|] eqn:Hua.
  2:{ cbn [fst snd]. split; [|split; [done|split; [|done]]].
      - split; [done|]. split; [done|]. intros u Hu.
        destruct (Hacc u Hu) as (Hp & Hl & _). split; [done|]. split; [done|].
        by apply Hsame.
      - intros u -> _ Hne. simpl in Hua. by destruct u. }
  assert (key = Some ua ∧ ua ≠ "") as [-> Hne].
  { destruct key as [[|c k]|]; simpl in Hua; try done. by injection Hua as <-. }
  change (userLowestValueFiles ud1) with (userLowestValueFiles ud).
  destruct (userLowestValueFiles ud !! ua) as [path|] eqn:Hpath.
  2:{ cbn [fst snd]. split; [|split; [done|split; [|done]]].
      - split; [done|]. split; [done|]. intros u Hu.
        destruct (Hacc u Hu) as (Hp & Hl & _). split; [done|]. split; [done|].
        apply Hsame; [done|]. intros [= ->]. congruence.
      - intros u [= <-] Hu _. destruct (Hacc ua Hu) as (_ & Hl & _). congruence. }
  assert (ua ∈ accounts) as Hin by (apply Hdom; by rewrite Hpath).
  destruct (Hacc ua Hin) as (_ & Hl & Hlg & (events & Hmem & Hfile & Huser & Hdesc & Htrack)).
  assert (path = lowestValuePath today ua) as -> by congruence.
  change (userExistingLowestData ud1) with (userExistingLowestData ud).
  rewrite Hmem. cbn [default from_option Datatypes.id push].
  destruct (rawPath_truthy today ua) as [_ ->]. cbn [fst snd].
  assert ((ItemEvent <$> events) ++ [ItemEvent event] = ItemEvent <$> (events ++ [event]))
    as -> by (by rewrite fmap_app).
  split; [|split; [done|split]].
  - split; [done|]. split; [done|]. intros u Hu.
    destruct (Hacc u Hu) as (Hp & Hl' & _). split; [done|]. split; [done|].
    destruct (decide (u = ua)) as [->|Hneq].
    + split.
      * eapply LogOk_frame; [exact Hlg|done|].
        destruct (Hdist ua ua Hin Hin) as [Hd _]. by rewrite lookup_insert_ne.
      * exists (events ++ [event]).
        cbn [userExistingLowestData set_userExistingLowestData userLowestAccountValues].
        rewrite !lookup_insert_eq. split; [done|]. split; [done|]. split; [|split].
        -- apply Forall_app. split; [done|]. by apply Forall_singleton.
        -- apply descending_snoc; [done|]. intros e0 He0.
           rewrite (Htrack Hne), He0 in Hnew. exact Hnew.
        -- intros _. unfold ud1. cbn [userLowestAccountValues set_userLowestAccountValues].
           by rewrite lookup_insert_eq, last_snoc.
    + apply Hother; try done.
      * congruence.
      * cbn [userExistingLowestData set_userExistingLowestData].
        by rewrite lookup_insert_ne by congruence.
      * destruct (Hdist u ua Hu Hin) as [Hd _]. by rewrite lookup_insert_ne.
      * destruct (Hdist u ua Hu Hin) as [_ Hd]. destruct (Hd Hneq).
        by rewrite lookup_insert_ne.
  - intros u [= <-] _ _ events' Hmem'. rewrite lookup_insert_eq.
    assert (events' = events) as ->; [|done].
    rewrite Hmem in Hmem'. injection Hmem' as Heq.
    by apply ItemEvent_fmap_inj.
  - intros Hno. by destruct (Hno ua eq_refl).
Qed.

Lemma processWebData2Message_RawInv today accounts d t ud fs :
  NoDup (rawFiles today accounts) →
  RawInv today accounts ud fs →
  RawInv today accounts (processWebData2Message d t (ud, fs)).1
    (processWebData2Message d t (ud, fs)).2
  ∧ userExistingData (processWebData2Message d t (ud, fs)).1 = userExistingData ud.
Proof.
  intros Hnd Hinv. unfold processWebData2Message.
  destruct (clearinghouseState d ≫= marginSummary) as [summary|]; [|done].
  destruct (isNewLowest _ _) eqn:Hnew.
  - destruct (saveLowestValueEvent_RawInv today accounts ud fs t
                (JS.parseFloat_opt (accountValue summary)) (user d) (serverTime d)
                Hnd Hinv Hnew) as (Hinv1 & Hdata & _).
    cbv zeta in Hinv1, Hdata.
    destruct (saveLowestValueEvent _ _) as [u1 fs1]. cbn [fst snd] in Hinv1, Hdata.
    destruct (isNewHighest _ _); cbn [fst snd]; [|done].
    split; [by apply RawInv_highest|done].
  - destruct (isNewHighest _ _); cbn [fst snd]; [|done].
    split; [by apply RawInv_highest|done].
Qed.

Lemma handleMessage_persist_other i frame now w :
  (∀ d, frame ≠ JsonValue (Some "webData2") (Some d)) →
  persist (handleMessage i frame now w) = persist w.
Proof.
  intros Hframe. unfold handleMessage. pose proof (countMessage_persist i now w) as Hcount.
  destruct frame as [| |channel data]; [done| |];
    destruct (countMessage i now w) as [w1|w1]; try done.
  case_bool_decide as Hweb.
  - destruct data as [d|]; [subst channel; by destruct (Hframe d)|].
    rewrite <- Hcount. unfold persist, withUserFiles. simpl. by destruct w1.
  - case_bool_decide; [|done]. by rewrite processAllMidsMessage_persist.
Qed.

Lemma persist_proj w w' :
  persist w' = persist w →
  dataSaveMode (client w') = dataSaveMode (client w)
  ∧ userData (client w') = userData (client w) ∧ files w' = files w.
Proof.
  unfold persist. intros H.
  pose proof (f_equal (λ x, x.1.1) H) as H1. pose proof (f_equal (λ x, x.1.2) H) as H2.
  pose proof (f_equal snd H) as H3. done.
Qed.

Lemma fire_RawInv today accounts saveMode w e w' :
  saveMode ≠ historical → NoDup (rawFiles today accounts) →
  PoolOk w → dataSaveMode (client w) = saveMode →
  RawInv today accounts (userData (client w)) (files w) →
  fire w e = Some w' →
  dataSaveMode (client w') = saveMode
  ∧ RawInv today accounts (userData (client w')) (files w').
Proof.
  intros Hm Hnd Hok Hmode Hinv Hrun.
  assert (persist w' = persist w →
          dataSaveMode (client w') = saveMode
          ∧ RawInv today accounts (userData (client w')) (files w')) as Hsame.
  { intros (-> & -> & ->)%persist_proj. done. }
  destruct e as [| | |i frame now| | |];
    try (apply Hsame; apply fire_persist in Hrun as [Hp _]; [exact Hp|exact I]).
  cbn [fire] in Hrun. injection Hrun as <-.
  destruct frame as [| |channel data]; try (by apply Hsame, handleMessage_persist_other).
  destruct (decide (channel = Some "webData2")) as [->|Hch];
    [|apply Hsame, handleMessage_persist_other; congruence].
  destruct data as [d|]; [|by apply Hsame, handleMessage_persist_other].
  destruct (handleMessage_webData2 i d now w Hok) as (Hu & Hf & Hmode' & _).
  rewrite Hu, Hf, Hmode', Hmode. split; [done|].
  destruct (saveData_RawInv today accounts (prices w) saveMode d _ _ Hm Hnd Hinv)
    as (Hinv1 & _).
  destruct (saveData (prices w) saveMode (Some d) (userData (client w), files w))
    as [ud1 fs1]. cbn [fst snd] in Hinv1.
  by apply processWebData2Message_RawInv.
Qed.

Lemma saveData_lowest_side p mode data s :
  userExistingLowestData (saveData p mode data s).1 = userExistingLowestData s.1
  ∧ userLowestValueFiles (saveData p mode data s).1 = userLowestValueFiles s.1.
Proof.
  destruct s as [ud fs]. unfold saveData, saveHistoricalData. by repeat case_match.
Qed.

Lemma files_scheduleConnect l : ∀ w delay,
  files (fold_left scheduleConnect l (w, delay)).1 = files w.
Proof. induction l as [|c l IH]; intros w delay; simpl; [done|]. by rewrite IH. Qed.

(** What holds, in a raw save mode, in every state the client reaches from
    [main] on an empty store. *)
Lemma reach_raw today accounts mode saveMode meta now :
  saveMode ≠ historical → NoDup (rawFiles today accounts) →
  ∃ w0, main today accounts mode saveMode meta now ∅ = Some w0
    ∧ ∀ events w, Forall (wired w0) events → fireAll events w0 = Some w →
        PoolOk w ∧ dataSaveMode (client w) = saveMode
        ∧ RawInv today accounts (userData (client w)) (files w).
Proof.
  intros Hm Hnd.
  destruct (main_run today accounts mode saveMode meta now ∅)
    as (ws & w0 & Hstart & Hmain & -> & _ & Hok & _).
  destruct (start_RawInv today accounts mode saveMode meta now ws Hm
              (rawFiles_NoDup _ _ Hnd) Hstart) as [Hinv0 Hmode0].
  exists (connectAll ws). split; [exact Hmain|].
  assert (dataSaveMode (client (connectAll ws)) = saveMode
          ∧ RawInv today accounts (userData (client (connectAll ws)))
              (files (connectAll ws))) as Hinit.
  { unfold connectAll. destruct (client_scheduleConnect (connections (client (startHealthCheck ws)))
                (startHealthCheck ws) 0%Z) as [-> _].
    by rewrite files_scheduleConnect. }
  clear Hinv0 Hmode0 Hstart Hmain. revert Hok Hinit.
  generalize (connectAll ws) as w0. intros w0 Hok [Hmode Hinv] events.
  revert w0 Hok Hmode Hinv.
  induction events as [|e events IH]; intros w0 Hok Hmode Hinv w Hw Hrun.
  - unfold fireAll in Hrun. simpl in Hrun. by injection Hrun as <-.
  - apply Forall_cons in Hw as [He Hw].
    destruct (fire_follows w0 e Hok He) as (w1 & Hfire & Hf & _).
    unfold fireAll in Hrun. cbn [fold_left mbind option_bind] in Hrun. rewrite Hfire in Hrun.
    destruct (fire_RawInv today accounts saveMode w0 e w1 Hm Hnd Hok Hmode Hinv Hfire)
      as [Hmode1 Hinv1].
    apply (IH w1); try done.
    + by eapply follows_PoolOk.
    + eapply Forall_impl; [exact Hw|]. intros e'. by apply wired_follows.
Qed.

Lemma default_array_snoc (x : option Doc) l r :
  default (DocArray []) x = DocArray (l ++ [r]) → x = Some (DocArray (l ++ [r])).
Proof.
  destruct x as [doc|]; simpl; [by intros ->|].
  intros [= H]. by destruct l.
Qed.

(** X17.  In the raw save modes every message for a configured account is
    logged.  On an empty store, for accounts no two of which share a file, in
    every state reached from [main]: the message log of every account is the
    same in memory and on file; and a [webData2] message whose address is,
    upper and lower case taken as equal, the configured account [orig], and
    whose time stamp can be rendered, adds exactly one record, the payload
    with its local time, at the end of that log, in memory and on file. *)
Theorem raw_message_logged today accounts mode saveMode meta now :
  saveMode ≠ historical → NoDup (rawFiles today accounts) →
  ∃ w0, main today accounts mode saveMode meta now ∅ = Some w0
    ∧ ∀ events w, Forall (wired w0) events → fireAll events w0 = Some w →
        (∀ u, u ∈ accounts →
           ∃ log, userExistingData (userData (client w)) !! u = Some (DocArray log)
                  ∧ default (DocArray []) (files w !! dataPath today u) = DocArray log)
        ∧ ∀ i d t ua orig localTime,
            JS.or_null (user d) = Some ua →
            orig ∈ accounts → JS.toLowerCase ua = JS.toLowerCase orig →
            formatServerTimeToLocal (serverTime d) = Some localTime →
            ∃ log,
              userExistingData (userData (client w)) !! orig = Some (DocArray log)
              ∧ let w' := handleMessage i (JsonValue (Some "webData2") (Some d)) t w in
                files w' !! dataPath today orig
                = Some (DocArray (log ++ [rawRecord saveMode d localTime]))
                ∧ userExistingData (userData (client w')) !! orig
                  = Some (DocArray (log ++ [rawRecord saveMode d localTime])).
Proof.
  intros Hm Hnd.
  destruct (reach_raw today accounts mode saveMode meta now Hm Hnd) as (w0 & Hmain & Hreach).
  exists w0. split; [exact Hmain|]. intros events w Hw Hrun.
  destruct (Hreach events w Hw Hrun) as (Hok & Hmode & Hinv).
  split.
  - intros u Hu. destruct Hinv as (_ & _ & Hacc). by destruct (Hacc u Hu) as (_ & _ & Hlog & _).
  - intros i d t ua orig lt Hua Horig Hlower Htime.
    pose proof Hinv as (_ & _ & Hacc).
    destruct (Hacc orig Horig) as (_ & _ & (log & Hlog & _) & _).
    exists log. split; [exact Hlog|].
    destruct (handleMessage_webData2 i d t w Hok) as (Hu & Hf & _).
    cbv zeta. rewrite Hu, Hf, Hmode.
    destruct (saveData_RawInv today accounts (prices w) saveMode d _ _ Hm Hnd Hinv)
      as (Hinv1 & Happ & _).
    destruct (Happ ua orig lt log Hua Horig Hlower Htime Hlog) as [_ Hmem1].
    destruct (saveData (prices w) saveMode (Some d) (userData (client w), files w))
      as [ud1 fs1]. cbn [fst snd] in Hinv1, Hmem1.
    destruct (processWebData2Message_RawInv today accounts d t ud1 fs1 Hnd Hinv1)
      as [(_ & _ & Hacc2) Hdata].
    destruct (Hacc2 orig Horig) as (_ & _ & (log2 & Hlog2 & Hfile2) & _).
    rewrite Hdata, Hmem1 in Hlog2. injection Hlog2 as <-.
    split; [by apply default_array_snoc|by rewrite Hdata].
Qed.

Lemma sampleRaw_files : NoDup (rawFiles "20250110" ["0xabc"]).
Proof. apply (bool_decide_unpack _). vm_compute. exact I. Qed.

Lemma raw_message_logged_witness :
  ∃ w0 w log,
    main "20250110" ["0xabc"] continuous all true 0 ∅ = Some w0
    ∧ fireAll sampleOpening w0 = Some w
    ∧ files (handleMessage "conn-1" (JsonValue (Some "webData2") (Some (shoutedUpdate "900")))
               30 w) !! dataPath "20250110" "0xabc"
      = Some (DocArray (log ++ [rawRecord all (shoutedUpdate "900") 0])).
Proof.
  destruct (raw_message_logged "20250110" ["0xabc"] continuous all true 0)
    as (w0 & Hmain & Hlogged); [done|exact sampleRaw_files|].
  destruct (sampleMain_fireAll all sampleOpening w0 Hmain eq_refl) as (w & Hrun).
  destruct (Hlogged sampleOpening w (sampleMain_wired all sampleOpening w0 Hmain eq_refl) Hrun)
    as [_ Happ].
  destruct (Happ "conn-1" (shoutedUpdate "900") 30%Z "0XABC" "0xabc" 0%Z)
    as (log & _ & Hfile & _); [reflexivity|apply list_elem_of_here|reflexivity..|].
  exists w0, w, log. split; [exact Hmain|]. split; [exact Hrun|exact Hfile].
Defined.

(** X18.  In the raw save modes the log of lowest-value events of an account
    only ever takes events addressed exactly as the account is configured.
    On an empty store, for accounts no two of which share a file, in every
    state reached from [main]: the log of every account is the same in memory
    and on file, each of its events carries the configured address and is
    strictly below the one before it, and the tracker holds the value of the
    last one; and a [webData2] message whose address is not literally one of
    the configured ones, be it the same but for upper and lower case, leaves
    every such log and its file as they are. *)
Theorem raw_lowest_events_exact_address today accounts mode saveMode meta now :
  saveMode ≠ historical → NoDup (rawFiles today accounts) →
  ∃ w0, main today accounts mode saveMode meta now ∅ = Some w0
    ∧ ∀ events w, Forall (wired w0) events → fireAll events w0 = Some w →
        (∀ u, u ∈ accounts →
           ∃ lows,
             userExistingLowestData (userData (client w)) !! u
             = Some (DocArray (ItemEvent <$> lows))
             ∧ default (DocArray []) (files w !! lowestValuePath today u)
               = DocArray (ItemEvent <$> lows)
             ∧ Forall (λ e, Event.user e = Some u) lows
             ∧ descending lows
             ∧ (u ≠ "" →
                userLowestAccountValues (userData (client w)) !! Some u
                = Some (Event.accountValue <$> last lows)))
        ∧ ∀ i d t,
            (∀ ua, user d = Some ua → ua ∉ accounts) →
            let w' := handleMessage i (JsonValue (Some "webData2") (Some d)) t w in
            userExistingLowestData (userData (client w'))
            = userExistingLowestData (userData (client w))
            ∧ ∀ u, u ∈ accounts →
                files w' !! lowestValuePath today u = files w !! lowestValuePath today u.
Proof.
  intros Hm Hnd.
  destruct (reach_raw today accounts mode saveMode meta now Hm Hnd) as (w0 & Hmain & Hreach).
  exists w0. split; [exact Hmain|]. intros events w Hw Hrun.
  destruct (Hreach events w Hw Hrun) as (Hok & Hmode & Hinv).
  split.
  - intros u Hu. destruct Hinv as (_ & _ & Hacc). by destruct (Hacc u Hu) as (_ & _ & _ & Hev).
  - intros i d t Hexact.
    destruct (handleMessage_webData2 i d t w Hok) as (Hu & Hf & _).
    cbv zeta. rewrite Hu, Hf, Hmode.
    destruct (saveData_RawInv today accounts (prices w) saveMode d _ _ Hm Hnd Hinv)
      as ((_ & Hdom1 & _) & _ & Hframe).
    destruct (saveData_lowest_side (prices w) saveMode (Some d) (userData (client w), files w))
      as [Hlow1 Hfiles1].
    destruct (saveData (prices w) saveMode (Some d) (userData (client w), files w))
      as [ud1 fs1]. cbn [fst snd] in Hdom1, Hframe, Hlow1, Hfiles1.
    destruct (processWebData2Message_logs d t ud1 fs1) as (_ & _ & _ & Hsame).
    destruct Hsame as [-> ->].
    + intros ua Hua. destruct (userLowestValueFiles ud1 !! ua) eqn:Hpath; [|done].
      exfalso. apply (Hexact ua).
      * destruct (user d) as [[|c r]|]; simpl in Hua; congruence.
      * apply Hdom1. by rewrite Hpath.
    + split; [done|]. exact Hframe.
Qed.

Lemma raw_lowest_events_exact_address_witness :
  ∃ w0 w,
    main "20250110" ["0xabc"] continuous all true 0 ∅ = Some w0
    ∧ fireAll sampleOpening w0 = Some w
    ∧ files (handleMessage "conn-1" (JsonValue (Some "webData2") (Some (shoutedUpdate "900")))
               30 w) !! lowestValuePath "20250110" "0xabc"
      = files w !! lowestValuePath "20250110" "0xabc".
Proof.
  destruct (raw_lowest_events_exact_address "20250110" ["0xabc"] continuous all true 0)
    as (w0 & Hmain & Hlows); [done|exact sampleRaw_files|].
  destruct (sampleMain_fireAll all sampleOpening w0 Hmain eq_refl) as (w & Hrun).
  destruct (Hlows sampleOpening w (sampleMain_wired all sampleOpening w0 Hmain eq_refl) Hrun)
    as [_ Hexact].
  exists w0, w. split; [exact Hmain|]. split; [exact Hrun|].
  apply (Hexact "conn-1" (shoutedUpdate "900") 30%Z); [|apply list_elem_of_here].
  intros ua [= <-] Hin%list_elem_of_singleton. discriminate.
Defined.

(** ** Restart in a raw mode *)

Lemma Extremes_snoc seen lowest highest e :
  Extremes seen lowest highest →
  (∀ x, x ∈ seen ++ [e] → Event.accountValue x ≠ JS.NaN) →
  Extremes (seen ++ [e])
    (if isNewLowest (Event.accountValue e) lowest
     then Some (Some (Event.accountValue e)) else lowest)
    (if isNewHighest (Event.accountValue e) highest
     then Some (Some (Event.accountValue e)) else highest).
Proof.
  intros Hex Hnn.
  assert (Event.accountValue e ≠ JS.NaN) as He
    by (apply Hnn, elem_of_app; right; apply list_elem_of_here).
  assert (∃ y l, seen ++ [e] = y :: l) as (y & l & Hcons) by (destruct seen; simpl; eauto).
  unfold Extremes at 1. rewrite Hcons, <- Hcons. clear y l Hcons.
  destruct seen as [|s0 seen0].
  - destruct Hex as [-> ->]. simpl. exists e, e.
    split; [apply list_elem_of_here|]. split; [apply list_elem_of_here|].
    split; [done|]. split; [done|].
    intros x Hx%list_elem_of_singleton. subst x. split; by apply le_refl.
  - set (seen := s0 :: seen0) in *.
    destruct Hex as (lo & hi & Hlo & Hhi & -> & -> & Hall). cbn [isNewLowest isNewHighest].
    assert (Event.accountValue lo ≠ JS.NaN) as Hlonn by (apply Hnn, elem_of_app; by left).
    assert (Event.accountValue hi ≠ JS.NaN) as Hhinn by (apply Hnn, elem_of_app; by left).
    assert (∃ lo', lo' ∈ seen ++ [e]
              ∧ (if JS.lt (Event.accountValue e) (Event.accountValue lo)
                 then Some (Some (Event.accountValue e))
                 else Some (Some (Event.accountValue lo)))
                = Some (Some (Event.accountValue lo'))
              ∧ ∀ x, x ∈ seen ++ [e] →
                  JS.le (Event.accountValue lo') (Event.accountValue x) = true)
      as (lo' & Hlo' & -> & Hmin).
    { destruct (JS.lt _ _) eqn:Hlt.
      - exists e. split; [apply elem_of_app; right; apply list_elem_of_here|].
        split; [done|]. intros x [Hx|Hx]%elem_of_app.
        + eapply le_trans; [by apply lt_le|]. by apply Hall.
        + apply list_elem_of_singleton in Hx as ->. by apply le_refl.
      - exists lo. split; [apply elem_of_app; by left|]. split; [done|].
        intros x [Hx|Hx]%elem_of_app; [by apply Hall|].
        apply list_elem_of_singleton in Hx as ->. by apply not_lt_le. }
    assert (∃ hi', hi' ∈ seen ++ [e]
              ∧ (if JS.gt (Event.accountValue e) (Event.accountValue hi)
                 then Some (Some (Event.accountValue e))
                 else Some (Some (Event.accountValue hi)))
                = Some (Some (Event.accountValue hi'))
              ∧ ∀ x, x ∈ seen ++ [e] →
                  JS.le (Event.accountValue x) (Event.accountValue hi') = true)
      as (hi' & Hhi' & -> & Hmax).
    { unfold JS.gt. destruct (JS.lt _ _) eqn:Hlt.
      - exists e. split; [apply elem_of_app; right; apply list_elem_of_here|].
        split; [done|]. intros x [Hx|Hx]%elem_of_app.
        + eapply le_trans; [by apply Hall|]. by apply lt_le.
        + apply list_elem_of_singleton in Hx as ->. by apply le_refl.
      - exists hi. split; [apply elem_of_app; by left|]. split; [done|].
        intros x [Hx|Hx]%elem_of_app; [by apply Hall|].
        apply list_elem_of_singleton in Hx as ->. by apply not_lt_le. }
    exists lo', hi'. split; [done|]. split; [done|]. split; [done|]. split; [done|].
    intros x Hx. split; [by apply Hmin|by apply Hmax].
Qed.

Lemma loadEvent_run u ud item :
  let v := itemAccountValue item in
  let ud' := loadEvent u ud item in
  userLowestAccountValues ud' !! Some u
  = (if isNewLowest v (userLowestAccountValues ud !! Some u)
     then Some (Some v) else userLowestAccountValues ud !! Some u)
  ∧ userHighestAccountValues ud' !! Some u
    = (if isNewHighest v (userHighestAccountValues ud !! Some u)
       then Some (Some v) else userHighestAccountValues ud !! Some u)
  ∧ userExistingLowestData ud' = userExistingLowestData ud
  ∧ userLowestValueFiles ud' = userLowestValueFiles ud
  ∧ ∀ k, k ≠ Some u →
      userLowestAccountValues ud' !! k = userLowestAccountValues ud !! k
      ∧ userHighestAccountValues ud' !! k = userHighestAccountValues ud !! k.
Proof.
  cbv zeta. unfold loadEvent.
  destruct (isNewLowest _ _); destruct (isNewHighest _ _);
    cbn [userLowestAccountValues userHighestAccountValues set_userLowestAccountValues
         set_userHighestAccountValues];
    rewrite ?lookup_insert_eq; repeat split; try done;
    by rewrite lookup_insert_ne by congruence.
Qed.

Lemma loadEvents_frame u items : ∀ ud,
  let ud' := fold_left (loadEvent u) items ud in
  userExistingLowestData ud' = userExistingLowestData ud
  ∧ userLowestValueFiles ud' = userLowestValueFiles ud
  ∧ ∀ k, k ≠ Some u →
      userLowestAccountValues ud' !! k = userLowestAccountValues ud !! k
      ∧ userHighestAccountValues ud' !! k = userHighestAccountValues ud !! k.
Proof.
  induction items as [|item items IH]; intros ud; [done|].
  cbn [fold_left]. cbv zeta.
  destruct (loadEvent_run u ud item) as (_ & _ & H1 & H2 & H3).
  destruct (IH (loadEvent u ud item)) as (G1 & G2 & G3).
  split; [congruence|]. split; [congruence|]. intros k Hk.
  destruct (H3 k Hk) as [E1 E2]. destruct (G3 k Hk) as [E3 E4]. split; congruence.
Qed.

Lemma loadEvents_Extremes u rest : ∀ seen ud,
  Extremes seen (userLowestAccountValues ud !! Some u)
    (userHighestAccountValues ud !! Some u) →
  (∀ e, e ∈ seen ++ rest → Event.accountValue e ≠ JS.NaN) →
  let ud' := fold_left (loadEvent u) (ItemEvent <$> rest) ud in
  Extremes (seen ++ rest) (userLowestAccountValues ud' !! Some u)
    (userHighestAccountValues ud' !! Some u).
Proof.
  induction rest as [|e rest IH]; intros seen ud Hex Hnn.
  - simpl. by rewrite app_nil_r.
  - cbn [fmap list_fmap fold_left]. cbv zeta.
    rewrite (cons_middle e seen rest), app_assoc. apply IH.
    + destruct (loadEvent_run u ud (ItemEvent e)) as (-> & -> & _).
      apply Extremes_snoc; [done|]. intros x Hx. apply Hnn.
      rewrite (cons_middle e seen rest), app_assoc. apply elem_of_app. by left.
    + by rewrite <- app_assoc.
Qed.

Lemma loadUser_raw_other today mode fs ud u v lows :
  mode ≠ historical → v ≠ u →
  (Unloaded today u ud → Unloaded today u (loadUser mode fs ud v))
  ∧ (Loaded u lows ud → Loaded u lows (loadUser mode fs ud v)).
Proof.
  intros Hm Hne. unfold loadUser. rewrite bool_decide_eq_false_2 by done. cbv zeta.
  set (u1 := match userDataFiles ud !! v ≫= (fs !!.) with
             | Some existingData => _ | None => ud end).
  assert (userLowestValueFiles u1 = userLowestValueFiles ud
          ∧ userExistingLowestData u1 = userExistingLowestData ud
          ∧ userLowestAccountValues u1 = userLowestAccountValues ud
          ∧ userHighestAccountValues u1 = userHighestAccountValues ud) as (E1 & E2 & E3 & E4)
    by (unfold u1; by destruct (_ ≫= _)).
  destruct (userLowestValueFiles ud !! v ≫= (fs !!.)) as [[items|item]|];
    cbv beta iota zeta.
  - set (u2 := set_userExistingLowestData _ u1).
    destruct (loadEvents_frame v items u2) as (F1 & F2 & F3).
    destruct (F3 (Some u)) as [F4 F5]; [congruence|].
    unfold Unloaded, Loaded. rewrite F1, F2, F4, F5. unfold u2.
    cbn [userLowestValueFiles userExistingLowestData userLowestAccountValues
         userHighestAccountValues set_userExistingLowestData].
    rewrite lookup_insert_ne by done. by rewrite E1, E2, E3, E4.
  - unfold Unloaded, Loaded.
    cbn [userLowestValueFiles userExistingLowestData userLowestAccountValues
         userHighestAccountValues set_userExistingLowestData].
    rewrite lookup_insert_ne by done. by rewrite E1, E2, E3, E4.
  - unfold Unloaded, Loaded. by rewrite E1, E2, E3, E4.
Qed.

Lemma loadUser_raw_at today mode fs ud u lows :
  mode ≠ historical →
  fs !! lowestValuePath today u = Some (DocArray (ItemEvent <$> lows)) →
  (∀ e, e ∈ lows → Event.accountValue e ≠ JS.NaN) →
  Unloaded today u ud → Loaded u lows (loadUser mode fs ud u).
Proof.
  intros Hm Hfile Hnn (Hpath & Hlo & Hhi). unfold loadUser.
  rewrite bool_decide_eq_false_2 by done. cbv zeta.
  set (u1 := match userDataFiles ud !! u ≫= (fs !!.) with
             | Some existingData => _ | None => ud end).
  assert (userLowestValueFiles u1 = userLowestValueFiles ud
          ∧ userExistingLowestData u1 = userExistingLowestData ud
          ∧ userLowestAccountValues u1 = userLowestAccountValues ud
          ∧ userHighestAccountValues u1 = userHighestAccountValues ud) as (E1 & E2 & E3 & E4)
    by (unfold u1; by destruct (_ ≫= _)).
  rewrite Hpath. cbn [mbind option_bind]. rewrite Hfile. cbv beta iota zeta.
  set (u2 := set_userExistingLowestData _ u1).
  destruct (loadEvents_frame u (ItemEvent <$> lows) u2) as (F1 & _).
  split.
  - rewrite F1. unfold u2. cbn [userExistingLowestData set_userExistingLowestData].
    by rewrite lookup_insert_eq.
  - apply (loadEvents_Extremes u lows [] u2); [|done].
    unfold u2. cbn [userLowestAccountValues userHighestAccountValues
      set_userExistingLowestData]. rewrite E3, E4, Hlo, Hhi. done.
Qed.

Lemma loadLoop_raw today mode fs u lows l : ∀ ud,
  mode ≠ historical →
  fs !! lowestValuePath today u = Some (DocArray (ItemEvent <$> lows)) →
  (∀ e, e ∈ lows → Event.accountValue e ≠ JS.NaN) →
  NoDup l →
  (u ∈ l → Unloaded today u ud → Loaded u lows (fold_left (loadUser mode fs) l ud))
  ∧ (u ∉ l →
     (Unloaded today u ud → Unloaded today u (fold_left (loadUser mode fs) l ud))
     ∧ (Loaded u lows ud → Loaded u lows (fold_left (loadUser mode fs) l ud))).
Proof.
  induction l as [|v l IH]; intros ud Hm Hfile Hnn Hnd.
  - split; [by intros ?%elem_of_nil|done].
  - apply NoDup_cons in Hnd as [Hv Hnd]. cbn [fold_left].
    destruct (IH (loadUser mode fs ud v) Hm Hfile Hnn Hnd) as [Hin Hout].
    split.
    + intros [->|Hu]%elem_of_cons Hun.
      * destruct (Hout Hv) as [_ Hkeep]. apply Hkeep. by apply (loadUser_raw_at today).
      * apply Hin; [done|]. assert (v ≠ u) as Hne by (by intros ->).
        by apply (loadUser_raw_other today mode fs ud u v lows).
    + intros Hu. apply not_elem_of_cons in Hu as [Hne Hu].
      destruct (Hout Hu) as [H1 H2].
      destruct (loadUser_raw_other today mode fs ud u v lows Hm) as [G1 G2]; [done|].
      split; auto.
Qed.

(** X19.  A restart in a raw mode rebuilds the trackers from the log of
    lowest-value events.  For accounts given without duplicates, when the
    lowest-value file of an account holds an array of events with numeric
    values, at least one: the start succeeds, the log in memory is the file,
    the lowest tracker of the account holds the least value of the log, and
    the highest tracker the greatest value of that same log. *)
Theorem raw_restart_rebuilds_trackers today accounts mode saveMode meta now fs u lows :
  saveMode ≠ historical → NoDup accounts → u ∈ accounts →
  fs !! lowestValuePath today u = Some (DocArray (ItemEvent <$> lows)) →
  lows ≠ [] →
  (∀ e, e ∈ lows → Event.accountValue e ≠ JS.NaN) →
  ∃ w lo hi,
    start today accounts mode saveMode meta now fs = Some w
    ∧ userExistingLowestData (userData (client w)) !! u
      = Some (DocArray (ItemEvent <$> lows))
    ∧ lo ∈ lows ∧ hi ∈ lows
    ∧ userLowestAccountValues (userData (client w)) !! Some u
      = Some (Some (Event.accountValue lo))
    ∧ userHighestAccountValues (userData (client w)) !! Some u
      = Some (Some (Event.accountValue hi))
    ∧ ∀ e, e ∈ lows →
        JS.le (Event.accountValue lo) (Event.accountValue e) = true
        ∧ JS.le (Event.accountValue e) (Event.accountValue hi) = true.
Proof.
  intros Hm Hnd Hu Hfile Hne Hnn.
  destruct (start_run today accounts mode saveMode meta now fs)
    as (w & m & Hstart & _ & _ & _ & _ & _ & _ & _ & _ & _ & _ & _ & _ & Hud & _).
  set (ud0 := initializeUserData today saveMode accounts emptyUserData) in Hud.
  destruct (reach_users today accounts saveMode ud0 eq_refl) as (_ & Hkeys & _).
  destruct (initializeUserData_raw today saveMode accounts Hm u Hu)
    as (_ & Hpath & _ & _ & Hlo & Hhi). fold ud0 in Hpath, Hlo, Hhi.
  destruct (loadLoop_raw today saveMode fs u lows accounts ud0 Hm Hfile Hnn Hnd)
    as [Hload _].
  destruct (Hload Hu) as [Hmem Hex]; [done|].
  unfold loadExistingData in Hud. rewrite (Hkeys Hnd) in Hud. rewrite <- Hud in Hmem, Hex.
  unfold Extremes in Hex. destruct lows as [|e0 lows0]; [done|].
  destruct Hex as (lo & hi & Hlo' & Hhi' & Htl & Hth & Hall).
  exists w, lo, hi. done.
Qed.

Lemma raw_restart_rebuilds_trackers_witness :
  ∃ w lo hi,
    start "20250110" ["0xabc"] continuous all true 50
      {[lowestValuePath "20250110" "0xabc" := DocArray (ItemEvent <$> sampleLows)]} = Some w
    ∧ lo ∈ sampleLows ∧ hi ∈ sampleLows
    ∧ userLowestAccountValues (userData (client w)) !! Some "0xabc"
      = Some (Some (Event.accountValue lo))
    ∧ userHighestAccountValues (userData (client w)) !! Some "0xabc"
      = Some (Some (Event.accountValue hi)).
Proof.
  destruct (raw_restart_rebuilds_trackers "20250110" ["0xabc"] continuous all true 50
              {[lowestValuePath "20250110" "0xabc" := DocArray (ItemEvent <$> sampleLows)]}
              "0xabc" sampleLows)
    as (w & lo & hi & Hstart & _ & Hlo & Hhi & Htl & Hth & _).
  - done.
  - apply NoDup_singleton.
  - apply list_elem_of_here.
  - apply lookup_singleton_eq.
  - done.
  - intros e He. unfold sampleLows in He.
    repeat (apply elem_of_cons in He as [->|He]; [discriminate|]).
    by apply elem_of_nil in He.
  - exists w, lo, hi. done.
Defined.

(** ** Sockets *)

(** X20.  [connectSingle] never closes the socket it replaces.  When the
    connection holds a socket that is open, a new connect opens a second one
    and hands it to the connection; the first stays open with no connection
    holding it, and a later [disconnect], which closes the sockets the
    connections hold, closes the second and leaves the first open. *)
Theorem reconnect_orphans_socket i w c s now :
  NoDup (map id (connections (client w))) →
  conn_get i (connections (client w)) = Some c →
  ws c = Some s → s ∈ openSockets w → s ≠ nextHandle w →
  (∀ c', c' ∈ connections (client w) → id c' ≠ i → ws c' ≠ Some s) →
  let w1 := connectSingle i w in
  conn_get i (connections (client w1)) = Some (set_ws (Some (nextHandle w)) c)
  ∧ s ∈ openSockets w1 ∧ nextHandle w ∈ openSockets w1
  ∧ s ∈ openSockets (disconnect now w1)
  ∧ nextHandle w ∉ openSockets (disconnect now w1).
Proof.
  intros Hnd Hc Hws Hopen Hfresh Hothers. cbv zeta.
  assert (connectSingle i w
          = set_nextHandle (S (nextHandle w))
              (set_openSockets (nextHandle w :: openSockets w)
                 (upd_conn (set_ws (Some (nextHandle w))) i w))) as Hrun
    by (unfold connectSingle; by rewrite Hc).
  rewrite Hrun. clear Hrun.
  set (w1 := set_nextHandle _ _).
  assert (conn_get i (connections (client w1)) = Some (set_ws (Some (nextHandle w)) c)) as Hc1.
  { unfold w1. cbn [client set_nextHandle set_openSockets].
    rewrite conn_get_upd_conn by done. rewrite decide_True by done. by rewrite Hc. }
  split; [exact Hc1|]. split; [by right|]. split; [by left|].
  unfold disconnect.
  set (w2 := match healthCheckInterval (client w1) with
             | Some handle => _ | None => w1 end).
  assert (connections (client w2) = connections (client w1)
          ∧ openSockets w2 = openSockets w1) as [Hc2 Ho2]
    by (unfold w2; by destruct (healthCheckInterval (client w1))).
  destruct (closeLoop_run (connections (client w2)) [] (openSockets w2))
    as (open' & Hloop & Hclosed).
  rewrite Hloop. cbn [updateConnectionStats upd_client set_client openSockets
                      set_openSockets].
  rewrite Hc2, Ho2 in Hclosed. rewrite !Hclosed. split.
  - split; [by right|]. intros c' Hc' Hs.
    change (connections (client w1))
      with (conn_alter (set_ws (Some (nextHandle w))) i (connections (client w))) in Hc'.
    apply list_elem_of_lookup in Hc' as [k Hk].
    destruct (Forall2_lookup_r _ _ _ _ _
                (conn_alter_evolves (set_ws (Some (nextHandle w))) i _
                   (λ c0 _, evolves_set_ws _ c0)) Hk) as (c0 & Hk0 & Hid & _).
    apply list_elem_of_lookup_2 in Hk0 as Hin0. apply list_elem_of_lookup_2 in Hk.
    destruct (decide (id c' = i)) as [Hi|Hi].
    + pose proof (conn_get_elem_of (connections (client w1)) c') as Hget.
      rewrite Hi, Hc1 in Hget.
      assert (Some (set_ws (Some (nextHandle w)) c) = Some c') as [= <-].
      { apply Hget; [|done].
        change (connections (client w1))
          with (conn_alter (set_ws (Some (nextHandle w))) i (connections (client w))).
        by rewrite conn_alter_ids. }
      simpl in Hs. congruence.
    + assert (c' = c0) as ->.
      { pose proof (conn_get_elem_of (connections (client w)) c0 Hnd Hin0) as G0.
        pose proof (conn_get_elem_of (connections (client w1)) c') as G1.
        change (connections (client w1))
          with (conn_alter (set_ws (Some (nextHandle w))) i (connections (client w))) in G1.
        rewrite conn_alter_ids in G1 by done. specialize (G1 Hnd Hk).
        rewrite conn_get_alter in G1 by done.
        rewrite decide_False in G1 by congruence. rewrite Hid in G1. congruence. }
      by apply (Hothers c0).
  - intros [_ Hno]. apply (Hno (set_ws (Some (nextHandle w)) c)); [|done].
    by apply conn_get_Some in Hc1 as [_ ?].
Qed.

Lemma reconnect_orphans_socket_witness :
  1 ∈ openSockets (disconnect 9 (connectSingle "conn-1" (sampleWorld continuous)))
  ∧ 2 ∉ openSockets (disconnect 9 (connectSingle "conn-1" (sampleWorld continuous))).
Proof.
  destruct (reconnect_orphans_socket "conn-1" (sampleWorld continuous) sampleConnection 1 9)
    as (_ & _ & _ & Hleak & Hclosed).
  - apply NoDup_singleton.
  - reflexivity.
  - reflexivity.
  - apply list_elem_of_here.
  - done.
  - intros c' Hc'%list_elem_of_singleton. by subst c'.
  - by split.
Defined.
